(** * Flux: the engagement operations of the social feed, embedded in Rocq

    The server actions of [like.action.ts], [follow.action.ts],
    [post.action.ts], [comment.action.ts] and [notification.action.ts], and
    the optimistic handlers of the [Post], [FollowButton] and
    [CommentsSection] components, as executable definitions over an explicit
    model of the relational store, followed by the properties proved of
    them. *)

From Stdlib Require Import List String Ascii Bool Arith NArith ZArith Lia.
From Stdlib Require Import Sorting.Sorted Sorting.Permutation.
From Stdlib Require Import DecimalString.
Import ListNotations.
Open Scope string_scope.

Set Implicit Arguments.

(* ================================================================== *)
(** ** JavaScript values used by the actions *)
(* ================================================================== *)

Module Js.

(** A JavaScript string as the sequence of its UTF-16 code units: this is
    what [.length] counts and what [.trim()] inspects.  Identifiers and
    messages, which the code only compares and concatenates, are kept as
    Rocq strings. *)
Definition str := list N.

(** ECMAScript [WhiteSpace] and [LineTerminator] code units, the ones
    [String.prototype.trim] strips. *)
Definition isWhiteSpace (c : N) : bool :=
  ((9 <=? c) && (c <=? 13) ||
   (c =? 32) || (c =? 160) || (c =? 5760) ||
   (8192 <=? c) && (c <=? 8202) ||
   (c =? 8232) || (c =? 8233) || (c =? 8239) || (c =? 8287) ||
   (c =? 12288) || (c =? 65279))%N.

Fixpoint trimStart (s : str) : str :=
  match s with
  | c :: r => if isWhiteSpace c then trimStart r else s
  | [] => []
  end.

Definition trimEnd (s : str) : str := rev (trimStart (rev s)).

Definition trim (s : str) : str := trimEnd (trimStart s).

Definition length (s : str) : Z := Z.of_nat (List.length s).

(** Truthiness of a string: only the empty string is falsy. *)
Definition truthy (s : str) : bool :=
  match s with [] => false | _ :: _ => true end.

(** The code units of an ASCII literal, for concrete inputs. *)
Fixpoint lit (s : string) : str :=
  match s with
  | EmptyString => []
  | String c r => N_of_ascii c :: lit r
  end.

(** [x || null] on an optional string: [undefined] and [""] give [null]. *)
Definition orNull (x : option string) : option string :=
  match x with
  | Some EmptyString => None
  | other => other
  end.

End Js.

(* ================================================================== *)
(** ** The relational store *)
(* ================================================================== *)

(** Modelled from the spec: [schema.prisma] is not among the sources.  The
    six tables carry the attributes of the data model that the actions read
    or write; rows are kept in insertion order.  [Post.author] is the
    required relation from [authorId] to the author's Clerk id ([createPost]
    stores the Clerk user id there), so [post.author.clerkId] is
    [authorId]. *)

Record User := mkUser {
  user_id : string;
  clerkId : string;
  username : string;
  user_name : option string;
  user_image : option string
}.

Record Post := mkPost {
  post_id : string;
  post_content : Js.str;
  post_image : option string;
  post_authorId : string;
  post_createdAt : N
}.

Definition author_clerkId (p : Post) : string := post_authorId p.

Record Like := mkLike {
  like_userId : string;
  like_postId : string;
  like_createdAt : N
}.

Record Follows := mkFollows {
  follows_followerId : string;
  follows_followingId : string;
  follows_createdAt : N
}.

Record Comment := mkComment {
  comment_id : string;
  comment_content : Js.str;
  comment_postId : string;
  comment_authorId : string;
  comment_createdAt : N
}.

Inductive NotificationType := LIKE | COMMENT | FOLLOW.

Definition type_eqb (a b : NotificationType) : bool :=
  match a, b with
  | LIKE, LIKE | COMMENT, COMMENT | FOLLOW, FOLLOW => true
  | _, _ => false
  end.

Record Notification := mkNotification {
  notif_id : string;
  notif_userId : string;          (* userId: the recipient *)
  notif_creatorId : string;       (* creatorId: the actor *)
  notif_type : NotificationType;
  notif_postId : option string;
  notif_commentId : option string;
  notif_read : bool;
  notif_createdAt : N
}.

Record DB := mkDB {
  users : list User;
  posts : list Post;
  comments : list Comment;
  likes : list Like;
  follows : list Follows;
  notifications : list Notification;
  nextId : nat;             (* source of generated row ids *)
  clock : N                 (* source of createdAt stamps *)
}.

Definition emptyDB : DB := mkDB [] [] [] [] [] [] 0 0.

(** A comment with its included author ([null] only if the row dangles). *)
Record CommentWithAuthor := mkCommentWithAuthor {
  cwa_comment : Comment;
  cwa_author : option User
}.

(** A post as the feed shows it. *)
Record PostView := mkPostView {
  view_post : Post;
  view_author : option User;
  count_comments : Z;
  count_likes : Z
}.

(** What a call leaves behind: a value or a thrown [Error] with its
    message. *)
Inductive Outcome (A : Type) : Type :=
| Return (a : A)
| Throw (message : string).
Arguments Throw {A} message.

Module Prisma.

Definition opt_eqb (a b : option string) : bool :=
  match a, b with
  | Some x, Some y => String.eqb x y
  | None, None => true
  | _, _ => false
  end.

Definition freshId (d : DB) : string :=
  "c" ++ NilEmpty.string_of_uint (Nat.to_uint (nextId d)).

(** Removes the first row satisfying [f]: a delete on a unique key. *)
Fixpoint removeFirst {A} (f : A -> bool) (l : list A) : list A :=
  match l with
  | [] => []
  | x :: r => if f x then r else x :: removeFirst f r
  end.

Definition set_posts (d : DB) (v : list Post) : DB :=
  mkDB (users d) v (comments d) (likes d) (follows d) (notifications d)
       (nextId d) (clock d).
Definition set_comments (d : DB) (v : list Comment) : DB :=
  mkDB (users d) (posts d) v (likes d) (follows d) (notifications d)
       (nextId d) (clock d).
Definition set_likes (d : DB) (v : list Like) : DB :=
  mkDB (users d) (posts d) (comments d) v (follows d) (notifications d)
       (nextId d) (clock d).
Definition set_follows (d : DB) (v : list Follows) : DB :=
  mkDB (users d) (posts d) (comments d) (likes d) v (notifications d)
       (nextId d) (clock d).
Definition set_notifications (d : DB) (v : list Notification) : DB :=
  mkDB (users d) (posts d) (comments d) (likes d) (follows d) v
       (nextId d) (clock d).
(** Every insert stamps the row with the clock and advances it; inserts
    into tables with a generated id also consume one id. *)
Definition tick (d : DB) : DB :=
  mkDB (users d) (posts d) (comments d) (likes d) (follows d)
       (notifications d) (nextId d) (N.succ (clock d)).
Definition tickId (d : DB) : DB :=
  mkDB (users d) (posts d) (comments d) (likes d) (follows d)
       (notifications d) (S (nextId d)) (N.succ (clock d)).

(** *** user *)
Definition user_findUnique (clerk : string) (d : DB)
  : Outcome (option User) * DB :=
  (Return (find (fun u => clerkId u =? clerk) (users d)), d).

Definition user_findFirst_idOrUsername (key : string) (d : DB)
  : Outcome (option User) * DB :=
  (Return (find (fun u => (clerkId u =? key) || (username u =? key))
                (users d)), d).

(** *** post *)
Definition post_findUnique (id : string) (d : DB)
  : Outcome (option Post) * DB :=
  (Return (find (fun p => post_id p =? id) (posts d)), d).

(** [include: { author, _count: { comments, likes } }]: the row with its
    author and the two aggregate counts. *)
Definition withCounts (d : DB) (p : Post) : PostView :=
  {| view_post := p;
     view_author := find (fun u => clerkId u =? post_authorId p) (users d);
     count_comments :=
       Z.of_nat (List.length
                   (filter (fun c => comment_postId c =? post_id p) (comments d)));
     count_likes :=
       Z.of_nat (List.length
                   (filter (fun l => like_postId l =? post_id p) (likes d))) |}.

Definition post_create (c : Js.str) (img : option string) (author : string)
           (d : DB) : Outcome PostView * DB :=
  let p := mkPost (freshId d) c img author (clock d) in
  let d' := tickId (set_posts d (posts d ++ [p])) in
  (Return (withCounts d' p), d').

(** Deleting a post cascades to its comments and likes. *)
Definition post_delete (id : string) (d : DB) : Outcome Post * DB :=
  match find (fun p => post_id p =? id) (posts d) with
  | None => (Throw "Record to delete does not exist.", d)
  | Some p =>
      let d1 := set_posts d (removeFirst (fun p => post_id p =? id) (posts d)) in
      let d2 := set_comments d1
                  (filter (fun c => negb (comment_postId c =? id)) (comments d1)) in
      let d3 := set_likes d2
                  (filter (fun l => negb (like_postId l =? id)) (likes d2)) in
      (Return p, d3)
  end.

Definition post_count (d : DB) : Outcome Z * DB :=
  (Return (Z.of_nat (List.length (posts d))), d).

(** [orderBy: { createdAt: "desc" }]: a stable insertion sort, newest
    first. *)
Fixpoint insertDesc (p : Post) (l : list Post) : list Post :=
  match l with
  | [] => [p]
  | q :: r =>
      if (post_createdAt q <? post_createdAt p)%N
      then p :: q :: r
      else q :: insertDesc p r
  end.

Definition newestFirst (l : list Post) : list Post :=
  fold_right insertDesc [] l.

(** [take] and [skip] over an ordered result.  A negative [skip] is
    rejected; a negative [take] pages backwards from the end of the
    ordering. *)
Definition page {A} (take skip : Z) (l : list A) : Outcome (list A) :=
  if (skip <? 0)%Z
  then Throw "Invalid value for skip argument: Value can only be positive"
  else if (0 <=? take)%Z
  then Return (firstn (Z.to_nat take) (skipn (Z.to_nat skip) l))
  else Return (rev (firstn (Z.to_nat (- take))
                           (skipn (Z.to_nat skip) (rev l)))).

Definition post_findMany_newestFirst (take skip : Z) (d : DB)
  : Outcome (list PostView) * DB :=
  match page take skip (newestFirst (posts d)) with
  | Return l => (Return (map (withCounts d) l), d)
  | Throw m => (Throw m, d)
  end.

(** *** like *)
Definition like_key (u p : string) (l : Like) : bool :=
  (like_userId l =? u) && (like_postId l =? p).

Definition like_findUnique (u p : string) (d : DB)
  : Outcome (option Like) * DB :=
  (Return (find (like_key u p) (likes d)), d).

Definition like_create (u p : string) (d : DB) : Outcome Like * DB :=
  match find (like_key u p) (likes d) with
  | Some _ =>
      (Throw "Unique constraint failed on the fields: (`userId`,`postId`)", d)
  | None =>
      let l := mkLike u p (clock d) in
      (Return l, tick (set_likes d (likes d ++ [l])))
  end.

Definition like_delete (u p : string) (d : DB) : Outcome Like * DB :=
  match find (like_key u p) (likes d) with
  | None => (Throw "Record to delete does not exist.", d)
  | Some l => (Return l, set_likes d (removeFirst (like_key u p) (likes d)))
  end.

(** *** follows *)
Definition follows_key (a b : string) (f : Follows) : bool :=
  (follows_followerId f =? a) && (follows_followingId f =? b).

Definition follows_findUnique (a b : string) (d : DB)
  : Outcome (option Follows) * DB :=
  (Return (find (follows_key a b) (follows d)), d).

Definition follows_create (a b : string) (d : DB) : Outcome Follows * DB :=
  match find (follows_key a b) (follows d) with
  | Some _ =>
      (Throw
         "Unique constraint failed on the fields: (`followerId`,`followingId`)",
       d)
  | None =>
      let f := mkFollows a b (clock d) in
      (Return f, tick (set_follows d (follows d ++ [f])))
  end.

Definition follows_delete (a b : string) (d : DB) : Outcome Follows * DB :=
  match find (follows_key a b) (follows d) with
  | None => (Throw "Record to delete does not exist.", d)
  | Some f =>
      (Return f, set_follows d (removeFirst (follows_key a b) (follows d)))
  end.

(** *** comment *)
(** [include: { author }] on the created row. *)
Definition comment_create (c : Js.str) (post author : string) (d : DB)
  : Outcome CommentWithAuthor * DB :=
  let r := mkComment (freshId d) c post author (clock d) in
  (Return (mkCommentWithAuthor r (find (fun u => clerkId u =? author) (users d))),
   tickId (set_comments d (comments d ++ [r]))).

Definition comment_findUnique (id : string) (d : DB)
  : Outcome (option Comment) * DB :=
  (Return (find (fun c => comment_id c =? id) (comments d)), d).

Definition comment_delete (id : string) (d : DB) : Outcome Comment * DB :=
  match find (fun c => comment_id c =? id) (comments d) with
  | None => (Throw "Record to delete does not exist.", d)
  | Some c =>
      (Return c,
       set_comments d (removeFirst (fun c => comment_id c =? id) (comments d)))
  end.

(** *** notification *)
Definition notif_matches (recipient actor : string) (t : NotificationType)
           (post : option string) (n : Notification) : bool :=
  (notif_userId n =? recipient) && (notif_creatorId n =? actor) &&
  type_eqb (notif_type n) t && opt_eqb (notif_postId n) post.

Definition notification_findFirst (recipient actor : string)
           (t : NotificationType) (post : string) (d : DB)
  : Outcome (option Notification) * DB :=
  (Return (find (notif_matches recipient actor t (Some post))
                (notifications d)), d).

(** [read] is not part of [data] in any [create] call: the column takes
    its default, unread. *)
Definition notification_create (recipient actor : string)
           (t : NotificationType) (post comment : option string) (d : DB)
  : Outcome Notification * DB :=
  let n := mkNotification (freshId d) recipient actor t post comment false
                          (clock d) in
  (Return n, tickId (set_notifications d (notifications d ++ [n]))).

Definition notification_findUnique (id : string) (d : DB)
  : Outcome (option Notification) * DB :=
  (Return (find (fun n => notif_id n =? id) (notifications d)), d).

Definition markRead (n : Notification) : Notification :=
  mkNotification (notif_id n) (notif_userId n) (notif_creatorId n)
                 (notif_type n) (notif_postId n) (notif_commentId n) true
                 (notif_createdAt n).

Fixpoint updateFirst {A} (f : A -> bool) (g : A -> A) (l : list A) : list A :=
  match l with
  | [] => []
  | x :: r => if f x then g x :: r else x :: updateFirst f g r
  end.

Definition notification_update_read (id : string) (d : DB)
  : Outcome Notification * DB :=
  match find (fun n => notif_id n =? id) (notifications d) with
  | None => (Throw "Record to update not found.", d)
  | Some n =>
      (Return (markRead n),
       set_notifications d
         (updateFirst (fun n => notif_id n =? id) markRead (notifications d)))
  end.

Definition unreadOf (u : string) (n : Notification) : bool :=
  (notif_userId n =? u) && negb (notif_read n).

Definition notification_updateMany_read (u : string) (d : DB)
  : Outcome Z * DB :=
  (Return (Z.of_nat (List.length (filter (unreadOf u) (notifications d)))),
   set_notifications d
     (map (fun n => if unreadOf u n then markRead n else n)
          (notifications d))).

Definition notification_count_unread (u : string) (d : DB)
  : Outcome Z * DB :=
  (Return (Z.of_nat (List.length (filter (unreadOf u) (notifications d)))), d).

Definition notification_delete (id : string) (d : DB)
  : Outcome Notification * DB :=
  match find (fun n => notif_id n =? id) (notifications d) with
  | None => (Throw "Record to delete does not exist.", d)
  | Some n =>
      (Return n,
       set_notifications d
         (removeFirst (fun n => notif_id n =? id) (notifications d)))
  end.

End Prisma.

(* ================================================================== *)
(** ** Requests: session, failures of the store, and what a call leaves *)
(* ================================================================== *)

(** The identity provider's answer for the current request: [auth()] gives
    [userId] (or [null]), [currentUser()] the signed-in user (or [null]). *)
Record ClerkUser := mkClerkUser {
  cu_id : string;
  cu_fullName : option string;
  cu_username : option string;
  cu_emailName : string;     (* emailAddresses[0].emailAddress.split("@")[0] *)
  cu_imageUrl : string
}.

Record Session := mkSession {
  auth_userId : option string;
  currentUser : option ClerkUser
}.

(** The world a server action runs in.  [faults] is the fate of the coming
    store calls, one entry per call: [Some m] makes the call reject with
    message [m] without touching the data, [None] (or an exhausted list)
    lets it through.  [raised] records every rejection of a store call, by
    call name and message, whether injected or raised by the store itself
    (a missing row on delete, a violated unique key). *)
Record World := mkWorld {
  db : DB;
  faults : list (option string);
  raised : list (string * string);
  console : list string;
  revalidated : list string
}.

Definition Action (A : Type) : Type := World -> Outcome A * World.

Definition ret {A} (a : A) : Action A := fun w => (Return a, w).

Definition throw {A} (message : string) : Action A :=
  fun w => (Throw message, w).

Definition bind {A B} (m : Action A) (k : A -> Action B) : Action B :=
  fun w =>
    match m w with
    | (Return a, w') => k a w'
    | (Throw e, w') => (Throw e, w')
    end.

Declare Scope action_scope.
Delimit Scope action_scope with action.
Notation "x <- m ;; k" := (bind m (fun x => k))
  (at level 100, m at next level, right associativity) : action_scope.
Notation "m ;; k" := (bind m (fun _ => k))
  (at level 100, right associativity) : action_scope.
Open Scope action_scope.

(** [try { body } catch (error) { handler(error?.message) }] *)
Definition tryCatch {A} (body : Action A) (handler : string -> Action A)
  : Action A :=
  fun w =>
    match body w with
    | (Return a, w') => (Return a, w')
    | (Throw e, w') => handler e w'
    end.

(** [promise.catch(() => null)] *)
Definition catchNull {A} (m : Action A) : Action (option A) :=
  fun w =>
    match m w with
    | (Return a, w') => (Return (Some a), w')
    | (Throw _, w') => (Return None, w')
    end.

Definition consoleError (label message : string) : Action unit :=
  fun w =>
    (Return tt,
     mkWorld (db w) (faults w) (raised w)
             (console w ++ [label ++ " " ++ message]) (revalidated w)).

Definition revalidatePath (path : string) : Action unit :=
  fun w =>
    (Return tt,
     mkWorld (db w) (faults w) (raised w) (console w)
             (revalidated w ++ [path])).

Definition reject {A} (call message : string) (w : World) : Outcome A * World :=
  (Throw message,
   mkWorld (db w) (faults w) (raised w ++ [(call, message)]) (console w)
           (revalidated w)).

Definition perform {A} (call : string) (op : DB -> Outcome A * DB) (w : World)
  : Outcome A * World :=
  match op (db w) with
  | (Return a, d) =>
      (Return a, mkWorld d (faults w) (raised w) (console w) (revalidated w))
  | (Throw e, d) =>
      reject call e (mkWorld d (faults w) (raised w) (console w) (revalidated w))
  end.

Definition next_fault (rest : list (option string)) (w : World) : World :=
  mkWorld (db w) rest (raised w) (console w) (revalidated w).

(** One awaited call on the Prisma client. *)
Definition prisma {A} (call : string) (op : DB -> Outcome A * DB) : Action A :=
  fun w =>
    match faults w with
    | Some e :: rest => reject call e (next_fault rest w)
    | None :: rest => perform call op (next_fault rest w)
    | [] => perform call op w
    end.

(** [const { userId } = await auth(); if (!userId) throw new Error(m)]:
    [null] and the empty string are falsy. *)
Definition signedIn (s : Session) : option string :=
  match auth_userId s with
  | Some EmptyString => None
  | other => other
  end.

Definition requireAuth (s : Session) (message : string) : Action string :=
  match signedIn s with
  | Some u => ret u
  | None => throw message
  end.

(** The two shapes the mutations answer with: [{ success, <row> }] and
    [{ success, message }] ([deleteNotification] answers a bare
    [{ success }]). *)
Inductive Reply (A : Type) : Type :=
| WithRow (success : bool) (row : A)
| WithMessage (success : bool) (message : string)
| Bare (success : bool).
Arguments WithMessage {A} success message.
Arguments Bare {A} success.

Definition success {A} (r : Reply A) : bool :=
  match r with WithRow s _ => s | WithMessage s _ => s | Bare s => s end.

(* ================================================================== *)
(** ** Server actions *)
(* ================================================================== *)

Module LikeAction.

Definition likePost (s : Session) (postId : string) : Action (Reply Like) :=
  tryCatch
    (userId <- requireAuth s "Unauthorized: Must be logged in to like" ;;
     post <- prisma "post.findUnique" (Prisma.post_findUnique postId) ;;
     match post with
     | None => throw "Post not found"
     | Some post =>
         existingLike <-
           prisma "like.findUnique" (Prisma.like_findUnique userId postId) ;;
         match existingLike with
         | Some _ => ret (WithMessage false "Post already liked")
         | None =>
             like <- prisma "like.create" (Prisma.like_create userId postId) ;;
             (if negb (author_clerkId post =? userId)
              then
                existingNotification <-
                  prisma "notification.findFirst"
                    (Prisma.notification_findFirst
                       (author_clerkId post) userId LIKE postId) ;;
                match existingNotification with
                | None =>
                    prisma "notification.create"
                      (Prisma.notification_create
                         (author_clerkId post) userId LIKE (Some postId) None) ;;
                    ret tt
                | Some _ => ret tt
                end
              else ret tt) ;;
             revalidatePath "/" ;;
             revalidatePath ("/post/" ++ postId) ;;
             ret (WithRow true like)
         end
     end)
    (fun message =>
       consoleError "Error liking post:" message ;;
       throw ("Failed to like post: " ++ message)).

Definition unlikePost (s : Session) (postId : string) : Action (Reply Like) :=
  tryCatch
    (userId <- requireAuth s "Unauthorized: Must be logged in" ;;
     deletedLike <-
       catchNull (prisma "like.delete" (Prisma.like_delete userId postId)) ;;
     match deletedLike with
     | None => ret (WithMessage false "Post not liked")
     | Some _ =>
         revalidatePath "/" ;;
         revalidatePath ("/post/" ++ postId) ;;
         ret (WithMessage true "Post unliked")
     end)
    (fun message =>
       consoleError "Error unliking post:" message ;;
       throw ("Failed to unlike post: " ++ message)).

Definition hasUserLikedPost (s : Session) (postId : string) : Action bool :=
  tryCatch
    (match signedIn s with
     | None => ret false
     | Some userId =>
         like <-
           prisma "like.findUnique" (Prisma.like_findUnique userId postId) ;;
         ret (match like with Some _ => true | None => false end)
     end)
    (fun message =>
       consoleError "Error checking like status:" message ;;
       ret false).

End LikeAction.

Module FollowAction.

Definition followUser (s : Session) (followingId : string)
  : Action (Reply Follows) :=
  tryCatch
    (userId <- requireAuth s "Unauthorized: Must be logged in to follow" ;;
     if userId =? followingId
     then throw "You cannot follow yourself"
     else
       userToFollow <-
         prisma "user.findUnique" (Prisma.user_findUnique followingId) ;;
       match userToFollow with
       | None => throw "User not found"
       | Some userToFollow =>
           existingFollow <-
             prisma "follows.findUnique"
               (Prisma.follows_findUnique userId followingId) ;;
           match existingFollow with
           | Some _ => ret (WithMessage false "Already following user")
           | None =>
               follow <-
                 prisma "follows.create"
                   (Prisma.follows_create userId followingId) ;;
               prisma "notification.create"
                 (Prisma.notification_create followingId userId FOLLOW
                    None None) ;;
               revalidatePath ("/profile/" ++ username userToFollow) ;;
               revalidatePath "/explore" ;;
               revalidatePath "/" ;;
               ret (WithRow true follow)
           end
       end)
    (fun message =>
       consoleError "Error following user:" message ;;
       throw ("Failed to follow user: " ++ message)).

Definition unfollowUser (s : Session) (followingId : string)
  : Action (Reply Follows) :=
  tryCatch
    (userId <- requireAuth s "Unauthorized: Must be logged in" ;;
     deletedFollow <-
       catchNull
         (prisma "follows.delete" (Prisma.follows_delete userId followingId)) ;;
     match deletedFollow with
     | None => ret (WithMessage false "Not following user")
     | Some _ =>
         user <- prisma "user.findUnique" (Prisma.user_findUnique followingId) ;;
         match user with
         | Some user => revalidatePath ("/profile/" ++ username user)
         | None => ret tt
         end ;;
         revalidatePath "/explore" ;;
         revalidatePath "/" ;;
         ret (WithMessage true "User unfollowed")
     end)
    (fun message =>
       consoleError "Error unfollowing user:" message ;;
       throw ("Failed to unfollow user: " ++ message)).

Definition isFollowing (s : Session) (targetUserId : string) : Action bool :=
  tryCatch
    (match signedIn s with
     | None => ret false
     | Some userId =>
         follow <-
           prisma "follows.findUnique"
             (Prisma.follows_findUnique userId targetUserId) ;;
         ret (match follow with Some _ => true | None => false end)
     end)
    (fun message =>
       consoleError "Error checking follow status:" message ;;
       ret false).

End FollowAction.

Module PostAction.

(** [page] and [limit] are taken as integers, with exact arithmetic. *)
Record Feed := mkFeed {
  feed_posts : list PostView;
  total : Z;
  page : Z;
  limit : Z;
  hasMore : bool
}.

Definition createPost (s : Session) (content : Js.str)
           (imageUrl : option string) : Action PostView :=
  tryCatch
    (userId <-
       requireAuth s "Unauthorized: Must be logged in to create post" ;;
     match currentUser s with
     | None => throw "User not found"
     | Some _ =>
         if negb (Js.truthy (Js.trim content))
         then throw "Post content cannot be empty"
         else if (280 <? Js.length content)%Z
         then throw "Post must be 280 characters or less"
         else
           post <-
             prisma "post.create"
               (Prisma.post_create (Js.trim content) (Js.orNull imageUrl)
                  userId) ;;
           revalidatePath "/" ;;
           ret post
     end)
    (fun message =>
       consoleError "Error creating post:" message ;;
       throw ("Failed to create post: " ++ message)).

Definition getFeedPosts (page limit : Z) : Action Feed :=
  tryCatch
    (let offset := ((page - 1) * limit)%Z in
     posts <-
       prisma "post.findMany"
         (Prisma.post_findMany_newestFirst limit offset) ;;
     total <- prisma "post.count" Prisma.post_count ;;
     ret (mkFeed posts total page limit (offset + limit <? total)%Z))
    (fun message =>
       consoleError "Error fetching feed:" message ;;
       throw ("Failed to fetch feed: " ++ message)).

Definition deletePost (s : Session) (postId : string)
  : Action (Reply Post) :=
  tryCatch
    (userId <- requireAuth s "Unauthorized: Must be logged in" ;;
     post <- prisma "post.findUnique" (Prisma.post_findUnique postId) ;;
     match post with
     | None => throw "Post not found"
     | Some post =>
         if negb (author_clerkId post =? userId)
         then throw "Unauthorized: You can only delete your own posts"
         else
           prisma "post.delete" (Prisma.post_delete postId) ;;
           revalidatePath "/" ;;
           ret (WithMessage true "Post deleted successfully")
     end)
    (fun message =>
       consoleError "Error deleting post:" message ;;
       throw ("Failed to delete post: " ++ message)).

End PostAction.

Module CommentAction.

Definition createComment (s : Session) (postId : string) (content : Js.str)
  : Action CommentWithAuthor :=
  tryCatch
    (userId <- requireAuth s "Unauthorized: Must be logged in to comment" ;;
     if negb (Js.truthy (Js.trim content))
     then throw "Comment cannot be empty"
     else
       post <- prisma "post.findUnique" (Prisma.post_findUnique postId) ;;
       match post with
       | None => throw "Post not found"
       | Some post =>
           comment <-
             prisma "comment.create"
               (Prisma.comment_create (Js.trim content) postId userId) ;;
           (if negb (author_clerkId post =? userId)
            then
              prisma "notification.create"
                (Prisma.notification_create (author_clerkId post) userId
                   COMMENT (Some postId)
                   (Some (comment_id (cwa_comment comment)))) ;;
              ret tt
            else ret tt) ;;
           revalidatePath ("/post/" ++ postId) ;;
           revalidatePath "/" ;;
           ret comment
       end)
    (fun message =>
       consoleError "Error creating comment:" message ;;
       throw ("Failed to create comment: " ++ message)).

(** [comment.author.clerkId] is the comment's [authorId], as for posts. *)
Definition deleteComment (s : Session) (commentId : string)
  : Action (Reply Comment) :=
  tryCatch
    (userId <- requireAuth s "Unauthorized: Must be logged in" ;;
     comment <-
       prisma "comment.findUnique" (Prisma.comment_findUnique commentId) ;;
     match comment with
     | None => throw "Comment not found"
     | Some comment =>
         if negb (comment_authorId comment =? userId)
         then throw "Unauthorized: You can only delete your own comments"
         else
           prisma "comment.delete" (Prisma.comment_delete commentId) ;;
           revalidatePath ("/post/" ++ comment_postId comment) ;;
           revalidatePath "/" ;;
           ret (WithMessage true "Comment deleted successfully")
     end)
    (fun message =>
       consoleError "Error deleting comment:" message ;;
       throw ("Failed to delete comment: " ++ message)).

End CommentAction.

Module NotificationAction.

Definition markNotificationAsRead (s : Session) (notificationId : string)
  : Action Notification :=
  tryCatch
    (userId <- requireAuth s "Unauthorized: Must be logged in" ;;
     notification <-
       prisma "notification.findUnique"
         (Prisma.notification_findUnique notificationId) ;;
     match notification with
     | None => throw "Notification not found"
     | Some notification =>
         if negb (notif_userId notification =? userId)
         then throw "Unauthorized: You can only update your own notifications"
         else
           updated <-
             prisma "notification.update"
               (Prisma.notification_update_read notificationId) ;;
           revalidatePath "/notifications" ;;
           ret updated
     end)
    (fun message =>
       consoleError "Error marking notification as read:" message ;;
       throw ("Failed to mark notification: " ++ message)).

Definition markAllNotificationsAsRead (s : Session) : Action string :=
  tryCatch
    (userId <- requireAuth s "Unauthorized: Must be logged in" ;;
     count <-
       prisma "notification.updateMany"
         (Prisma.notification_updateMany_read userId) ;;
     revalidatePath "/notifications" ;;
     ret ("Marked " ++ NilEmpty.string_of_int (Z.to_int count)
          ++ " notifications as read"))
    (fun message =>
       consoleError "Error marking all notifications:" message ;;
       throw ("Failed to mark notifications: " ++ message)).

Definition getUnreadNotificationCount (s : Session) : Action Z :=
  tryCatch
    (match signedIn s with
     | None => ret 0%Z
     | Some userId =>
         count <-
           prisma "notification.count"
             (Prisma.notification_count_unread userId) ;;
         ret count
     end)
    (fun message =>
       consoleError "Error fetching unread count:" message ;;
       ret 0%Z).

Definition deleteNotification (s : Session) (notificationId : string)
  : Action (Reply Notification) :=
  tryCatch
    (userId <- requireAuth s "Unauthorized: Must be logged in" ;;
     notification <-
       prisma "notification.findUnique"
         (Prisma.notification_findUnique notificationId) ;;
     match notification with
     | None => throw "Notification not found"
     | Some notification =>
         if negb (notif_userId notification =? userId)
         then throw "Unauthorized"
         else
           prisma "notification.delete"
             (Prisma.notification_delete notificationId) ;;
           revalidatePath "/notifications" ;;
           ret (Bare true)
     end)
    (fun message =>
       consoleError "Error deleting notification:" message ;;
       throw ("Failed to delete notification: " ++ message)).

End NotificationAction.

(* ================================================================== *)
(** ** Optimistic widgets *)
(* ================================================================== *)

(** What a handler leaves in the browser besides the widget's own state:
    the developer console, the [router.refresh()] calls, and the server
    actions it invoked, in order. *)
Record Browser := mkBrowser {
  browser_console : list string;
  refreshes : nat;
  requests : list string
}.

Definition logError (label message : string) (b : Browser) : Browser :=
  mkBrowser (browser_console b ++ [label ++ " " ++ message]) (refreshes b)
            (requests b).

Definition routerRefresh (b : Browser) : Browser :=
  mkBrowser (browser_console b) (S (refreshes b)) (requests b).

(** [await action(...)] from a client component. *)
Definition await {A} (name : string) (a : Action A) (b : Browser) (w : World)
  : Outcome A * Browser * World :=
  let (r, w') := a w in
  (r, mkBrowser (browser_console b) (refreshes b) (requests b ++ [name]), w').

Module PostWidget.

(** The [useState] cells of [Post]; all that the component renders from
    besides its props. *)
Record State := mkState {
  isLiked : bool;
  likeCount : Z;
  isDeleting : bool
}.

Definition handleLike (user : option ClerkUser) (s : Session)
           (post_id : string) (st : State) (b : Browser) (w : World)
  : State * Browser * World :=
  match user with
  | None => (st, b, w)
  | Some _ =>
      let previousIsLiked := isLiked st in
      let previousCount := likeCount st in
      let st1 :=
        mkState (negb (isLiked st))
                (if negb (isLiked st) then likeCount st + 1
                 else likeCount st - 1)%Z
                (isDeleting st) in
      let '(r, b1, w1) :=
        if isLiked st
        then await "unlikePost" (LikeAction.unlikePost s post_id) b w
        else await "likePost" (LikeAction.likePost s post_id) b w in
      match r with
      | Return _ => (st1, routerRefresh b1, w1)
      | Throw error =>
          (mkState previousIsLiked previousCount (isDeleting st1),
           logError "Error updating like:" error b1, w1)
      end
  end.

End PostWidget.

Module FollowButton.

Record State := mkState {
  isUserFollowing : bool;
  isLoading : bool;
  isSubmitting : bool
}.

Definition handleFollowToggle (s : Session) (userId : string) (st : State)
           (b : Browser) (w : World) : State * Browser * World :=
  let previousFollowing := isUserFollowing st in
  let st1 := mkState (isUserFollowing st) (isLoading st) true in
  let st2 := mkState (negb previousFollowing) (isLoading st1) (isSubmitting st1) in
  let '(r, b1, w1) :=
    if previousFollowing
    then await "unfollowUser" (FollowAction.unfollowUser s userId) b w
    else await "followUser" (FollowAction.followUser s userId) b w in
  let '(st3, b2) :=
    match r with
    | Return _ => (st2, routerRefresh b1)
    | Throw error =>
        (mkState previousFollowing (isLoading st2) (isSubmitting st2),
         logError "Error toggling follow:" error b1)
    end in
  (mkState (isUserFollowing st3) (isLoading st3) false, b2, w1).

End FollowButton.

Module CommentsSection.

Record Author := mkAuthor {
  author_id : string;
  author_name : option string;
  author_username : string;
  author_image : option string
}.

Record CommentView := mkCommentView {
  id : string;
  content : Js.str;
  createdAt : string;
  author : option Author
}.

Record State := mkState {
  comments : list CommentView;
  commentText : Js.str;
  isSubmitting : bool;
  error : option string;
  deletingCommentId : option string
}.

Definition setError (e : option string) (st : State) : State :=
  mkState (comments st) (commentText st) (isSubmitting st) e
          (deletingCommentId st).
Definition setComments (f : list CommentView -> list CommentView)
           (st : State) : State :=
  mkState (f (comments st)) (commentText st) (isSubmitting st) (error st)
          (deletingCommentId st).
Definition setCommentText (t : Js.str) (st : State) : State :=
  mkState (comments st) t (isSubmitting st) (error st)
          (deletingCommentId st).
Definition setIsSubmitting (v : bool) (st : State) : State :=
  mkState (comments st) (commentText st) v (error st)
          (deletingCommentId st).

(** [a || b] on an optional string. *)
Definition orElse (a : option string) (b : string) : string :=
  match Js.orNull a with Some x => x | None => b end.

(** [{ ...newComment, createdAt: <ISO string> }]: the comment the server
    answered with, as the list keeps it. *)
Definition confirmed (toISOString : N -> string) (c : CommentWithAuthor)
  : CommentView :=
  mkCommentView (comment_id (cwa_comment c))
                (comment_content (cwa_comment c))
                (toISOString (comment_createdAt (cwa_comment c)))
                (option_map
                   (fun u => mkAuthor (user_id u) (user_name u) (username u)
                                      (user_image u))
                   (cwa_author c)).

(** [now] is [Date.now()], [toISOString] renders a timestamp. *)
Definition handleSubmitComment (user : option ClerkUser) (s : Session)
           (postId : string) (now : N) (toISOString : N -> string)
           (st : State) (b : Browser) (w : World)
  : State * Browser * World :=
  match user with
  | None => (setError (Some "You must be signed in to comment") st, b, w)
  | Some user =>
      if negb (Js.truthy (Js.trim (commentText st)))
      then (setError (Some "Comment cannot be empty") st, b, w)
      else
        let text := commentText st in
        let st1 := setError None (setIsSubmitting true st) in
        let me :=
          mkAuthor (cu_id user) (cu_fullName user)
                   (orElse (cu_username user) (cu_emailName user))
                   (Some (cu_imageUrl user)) in
        let optimisticComment :=
          mkCommentView ("temp-" ++ NilEmpty.string_of_uint (N.to_uint now))
                        text (toISOString now) (Some me) in
        let st2 :=
          setCommentText []
            (setComments (fun prev => optimisticComment :: prev) st1) in
        let '(r, b1, w1) :=
          await "createComment"
                (CommentAction.createComment s postId text) b w in
        let '(st3, b2) :=
          match r with
          | Return newComment =>
              (setComments
                 (map (fun c =>
                         if id c =? id optimisticComment
                         then confirmed toISOString newComment
                         else c)) st2,
               routerRefresh b1)
          | Throw message =>
              (setError (Some message)
                 (setComments
                    (filter (fun c => negb (id c =? id optimisticComment)))
                    st2),
               b1)
          end in
        (setIsSubmitting false st3, b2, w1)
  end.

End CommentsSection.

(* ================================================================== *)
(** ** Runs, calls and reachable stores *)
(* ================================================================== *)

Definition run {A} (m : Action A) (w : World) : World := snd (m w).
Definition result {A} (m : Action A) (w : World) : Outcome A := fst (m w).

(** A world with no failure pending and nothing logged. *)
Definition quiet (d : DB) : World := mkWorld d [] [] [] [].

(** A request signed in as [u]; a request with no session. *)
Definition signed (u : string) : Session :=
  mkSession (Some u) (Some (mkClerkUser u None (Some u) u "/avatar.png")).
Definition anonymous : Session := mkSession None None.

(** The mutations a client can invoke. *)
Inductive Call :=
| CreatePost (content : Js.str) (imageUrl : option string)
| DeletePost (postId : string)
| LikePost (postId : string)
| UnlikePost (postId : string)
| FollowUser (followingId : string)
| UnfollowUser (followingId : string)
| CreateComment (postId : string) (content : Js.str)
| DeleteComment (commentId : string)
| MarkNotificationAsRead (notificationId : string)
| MarkAllNotificationsAsRead
| DeleteNotification (notificationId : string).

Definition exec (s : Session) (c : Call) (w : World) : World :=
  match c with
  | CreatePost content imageUrl => run (PostAction.createPost s content imageUrl) w
  | DeletePost postId => run (PostAction.deletePost s postId) w
  | LikePost postId => run (LikeAction.likePost s postId) w
  | UnlikePost postId => run (LikeAction.unlikePost s postId) w
  | FollowUser followingId => run (FollowAction.followUser s followingId) w
  | UnfollowUser followingId => run (FollowAction.unfollowUser s followingId) w
  | CreateComment postId content =>
      run (CommentAction.createComment s postId content) w
  | DeleteComment commentId => run (CommentAction.deleteComment s commentId) w
  | MarkNotificationAsRead notificationId =>
      run (NotificationAction.markNotificationAsRead s notificationId) w
  | MarkAllNotificationsAsRead =>
      run (NotificationAction.markAllNotificationsAsRead s) w
  | DeleteNotification notificationId =>
      run (NotificationAction.deleteNotification s notificationId) w
  end.

(** The stores the application can be in: user rows come from the identity
    sync, every other row from a mutation above, called under any session,
    with any arguments and whatever failures of the store. *)
Inductive reachable : DB -> Prop :=
| reach_init (us : list User) (n : nat) (t : N) :
    reachable (mkDB us [] [] [] [] [] n t)
| reach_step (w : World) (s : Session) (c : Call) :
    reachable (db w) -> reachable (db (exec s c w)).

(** A LIKE notification to [recipient] about [actor] liking [post]. *)
Definition isLikeFor (recipient actor post : string) (n : Notification) : Prop :=
  notif_userId n = recipient /\ notif_creatorId n = actor /\
  notif_type n = LIKE /\ notif_postId n = Some post.

Definition unreadLikes (recipient actor post : string) (d : DB) : nat :=
  List.length
    (filter (fun n => Prisma.notif_matches recipient actor LIKE (Some post) n
                      && negb (notif_read n))
            (notifications d)).

Definition noSelfNotification (n : Notification) : Prop :=
  notif_creatorId n <> notif_userId n.

(** Creation time, newest first. *)
Definition newerOrEqual (p q : Post) : Prop :=
  (post_createdAt q <= post_createdAt p)%N.

Definition validContent (c : Js.str) : Prop :=
  c <> [] /\ (1 <= Js.length c <= 280)%Z.

(** Like, unlike, like again: the cycle of a user toggling the heart. *)
Definition likeUnlikeLike (s : Session) (postId : string) (w : World) : World :=
  run (LikeAction.likePost s postId)
      (run (LikeAction.unlikePost s postId)
           (run (LikeAction.likePost s postId) w)).

(* ================================================================== *)
(** ** Store errors: what an action does with them *)
(* ================================================================== *)


(** An action [surfaces] store errors when a run that saw a store call
    rejected ends by throwing that very message; [wraps prefix] is the same
    with the message behind the action's prefix. *)
Definition surfaces {A} (m : Action A) : Prop :=
  forall w,
    raised (snd (m w)) = raised w \/
    exists call e,
      raised (snd (m w)) = (raised w ++ [(call, e)])%list /\ fst (m w) = Throw e.

Definition wraps {A} (prefix : string) (m : Action A) : Prop :=
  forall w,
    raised (snd (m w)) = raised w \/
    exists call e,
      raised (snd (m w)) = (raised w ++ [(call, e)])%list /\
      fst (m w) = Throw (prefix ++ e).

(** The complement for reads that fall back to a default. *)
Definition defaults {A} (dflt : A) (m : Action A) : Prop :=
  forall w,
    (exists a, fst (m w) = Return a) /\
    (raised (snd (m w)) <> raised w -> fst (m w) = Return dflt).

(* ================================================================== *)
(** ** A small network: Alice posts, Bob reacts *)
(* ================================================================== *)

Module Scenario.

Definition alice : Session := signed "user_alice".
Definition bob : Session := signed "user_bob".

Definition twoUsers : DB :=
  mkDB [mkUser "u1" "user_alice" "alice" (Some "Alice") None;
        mkUser "u2" "user_bob" "bob" (Some "Bob") None]
       [] [] [] [] [] 0 0.

(** Alice posts "hello": the post gets id [c0]. *)
Definition posted : World :=
  exec alice (CreatePost (Js.lit "hello") None) (quiet twoUsers).

(** Bob likes it: Alice gets notification [c1]. *)
Definition liked : World := exec bob (LikePost "c0") posted.

(** Alice reads the notification. *)
Definition seen : World :=
  exec alice (MarkNotificationAsRead "c1") liked.

(** Bob takes the like back. *)
Definition unliked : World := exec bob (UnlikePost "c0") seen.

(** Bob follows Alice. *)
Definition followed : World :=
  exec bob (FollowUser "user_alice") (quiet twoUsers).

(** A store whose next call fails. *)
Definition failing (d : DB) : World :=
  mkWorld d [Some "Can't reach database server"] [] [] [].

End Scenario.

(* ================================================================== *)
(** ** Writes, and the stores they keep well formed *)
(* ================================================================== *)

(** One write of the store, with what the calling action has checked
    before issuing it. *)
Inductive change : DB -> DB -> Prop :=
| ch_post_create c img a d :
    validContent c ->
    change d (snd (Prisma.post_create c img a d))
| ch_post_delete id d :
    change d (snd (Prisma.post_delete id d))
| ch_like_create u p d post :
    find (fun x => post_id x =? p) (posts d) = Some post ->
    change d (snd (Prisma.like_create u p d))
| ch_like_delete u p d :
    change d (snd (Prisma.like_delete u p d))
| ch_follows_create a b d u :
    a <> b ->
    find (fun x => clerkId x =? b) (users d) = Some u ->
    change d (snd (Prisma.follows_create a b d))
| ch_follows_delete a b d :
    change d (snd (Prisma.follows_delete a b d))
| ch_comment_create c p a d :
    change d (snd (Prisma.comment_create c p a d))
| ch_comment_delete id d :
    change d (snd (Prisma.comment_delete id d))
| ch_notification_create r a t p c d :
    a <> r ->
    change d (snd (Prisma.notification_create r a t p c d))
| ch_notification_update_read id d :
    change d (snd (Prisma.notification_update_read id d))
| ch_notification_updateMany_read u d :
    change d (snd (Prisma.notification_updateMany_read u d))
| ch_notification_delete id d :
    change d (snd (Prisma.notification_delete id d)).

Inductive changes : DB -> DB -> Prop :=
| changes_none d : changes d d
| changes_then d d' d'' : change d d' -> changes d' d'' -> changes d d''.

(** Referential integrity and the invariants of the data model: every like
    is of an existing post and unique for its (user, post); every follow
    edge joins two different users and ends at a known user; no
    notification is addressed to its own actor; every post has content of
    1 to 280 code units. *)
Record wellFormed (d : DB) : Prop := mkWellFormed {
  wf_like_post :
    forall l, In l (likes d) ->
              exists p, In p (posts d) /\ post_id p = like_postId l;
  wf_like_unique :
    forall u p, List.length (filter (Prisma.like_key u p) (likes d)) <= 1;
  wf_follows :
    forall f, In f (follows d) ->
              follows_followerId f <> follows_followingId f /\
              exists u, In u (users d) /\ clerkId u = follows_followingId f;
  wf_follows_unique :
    forall a b, List.length (filter (Prisma.follows_key a b) (follows d)) <= 1;
  wf_notifications : Forall noSelfNotification (notifications d);
  wf_posts : forall p, In p (posts d) -> validContent (post_content p)
}.

(* ================================================================== *)
(** ** Read queries of the store *)
(* ================================================================== *)

(** Modelled from the spec: with [schema.prisma] absent, the relations the
    read queries include are joined the way the mutations write the
    columns: [Like.userId], [Follows.followerId], [Follows.followingId],
    [Comment.authorId] and [Notification.creatorId] hold Clerk ids
    ([followUser] checks the followee by [clerkId]); a user's [followers]
    are the edges pointing at that Clerk id; [Notification.postId] and
    [commentId] point at row ids. *)
Module Query.

(** [orderBy: { <key>: "desc" }], as a stable insertion sort. *)
Fixpoint insertDescBy {A} (key : A -> N) (x : A) (l : list A) : list A :=
  match l with
  | [] => [x]
  | y :: r =>
      if (key y <? key x)%N then x :: y :: r else y :: insertDescBy key x r
  end.

Definition sortDescBy {A} (key : A -> N) (l : list A) : list A :=
  fold_right (insertDescBy key) [] l.

Definition userByClerkId (d : DB) (clerk : string) : option User :=
  find (fun u => clerkId u =? clerk) (users d).

(** *** like.findMany({ where: { postId }, include: { user }, orderBy }) *)
Definition like_findMany_byPost (post : string) (d : DB)
  : Outcome (list (Like * option User)) * DB :=
  (Return (map (fun l => (l, userByClerkId d (like_userId l)))
               (sortDescBy like_createdAt
                  (filter (fun l => like_postId l =? post) (likes d)))), d).

(** *** follows.findMany, by followee and by follower *)
Definition follows_findMany_byFollowing (clerk : string) (d : DB)
  : Outcome (list (Follows * option User)) * DB :=
  (Return (map (fun f => (f, userByClerkId d (follows_followerId f)))
               (sortDescBy follows_createdAt
                  (filter (fun f => follows_followingId f =? clerk)
                          (follows d)))), d).

Definition follows_findMany_byFollower (clerk : string) (d : DB)
  : Outcome (list (Follows * option User)) * DB :=
  (Return (map (fun f => (f, userByClerkId d (follows_followingId f)))
               (sortDescBy follows_createdAt
                  (filter (fun f => follows_followerId f =? clerk)
                          (follows d)))), d).

(** [select: { followingId: true }], in store order. *)
Definition follows_findMany_followingIds (clerk : string) (d : DB)
  : Outcome (list string) * DB :=
  (Return (map follows_followingId
               (filter (fun f => follows_followerId f =? clerk) (follows d))),
   d).

(** *** user.findMany for the suggestions *)
Definition followersOf (d : DB) (u : User) : list Follows :=
  filter (fun f => follows_followingId f =? clerkId u) (follows d).

(** A user with [_count: { followers }]. *)
Record UserCard := mkUserCard {
  card_user : User;
  card_followers : Z
}.

Definition card (d : DB) (u : User) : UserCard :=
  mkUserCard u (Z.of_nat (List.length (followersOf d u))).

Definition followerCount (d : DB) (u : User) : N :=
  N.of_nat (List.length (followersOf d u)).

(** [take: limit, orderBy: { followers: { _count: "desc" } }] *)
Definition user_findMany_popular (take : Z) (d : DB)
  : Outcome (list UserCard) * DB :=
  match Prisma.page take 0 (sortDescBy (followerCount d) (users d)) with
  | Return l => (Return (map (card d) l), d)
  | Throw m => (Throw m, d)
  end.

Definition inList (x : string) (l : list string) : bool :=
  existsb (fun y => y =? x) l.

(** [where: { AND: [ { clerkId: { not: userId } },
                     { followers: { none: { followerId: userId } } },
                     { followers: { some: { followerId: { in: ids } } } } ] }] *)
Definition suggested (d : DB) (userId : string) (ids : list string) (u : User)
  : bool :=
  negb (clerkId u =? userId)
  && negb (existsb (fun f => follows_followerId f =? userId) (followersOf d u))
  && existsb (fun f => inList (follows_followerId f) ids) (followersOf d u).

Definition user_findMany_suggested (userId : string) (ids : list string)
           (take : Z) (d : DB) : Outcome (list UserCard) * DB :=
  match Prisma.page take 0 (filter (suggested d userId ids) (users d)) with
  | Return l => (Return (map (card d) l), d)
  | Throw m => (Throw m, d)
  end.

(** *** post.findMany({ where: { authorId }, orderBy, include }) *)
Definition post_findMany_byAuthor (author : string) (d : DB)
  : Outcome (list PostView) * DB :=
  (Return (map (Prisma.withCounts d)
               (sortDescBy post_createdAt
                  (filter (fun p => post_authorId p =? author) (posts d)))), d).

(** *** comment.findMany({ where: { postId }, include: { author }, orderBy }) *)
Definition commentsOf (d : DB) (post : string) : list CommentWithAuthor :=
  map (fun c => mkCommentWithAuthor c (userByClerkId d (comment_authorId c)))
      (sortDescBy comment_createdAt
         (filter (fun c => comment_postId c =? post) (comments d))).

Definition comment_findMany_byPost (post : string) (d : DB)
  : Outcome (list CommentWithAuthor) * DB :=
  (Return (commentsOf d post), d).

(** *** post.findUnique with comments, likes and counts *)
Record PostDetail := mkPostDetail {
  detail_post : PostView;
  detail_comments : list CommentWithAuthor;
  detail_likes : list string       (* likes: { select: { userId } } *)
}.

Definition post_findUnique_detail (id : string) (d : DB)
  : Outcome (option PostDetail) * DB :=
  (Return
     (option_map
        (fun p =>
           mkPostDetail (Prisma.withCounts d p) (commentsOf d (post_id p))
             (map like_userId
                  (filter (fun l => like_postId l =? post_id p) (likes d))))
        (find (fun p => post_id p =? id) (posts d))), d).

(** *** notification.findMany for the recipient *)
Record NotificationView := mkNotificationView {
  nv_notification : Notification;
  nv_creator : option User;
  nv_post : option Post;
  nv_comment : option Comment
}.

Definition notificationView (d : DB) (n : Notification) : NotificationView :=
  mkNotificationView n
    (userByClerkId d (notif_creatorId n))
    (match notif_postId n with
     | Some p => find (fun x => post_id x =? p) (posts d)
     | None => None
     end)
    (match notif_commentId n with
     | Some c => find (fun x => comment_id x =? c) (comments d)
     | None => None
     end).

(** [where: { userId, ...(unreadOnly && { read: false }) }] *)
Definition wanted (userId : string) (unreadOnly : bool) (n : Notification)
  : bool :=
  (notif_userId n =? userId) && (if unreadOnly then negb (notif_read n) else true).

Definition notification_findMany (userId : string) (unreadOnly : bool) (d : DB)
  : Outcome (list NotificationView) * DB :=
  (Return (map (notificationView d)
               (sortDescBy notif_createdAt
                  (filter (wanted userId unreadOnly) (notifications d)))), d).

End Query.

(** Largest key first. *)
Definition descBy {A} (key : A -> N) (x y : A) : Prop := (key y <= key x)%N.

(* ================================================================== *)
(** ** Read actions *)
(* ================================================================== *)

Module ReadAction.

Definition getPostLikes (postId : string) : Action (list (option User)) :=
  tryCatch
    (likes <- prisma "like.findMany" (Query.like_findMany_byPost postId) ;;
     ret (map snd likes))
    (fun message =>
       consoleError "Error fetching post likes:" message ;;
       throw ("Failed to fetch likes: " ++ message)).

Definition getUserFollowers (userId : string) : Action (list (option User)) :=
  tryCatch
    (follows <-
       prisma "follows.findMany" (Query.follows_findMany_byFollowing userId) ;;
     ret (map snd follows))
    (fun message =>
       consoleError "Error fetching followers:" message ;;
       throw ("Failed to fetch followers: " ++ message)).

Definition getUserFollowing (userId : string) : Action (list (option User)) :=
  tryCatch
    (follows <-
       prisma "follows.findMany" (Query.follows_findMany_byFollower userId) ;;
     ret (map snd follows))
    (fun message =>
       consoleError "Error fetching following:" message ;;
       throw ("Failed to fetch following: " ++ message)).

Definition getSuggestedUsers (s : Session) (limit : Z)
  : Action (list Query.UserCard) :=
  tryCatch
    (match signedIn s with
     | None =>
         popularUsers <-
           prisma "user.findMany" (Query.user_findMany_popular limit) ;;
         ret popularUsers
     | Some userId =>
         followingIds <-
           prisma "follows.findMany" (Query.follows_findMany_followingIds userId) ;;
         suggestedUsers <-
           prisma "user.findMany"
             (Query.user_findMany_suggested userId
                (match followingIds with [] => [""] | _ :: _ => followingIds end)
                limit) ;;
         ret suggestedUsers
     end)
    (fun message =>
       consoleError "Error fetching suggested users:" message ;;
       throw ("Failed to fetch suggestions: " ++ message)).

Definition getUserPosts (userId : string) : Action (list PostView) :=
  tryCatch
    (user <-
       prisma "user.findFirst" (Prisma.user_findFirst_idOrUsername userId) ;;
     match user with
     | None => throw "User not found"
     | Some user =>
         posts <-
           prisma "post.findMany" (Query.post_findMany_byAuthor (user_id user)) ;;
         ret posts
     end)
    (fun message =>
       consoleError "Error fetching user posts:" message ;;
       throw ("Failed to fetch user posts: " ++ message)).

Definition getPostDetail (postId : string) : Action Query.PostDetail :=
  tryCatch
    (post <- prisma "post.findUnique" (Query.post_findUnique_detail postId) ;;
     match post with
     | None => throw "Post not found"
     | Some post => ret post
     end)
    (fun message =>
       consoleError "Error fetching post detail:" message ;;
       throw ("Failed to fetch post: " ++ message)).

Definition getPostComments (postId : string) : Action (list CommentWithAuthor) :=
  tryCatch
    (comments <-
       prisma "comment.findMany" (Query.comment_findMany_byPost postId) ;;
     ret comments)
    (fun message =>
       consoleError "Error fetching comments:" message ;;
       throw ("Failed to fetch comments: " ++ message)).

Definition getUserNotifications (s : Session) (unreadOnly : bool)
  : Action (list Query.NotificationView) :=
  tryCatch
    (userId <- requireAuth s "Unauthorized: Must be logged in" ;;
     notifications <-
       prisma "notification.findMany"
         (Query.notification_findMany userId unreadOnly) ;;
     ret notifications)
    (fun message =>
       consoleError "Error fetching notifications:" message ;;
       throw ("Failed to fetch notifications: " ++ message)).

End ReadAction.

(* ================================================================== *)
(** ** Client components around the actions *)
(* ================================================================== *)

(** [`${n}`] for an integer. *)
Definition showZ (n : Z) : string := NilEmpty.string_of_int (Z.to_int n).

(** The relative time shown on posts and notifications; [now] and [date]
    are [getTime()] milliseconds.  [CommentsSection] uses the same buckets
    without the [" ago"]. *)
Module TimeAgo.

Definition seconds (now date : Z) : Z := ((now - date) / 1000)%Z.

Definition formatTime (now date : Z) : string :=
  let seconds := seconds now date in
  if (seconds <? 60)%Z then "now"
  else if (seconds <? 3600)%Z then showZ (seconds / 60) ++ "m ago"
  else if (seconds <? 86400)%Z then showZ (seconds / 3600) ++ "h ago"
  else showZ (seconds / 86400) ++ "d ago".

Definition formatTimeShort (now date : Z) : string :=
  let seconds := seconds now date in
  if (seconds <? 60)%Z then "now"
  else if (seconds <? 3600)%Z then showZ (seconds / 60) ++ "m"
  else if (seconds <? 86400)%Z then showZ (seconds / 3600) ++ "h"
  else showZ (seconds / 86400) ++ "d".

End TimeAgo.

(** The bell of [DesktopNavbar]: the text of the badge, when there is one. *)
Module DesktopNavbar.

Definition unreadCount (s : Session) (b : Browser) (w : World)
  : Z * Browser * World :=
  match currentUser s with
  | None => (0%Z, b, w)
  | Some _ =>
      let '(r, b1, w1) :=
        await "getUnreadNotificationCount"
              (NotificationAction.getUnreadNotificationCount s) b w in
      match r with
      | Return n => (n, b1, w1)
      | Throw error =>
          (0%Z, logError "Error fetching notification count:" error b1, w1)
      end
  end.

Definition badge (unreadCount : Z) : option string :=
  if (0 <? unreadCount)%Z
  then Some (if (9 <? unreadCount)%Z then "9+" else showZ unreadCount)
  else None.

End DesktopNavbar.

Module Feed.

(** [{ ...post, content: post.content ?? "", createdAt: <ISO string> }] *)
Record FeedPost := mkFeedPost {
  fp_post : PostView;
  fp_createdAt : string
}.

Definition fp_id (p : FeedPost) : string := post_id (view_post (fp_post p)).

Record State := mkState {
  posts : list FeedPost;
  page : Z;
  isLoading : bool;
  error : option string;
  hasMore : bool
}.

Definition initial : State := mkState [] 1 true None true.

Definition serialize (toISOString : N -> string) (v : PostView) : FeedPost :=
  mkFeedPost v (toISOString (post_createdAt (view_post v))).

(** The effect [loadPosts], run on mount and whenever [page] changes. *)
Definition loadPosts (toISOString : N -> string) (st : State) (b : Browser)
           (w : World) : State * Browser * World :=
  let st1 := mkState (posts st) (page st) true None (hasMore st) in
  let st2 :=
    if (page st1 =? 1)%Z
    then mkState [] (page st1) (isLoading st1) (error st1) (hasMore st1)
    else st1 in
  let '(r, b1, w1) :=
    await "getFeedPosts" (PostAction.getFeedPosts (page st) 10) b w in
  let '(st3, b2) :=
    match r with
    | Return result =>
        let newPosts :=
          map (serialize toISOString) (PostAction.feed_posts result) in
        (mkState (if (page st =? 1)%Z then newPosts
                  else (posts st2 ++ newPosts)%list)
                 (page st2) (isLoading st2) (error st2)
                 (PostAction.hasMore result),
         b1)
    | Throw message =>
        (mkState (posts st2) (page st2) (isLoading st2) (Some message)
                 (hasMore st2),
         logError "Error loading posts:" message b1)
    end in
  (mkState (posts st3) (page st3) false (error st3) (hasMore st3), b2, w1).

(** [setPage]: a new value re-renders and re-runs the effect, whose
    dependency is [page]; the same value does neither. *)
Definition setPage (toISOString : N -> string) (p : Z) (st : State)
           (b : Browser) (w : World) : State * Browser * World :=
  if (p =? page st)%Z then (st, b, w)
  else loadPosts toISOString
         (mkState (posts st) p (isLoading st) (error st) (hasMore st)) b w.

Definition handleLoadMore (toISOString : N -> string) (st : State)
           (b : Browser) (w : World) : State * Browser * World :=
  if negb (isLoading st) && hasMore st
  then setPage toISOString (page st + 1)%Z st b w
  else (st, b, w).

(** The "Try Again" button of the error screen: [setPage(1)]. *)
Definition tryAgain (toISOString : N -> string) (st : State) (b : Browser)
           (w : World) : State * Browser * World :=
  setPage toISOString 1%Z st b w.

Definition handlePostDelete (postId : string) (st : State) : State :=
  mkState (filter (fun p => negb (fp_id p =? postId)) (posts st)) (page st)
          (isLoading st) (error st) (hasMore st).

(** What the component renders. *)
Inductive View :=
| Spinner
| ErrorScreen (message : string)
| EmptyScreen
| PostList (shown : list FeedPost) (loadMoreButton : bool).

Definition render (st : State) : View :=
  if isLoading st && (page st =? 1)%Z then Spinner
  else match error st with
       | Some message => ErrorScreen message
       | None =>
           match posts st with
           | [] => EmptyScreen
           | _ :: _ => PostList (posts st) (hasMore st)
           end
       end.

(** Mount, then [n] clicks on "Load More". *)
Fixpoint browse (toISOString : N -> string) (n : nat) (b : Browser) (w : World)
  : State * Browser * World :=
  match n with
  | O => loadPosts toISOString initial b w
  | S k =>
      let '(st, b', w') := browse toISOString k b w in
      handleLoadMore toISOString st b' w'
  end.

End Feed.

Module CreatePost.

Record State := mkState {
  content : Js.str;
  isLoading : bool;
  error : option string;
  charCount : Z
}.

Definition handleContentChange (text : Js.str) (st : State) : State :=
  mkState text (isLoading st) None (Js.length text).

Definition handleSubmit (s : Session) (st : State) (b : Browser) (w : World)
  : State * Browser * World :=
  if negb (Js.truthy (Js.trim (content st)))
  then (mkState (content st) (isLoading st) (Some "Post cannot be empty")
                (charCount st), b, w)
  else if (280 <? Js.length (content st))%Z
  then (mkState (content st) (isLoading st)
                (Some "Post must be 280 characters or less") (charCount st),
        b, w)
  else
    let st1 := mkState (content st) true None (charCount st) in
    let '(r, b1, w1) :=
      await "createPost" (PostAction.createPost s (content st) None) b w in
    let '(st2, b2) :=
      match r with
      | Return _ =>
          (mkState [] (isLoading st1) (error st1) 0%Z, routerRefresh b1)
      | Throw message =>
          (mkState (content st1) (isLoading st1) (Some message) (charCount st1),
           b1)
      end in
    (mkState (content st2) false (error st2) (charCount st2), b2, w1).

End CreatePost.

(** [Post.handleDelete], and the feed's [onDelete] wired to it. *)
Module PostCard.

(** Returns the new [isDeleting] and whether [onDelete] was called.
    [confirmDelete] is the user's answer to the confirmation dialog. *)
Definition handleDelete (isAuthor confirmDelete : bool) (s : Session)
           (post_id : string) (isDeleting : bool) (b : Browser) (w : World)
  : bool * bool * Browser * World :=
  if negb isAuthor
  then (isDeleting, false,
        mkBrowser (browser_console b ++ ["User is not post author"])
                  (refreshes b) (requests b), w)
  else if negb confirmDelete then (isDeleting, false, b, w)
  else
    let '(r, b1, w1) :=
      await "deletePost" (PostAction.deletePost s post_id) b w in
    match r with
    | Return _ => (false, true, routerRefresh b1, w1)
    | Throw error => (false, false, logError "Error deleting post:" error b1, w1)
    end.

(** [<Post onDelete={() => handlePostDelete(post.id)} />] in the feed. *)
Definition deleteInFeed (isAuthor confirmDelete : bool) (s : Session)
           (post_id : string) (feed : Feed.State) (b : Browser) (w : World)
  : Feed.State * Browser * World :=
  let '(_, called, b', w') :=
    handleDelete isAuthor confirmDelete s post_id false b w in
  (if called then Feed.handlePostDelete post_id feed else feed, b', w').

End PostCard.

Module CommentDeletion.

(** [CommentsSection.handleDeleteComment] *)
Definition handleDeleteComment (confirmDelete : bool) (s : Session)
           (commentId : string) (st : CommentsSection.State) (b : Browser)
           (w : World) : CommentsSection.State * Browser * World :=
  if negb confirmDelete then (st, b, w)
  else
    let st1 :=
      CommentsSection.mkState (CommentsSection.comments st)
        (CommentsSection.commentText st) (CommentsSection.isSubmitting st)
        (CommentsSection.error st) (Some commentId) in
    let '(r, b1, w1) :=
      await "deleteComment" (CommentAction.deleteComment s commentId) b w in
    let '(st2, b2) :=
      match r with
      | Return _ =>
          (CommentsSection.setComments
             (filter (fun c => negb (CommentsSection.id c =? commentId))) st1,
           routerRefresh b1)
      | Throw err => (st1, logError "Error deleting comment:" err b1)
      end in
    (CommentsSection.mkState (CommentsSection.comments st2)
       (CommentsSection.commentText st2) (CommentsSection.isSubmitting st2)
       (CommentsSection.error st2) None,
     b2, w1).

End CommentDeletion.

Module FollowStatus.

(** [FollowButton]'s mount effect [checkFollowStatus]. *)
Definition checkFollowStatus (s : Session) (userId : string)
           (st : FollowButton.State) (b : Browser) (w : World)
  : FollowButton.State * Browser * World :=
  let '(r, b1, w1) :=
    await "isFollowing" (FollowAction.isFollowing s userId) b w in
  let '(st1, b2) :=
    match r with
    | Return following =>
        (FollowButton.mkState following (FollowButton.isLoading st)
                              (FollowButton.isSubmitting st), b1)
    | Throw error => (st, logError "Error checking follow status:" error b1)
    end in
  (FollowButton.mkState (FollowButton.isUserFollowing st1) false
                        (FollowButton.isSubmitting st1), b2, w1).

End FollowStatus.

Module NotificationsList.

Record Item := mkItem {
  item_id : string;
  item_type : NotificationType;
  item_read : bool;
  item_createdAt : string;
  item_creator : option User;
  item_post : option Post;
  item_comment : option Comment
}.

(** [NotificationsPage]: [{ ...notif, createdAt: <ISO string> }]. *)
Definition ofView (toISOString : N -> string) (v : Query.NotificationView)
  : Item :=
  let n := Query.nv_notification v in
  mkItem (notif_id n) (notif_type n) (notif_read n)
         (toISOString (notif_createdAt n)) (Query.nv_creator v)
         (Query.nv_post v) (Query.nv_comment v).

Record State := mkState {
  notifications : list Item;
  isMarkingAll : bool;
  deletingId : option string
}.

Definition markItem (i : Item) : Item :=
  mkItem (item_id i) (item_type i) true (item_createdAt i) (item_creator i)
         (item_post i) (item_comment i).

Definition unreadCount (st : State) : nat :=
  List.length (filter (fun n => negb (item_read n)) (notifications st)).

Definition handleMarkAsRead (s : Session) (notificationId : string)
           (st : State) (b : Browser) (w : World) : State * Browser * World :=
  let '(r, b1, w1) :=
    await "markNotificationAsRead"
          (NotificationAction.markNotificationAsRead s notificationId) b w in
  match r with
  | Return _ =>
      (mkState (map (fun n => if item_id n =? notificationId
                              then markItem n else n) (notifications st))
               (isMarkingAll st) (deletingId st),
       routerRefresh b1, w1)
  | Throw error =>
      (st, logError "Error marking notification as read:" error b1, w1)
  end.

Definition handleMarkAllAsRead (s : Session) (st : State) (b : Browser)
           (w : World) : State * Browser * World :=
  let st1 := mkState (notifications st) true (deletingId st) in
  let '(r, b1, w1) :=
    await "markAllNotificationsAsRead"
          (NotificationAction.markAllNotificationsAsRead s) b w in
  let '(st2, b2) :=
    match r with
    | Return _ =>
        (mkState (map markItem (notifications st1)) (isMarkingAll st1)
                 (deletingId st1),
         routerRefresh b1)
    | Throw error => (st1, logError "Error marking all as read:" error b1)
    end in
  (mkState (notifications st2) false (deletingId st2), b2, w1).

Definition handleDeleteNotification (s : Session) (notificationId : string)
           (st : State) (b : Browser) (w : World) : State * Browser * World :=
  let st1 := mkState (notifications st) (isMarkingAll st) (Some notificationId) in
  let '(r, b1, w1) :=
    await "deleteNotification"
          (NotificationAction.deleteNotification s notificationId) b w in
  let '(st2, b2) :=
    match r with
    | Return _ =>
        (mkState (filter (fun n => negb (item_id n =? notificationId))
                         (notifications st1))
                 (isMarkingAll st1) (deletingId st1),
         routerRefresh b1)
    | Throw error => (st1, logError "Error deleting notification:" error b1)
    end in
  (mkState (notifications st2) (isMarkingAll st2) None, b2, w1).

(** [NotificationsPage]: a visitor is redirected home; a signed-in user
    gets the unread notifications, or the error message. *)
Inductive Page :=
| Redirect (to : string)
| Loaded (initialNotifications : list Item)
| Failed (error : string).

Definition page (toISOString : N -> string) (s : Session) (b : Browser)
           (w : World) : Page * Browser * World :=
  match currentUser s with
  | None => (Redirect "/", b, w)
  | Some _ =>
      let '(r, b1, w1) :=
        await "getUserNotifications" (ReadAction.getUserNotifications s true)
              b w in
      match r with
      | Return raw => (Loaded (map (ofView toISOString) raw), b1, w1)
      | Throw message => (Failed message, b1, w1)
      end
  end.

End NotificationsList.

(* ================================================================== *)
(** ** A larger network for the read queries *)
(* ================================================================== *)

Module Network.

Definition carol : Session := signed "user_carol".

Definition threeUsers : DB :=
  mkDB [mkUser "u1" "user_alice" "alice" (Some "Alice") None;
        mkUser "u2" "user_bob" "bob" (Some "Bob") None;
        mkUser "u3" "user_carol" "carol" (Some "Carol") None]
       [] [] [] [] [] 0 0.

(** Bob follows Alice, Alice follows Carol. *)
Definition graph : World :=
  exec Scenario.alice (FollowUser "user_carol")
       (exec Scenario.bob (FollowUser "user_alice") (quiet threeUsers)).

(** Bob comments on Alice's post: the comment gets id [c1]. *)
Definition commented : World :=
  exec Scenario.bob (CreateComment "c0" (Js.lit "nice")) Scenario.posted.

End Network.

(** [Post]'s [useState] initialisers: [initialIsLiked] is [false] unless
    the parent passes it, the count is [post._count.likes]. *)
Module PostMount.

Definition mount (initialIsLiked : option bool) (post : PostView)
  : PostWidget.State :=
  PostWidget.mkState
    (match initialIsLiked with Some v => v | None => false end)
    (count_likes post) false.

(** [<Post post={post} isAuthor={...} onDelete={...} />]: the feed, the
    post page and the profile page pass no [initialIsLiked]. *)
Definition inFeed (post : Feed.FeedPost) : PostWidget.State :=
  mount None (Feed.fp_post post).

End PostMount.

(** Every post and comment was stamped before the store's clock: a row
    takes the clock at its insert, which advances it. *)
Definition stamped (d : DB) : Prop :=
  Forall (fun p => (post_createdAt p < clock d)%N) (posts d) /\
  Forall (fun c => (comment_createdAt c < clock d)%N) (comments d).

(* ################################################################## *)
(** * Properties *)
(* ################################################################## *)

Section Surfacing.

Context {A B : Type}.

Lemma surfaces_ret (a : A) : surfaces (ret a).
Proof. intro w; left; reflexivity. Qed.

Lemma surfaces_throw (e : string) : surfaces (@throw A e).
Proof. intro w; left; reflexivity. Qed.

Lemma surfaces_prisma (call : string) (op : DB -> Outcome A * DB) :
  surfaces (prisma call op).
Proof.
  intro w. unfold prisma, perform, reject, next_fault.
  destruct (faults w) as [|[e|] rest]; simpl.
  - destruct (op (db w)) as [[a|e] d]; simpl; eauto.
  - eauto.
  - destruct (op (db w)) as [[a|e] d]; simpl; eauto.
Qed.

Lemma surfaces_bind (m : Action A) (k : A -> Action B) :
  surfaces m -> (forall a, surfaces (k a)) -> surfaces (bind m k).
Proof.
  intros Hm Hk w. unfold bind.
  specialize (Hm w).
  destruct (m w) as [[a|e] w1] eqn:E; simpl in *.
  - destruct Hm as [Hm | (c & e & _ & Habs)]; [|discriminate].
    rewrite <- Hm. apply Hk.
  - destruct Hm as [Hm | (c & e' & Hr & He)]; [left; exact Hm | right].
    exists c, e'. split; [exact Hr | congruence].
Qed.

Lemma wraps_tryCatch (label prefix : string) (body : Action A) :
  surfaces body ->
  wraps prefix
    (tryCatch body
       (fun message =>
          consoleError label message ;; throw (prefix ++ message))).
Proof.
  intros Hb w. unfold tryCatch. specialize (Hb w).
  destruct (body w) as [[a|e] w1]; simpl in *.
  - destruct Hb as [Hb | (c & e & _ & Habs)]; [left; exact Hb | discriminate].
  - destruct Hb as [Hb | (c & e' & Hr & He)]; [left; exact Hb | right].
    exists c, e'. split; [exact Hr | congruence].
Qed.

Lemma defaults_tryCatch (label : string) (dflt : A) (body : Action A) :
  surfaces body ->
  defaults dflt
    (tryCatch body (fun message => consoleError label message ;; ret dflt)).
Proof.
  intros Hb w. unfold tryCatch. specialize (Hb w).
  destruct (body w) as [[a|e] w1]; simpl in *.
  - split; [eauto | intros Hne].
    destruct Hb as [Hb | (c & e & _ & Habs)]; [contradiction | discriminate].
  - split; eauto.
Qed.

End Surfacing.

Lemma surfaces_consoleError (label message : string) :
  surfaces (consoleError label message).
Proof. intro w; left; reflexivity. Qed.

Lemma surfaces_revalidatePath (path : string) : surfaces (revalidatePath path).
Proof. intro w; left; reflexivity. Qed.

Lemma surfaces_requireAuth (s : Session) (message : string) :
  surfaces (requireAuth s message).
Proof.
  unfold requireAuth. destruct (signedIn s);
    [apply surfaces_ret | apply surfaces_throw].
Qed.

Create HintDb surfacing.
#[export] Hint Resolve surfaces_ret surfaces_throw surfaces_prisma
  surfaces_consoleError surfaces_revalidatePath surfaces_requireAuth
  : surfacing.

(** Walks the body of an action: binds are split, branches are taken apart,
    leaves are closed from the hint database. *)
Ltac surfacing :=
  repeat first
    [ solve [auto with surfacing]
    | apply surfaces_bind; [| intros ?]
    | match goal with
      | |- surfaces (match ?x with _ => _ end) => destruct x
      end ].

Lemma likePost_wraps (s : Session) (postId : string) :
  wraps "Failed to like post: " (LikeAction.likePost s postId).
Proof. apply wraps_tryCatch. surfacing. Qed.

Lemma followUser_wraps (s : Session) (followingId : string) :
  wraps "Failed to follow user: " (FollowAction.followUser s followingId).
Proof. apply wraps_tryCatch. surfacing. Qed.

Lemma createPost_wraps (s : Session) (c : Js.str) (img : option string) :
  wraps "Failed to create post: " (PostAction.createPost s c img).
Proof. apply wraps_tryCatch. surfacing. Qed.

Lemma deletePost_wraps (s : Session) (postId : string) :
  wraps "Failed to delete post: " (PostAction.deletePost s postId).
Proof. apply wraps_tryCatch. surfacing. Qed.

Lemma createComment_wraps (s : Session) (postId : string) (c : Js.str) :
  wraps "Failed to create comment: " (CommentAction.createComment s postId c).
Proof. apply wraps_tryCatch. surfacing. Qed.

Lemma deleteComment_wraps (s : Session) (commentId : string) :
  wraps "Failed to delete comment: " (CommentAction.deleteComment s commentId).
Proof. apply wraps_tryCatch. surfacing. Qed.

Lemma getFeedPosts_wraps (page limit : Z) :
  wraps "Failed to fetch feed: " (PostAction.getFeedPosts page limit).
Proof. apply wraps_tryCatch. surfacing. Qed.

Lemma markNotificationAsRead_wraps (s : Session) (id : string) :
  wraps "Failed to mark notification: "
        (NotificationAction.markNotificationAsRead s id).
Proof. apply wraps_tryCatch. surfacing. Qed.

Lemma unlikePost_swallows (s : Session) (postId : string) (w : World) :
  raised (snd (LikeAction.unlikePost s postId w)) = raised w \/
  exists e,
    raised (snd (LikeAction.unlikePost s postId w))
    = (raised w ++ [("like.delete", e)])%list /\
    fst (LikeAction.unlikePost s postId w)
    = Return (WithMessage false "Post not liked").
Proof.
  unfold LikeAction.unlikePost, tryCatch, bind, requireAuth.
  destruct (signedIn s) as [u|]; simpl; [|left; reflexivity].
  unfold catchNull, prisma, perform, reject, next_fault.
  destruct (faults w) as [|[e|] rest]; simpl;
    try (destruct (Prisma.like_delete u postId (db w)) as [[l|e] d]; simpl);
    eauto.
Qed.

Lemma unfollowUser_swallows (s : Session) (followingId : string) (w : World) :
  raised (snd (FollowAction.unfollowUser s followingId w)) = raised w \/
  (exists e,
     raised (snd (FollowAction.unfollowUser s followingId w))
     = (raised w ++ [("follows.delete", e)])%list /\
     fst (FollowAction.unfollowUser s followingId w)
     = Return (WithMessage false "Not following user")) \/
  (exists e,
     raised (snd (FollowAction.unfollowUser s followingId w))
     = (raised w ++ [("user.findUnique", e)])%list /\
     fst (FollowAction.unfollowUser s followingId w)
     = Throw ("Failed to unfollow user: " ++ e)).
Proof.
  unfold FollowAction.unfollowUser, tryCatch, bind, requireAuth.
  destruct (signedIn s) as [u|]; simpl; [|left; reflexivity].
  unfold catchNull, prisma, perform, reject, next_fault, Prisma.user_findUnique.
  destruct (faults w) as [|[e|] rest]; simpl.
  - destruct (Prisma.follows_delete u followingId (db w)) as [[l|e] d]; simpl;
      [|eauto].
    destruct (find _ (users d)); simpl; eauto.
  - eauto.
  - destruct (Prisma.follows_delete u followingId (db w)) as [[l|e] d]; simpl;
      [|eauto].
    destruct rest as [|[e|] rest']; simpl;
      try (destruct (find _ (users d)); simpl); eauto 6.
Qed.

(* ================================================================== *)
(** ** Running an action symbolically *)
(* ================================================================== *)

Ltac unfold_actions :=
  unfold exec, likeUnlikeLike;
  unfold run, result,
    LikeAction.likePost, LikeAction.unlikePost, LikeAction.hasUserLikedPost,
    FollowAction.followUser, FollowAction.unfollowUser, FollowAction.isFollowing,
    PostAction.createPost, PostAction.getFeedPosts, PostAction.deletePost,
    CommentAction.createComment, CommentAction.deleteComment,
    NotificationAction.markNotificationAsRead,
    NotificationAction.markAllNotificationsAsRead,
    NotificationAction.getUnreadNotificationCount,
    NotificationAction.deleteNotification,
    tryCatch, bind, requireAuth, catchNull, ret, throw, consoleError,
    revalidatePath, prisma, perform, reject, next_fault.

Ltac unfold_store :=
  unfold Prisma.post_findUnique, Prisma.like_findUnique, Prisma.like_create,
    Prisma.like_delete, Prisma.notification_findFirst,
    Prisma.notification_create, Prisma.user_findUnique,
    Prisma.follows_findUnique, Prisma.follows_create, Prisma.follows_delete,
    Prisma.post_create, Prisma.post_delete, Prisma.comment_create,
    Prisma.comment_findUnique, Prisma.comment_delete,
    Prisma.notification_findUnique, Prisma.notification_update_read,
    Prisma.notification_updateMany_read, Prisma.notification_count_unread,
    Prisma.notification_delete, Prisma.post_count.

Ltac reduce_run :=
  cbn [fst snd db faults raised console revalidated
       users posts comments likes follows notifications nextId clock
       Prisma.set_likes Prisma.set_notifications Prisma.set_posts
       Prisma.set_comments Prisma.set_follows Prisma.tick Prisma.tickId
       negb cwa_comment cwa_author].

(** Follows every path of a run: the pending failures, the rows found, the
    comparisons and the session are taken apart as the run meets them. *)
Ltac split_run :=
  repeat (reduce_run;
          match goal with
          | |- context [match ?l with [] => _ | _ :: _ => _ end] =>
              is_var l; destruct l as [|[?|] ?]
          | |- context [match find ?f ?l with Some _ => _ | None => _ end] =>
              let E := fresh "E" in destruct (find f l) eqn:E
          | |- context [if ?a =? ?b then _ else _] =>
              let E := fresh "E" in destruct (a =? b) eqn:E
          | |- context [negb (?a =? ?b)] =>
              let E := fresh "E" in destruct (a =? b) eqn:E
          | |- context [match signedIn ?s with Some _ => _ | None => _ end] =>
              let E := fresh "E" in destruct (signedIn s) eqn:E
          | |- context [match currentUser ?s with Some _ => _ | None => _ end] =>
              let E := fresh "E" in destruct (currentUser s) eqn:E
          | |- context [if Js.truthy ?c then _ else _] =>
              let E := fresh "E" in destruct (Js.truthy c) eqn:E
          | |- context [negb (Js.truthy ?c)] =>
              let E := fresh "E" in destruct (Js.truthy c) eqn:E
          | |- context [if (?a <? ?b)%Z then _ else _] =>
              let E := fresh "E" in destruct (a <? b)%Z eqn:E
          end);
  reduce_run.

Ltac run_all w :=
  destruct w as [? ? ? ? ?]; unfold_actions; unfold_store; split_run.

(* ================================================================== *)
(** ** Keys and matches *)
(* ================================================================== *)

Lemma type_eqb_eq (a b : NotificationType) : type_eqb a b = true <-> a = b.
Proof. destruct a, b; simpl; split; congruence. Qed.

Lemma opt_eqb_eq (a b : option string) : Prisma.opt_eqb a b = true <-> a = b.
Proof.
  destruct a, b; simpl; try (split; congruence).
  rewrite String.eqb_eq. split; congruence.
Qed.

Lemma notif_matches_spec (r a : string) (t : NotificationType)
      (p : option string) (n : Notification) :
  Prisma.notif_matches r a t p n = true <->
  notif_userId n = r /\ notif_creatorId n = a /\ notif_type n = t /\
  notif_postId n = p.
Proof.
  unfold Prisma.notif_matches.
  rewrite !andb_true_iff, !String.eqb_eq, type_eqb_eq, opt_eqb_eq. tauto.
Qed.

Lemma like_key_spec (u p : string) (l : Like) :
  Prisma.like_key u p l = true <-> like_userId l = u /\ like_postId l = p.
Proof.
  unfold Prisma.like_key. rewrite andb_true_iff, !String.eqb_eq. tauto.
Qed.

Lemma follows_key_spec (a b : string) (f : Follows) :
  Prisma.follows_key a b f = true <->
  follows_followerId f = a /\ follows_followingId f = b.
Proof.
  unfold Prisma.follows_key. rewrite andb_true_iff, !String.eqb_eq. tauto.
Qed.

Lemma find_is_none {A} (f : A -> bool) (l : list A) :
  find f l = None <-> forall x, In x l -> f x = false.
Proof.
  split; [apply find_none|].
  induction l as [|x l IH]; simpl; intros H; [reflexivity|].
  rewrite (H x (or_introl eq_refl)). apply IH. intros y Hy. apply H. now right.
Qed.

Lemma find_is_some {A} (f : A -> bool) (l : list A) :
  find f l <> None <-> exists x, In x l /\ f x = true.
Proof.
  split.
  - destruct (find f l) as [x|] eqn:E; [|congruence].
    intros _. exists x. eapply find_some; eauto.
  - intros (x & Hin & Hx) Hnone.
    rewrite find_is_none in Hnone. specialize (Hnone x Hin). congruence.
Qed.

Lemma find_removeFirst_other {A} (f g : A -> bool) (l : list A) :
  (forall x, g x = true -> f x = false) ->
  find g (Prisma.removeFirst f l) = find g l.
Proof.
  intros H. induction l as [|x l IH]; simpl; [reflexivity|].
  destruct (f x) eqn:Ef; simpl.
  - destruct (g x) eqn:Eg; [|reflexivity].
    apply H in Eg. congruence.
  - now rewrite IH.
Qed.

Lemma removeFirst_length {A} (f : A -> bool) (l : list A) (x : A) :
  find f l = Some x ->
  S (List.length (Prisma.removeFirst f l)) = List.length l.
Proof.
  revert x. induction l as [|y l IH]; simpl; intros x H; [discriminate|].
  destruct (f y); simpl; [reflexivity|]. now rewrite (IH x H).
Qed.

Lemma removeFirst_incl {A} (f : A -> bool) (l : list A) (x : A) :
  In x (Prisma.removeFirst f l) -> In x l.
Proof.
  induction l as [|y l IH]; simpl; [tauto|].
  destruct (f y); simpl; intuition.
Qed.

Lemma removeFirst_none {A} (f : A -> bool) (l : list A) :
  find f l = None -> Prisma.removeFirst f l = l.
Proof.
  induction l as [|y l IH]; simpl; [reflexivity|].
  destruct (f y); [discriminate|]. intros H. now rewrite IH.
Qed.

(* ================================================================== *)
(** ** What each mutation does to the notifications *)
(* ================================================================== *)

Lemma likePost_notifications (s : Session) (P : string) (w : World) :
  notifications (db (run (LikeAction.likePost s P) w)) = notifications (db w) \/
  exists U post id t,
    signedIn s = Some U /\
    find (fun p => post_id p =? P) (posts (db w)) = Some post /\
    (author_clerkId post =? U) = false /\
    find (Prisma.notif_matches (author_clerkId post) U LIKE (Some P))
         (notifications (db w)) = None /\
    notifications (db (run (LikeAction.likePost s P) w))
    = (notifications (db w)
       ++ [mkNotification id (author_clerkId post) U LIKE (Some P) None false t])%list.
Proof.
  run_all w; try (left; reflexivity); right; eauto 10.
Qed.

Lemma unlikePost_frame (s : Session) (P : string) (w : World) :
  let d := db w in
  let d' := db (run (LikeAction.unlikePost s P) w) in
  users d' = users d /\ posts d' = posts d /\ comments d' = comments d /\
  follows d' = follows d /\ notifications d' = notifications d /\
  (likes d' = likes d \/
   exists U l,
     signedIn s = Some U /\ find (Prisma.like_key U P) (likes d) = Some l /\
     likes d' = Prisma.removeFirst (Prisma.like_key U P) (likes d)).
Proof.
  intros d d'; subst d d'.
  run_all w; repeat split; eauto 10.
Qed.

Lemma createComment_notifications (s : Session) (P : string) (c : Js.str)
      (w : World) :
  notifications (db (run (CommentAction.createComment s P c) w))
  = notifications (db w) \/
  exists U post id cid t,
    signedIn s = Some U /\
    (author_clerkId post =? U) = false /\
    notifications (db (run (CommentAction.createComment s P c) w))
    = (notifications (db w)
       ++ [mkNotification id (author_clerkId post) U COMMENT (Some P) cid
                          false t])%list.
Proof.
  run_all w; try (left; reflexivity); right; eauto 10.
Qed.

Lemma followUser_notifications (s : Session) (F : string) (w : World) :
  notifications (db (run (FollowAction.followUser s F) w))
  = notifications (db w) \/
  exists U id t,
    signedIn s = Some U /\
    (U =? F) = false /\
    notifications (db (run (FollowAction.followUser s F) w))
    = (notifications (db w)
       ++ [mkNotification id F U FOLLOW None None false t])%list.
Proof.
  run_all w; try (left; reflexivity); right; eauto 10.
Qed.

(* ================================================================== *)
(** ** Likes and their notifications *)
(* ================================================================== *)

Lemma likePost_first_time (s : Session) (U P : string) (post : Post)
      (w : World) :
  signedIn s = Some U ->
  faults w = [] ->
  find (fun p => post_id p =? P) (posts (db w)) = Some post ->
  find (Prisma.like_key U P) (likes (db w)) = None ->
  result (LikeAction.likePost s P) w
  = Return (WithRow true (mkLike U P (clock (db w)))) /\
  faults (run (LikeAction.likePost s P) w) = [] /\
  posts (db (run (LikeAction.likePost s P) w)) = posts (db w) /\
  likes (db (run (LikeAction.likePost s P) w))
  = (likes (db w) ++ [mkLike U P (clock (db w))])%list /\
  notifications (db (run (LikeAction.likePost s P) w))
  = if author_clerkId post =? U then notifications (db w)
    else match find (Prisma.notif_matches (author_clerkId post) U LIKE (Some P))
                    (notifications (db w)) with
         | Some _ => notifications (db w)
         | None =>
             (notifications (db w)
              ++ [mkNotification (Prisma.freshId (db w)) (author_clerkId post) U
                                 LIKE (Some P) None false
                                 (N.succ (clock (db w)))])%list
         end.
Proof.
  intros Hs Hf Hp Hl. destruct w as [d fs rs cs rv]. simpl in Hf, Hp, Hl.
  subst fs. unfold_actions. unfold_store. rewrite Hs. reduce_run.
  rewrite Hp. reduce_run. rewrite Hl. reduce_run. rewrite Hl. reduce_run.
  destruct (author_clerkId post =? U); reduce_run; [auto|].
  destruct (find _ (notifications d)); reduce_run; auto.
Qed.

Lemma unreadLikes_app (r a p : string) (d d' : DB) (n : Notification) :
  notifications d' = (notifications d ++ [n])%list ->
  unreadLikes r a p d'
  = unreadLikes r a p d
    + (if Prisma.notif_matches r a LIKE (Some p) n && negb (notif_read n)
       then 1 else 0).
Proof.
  intros H. unfold unreadLikes. rewrite H, filter_app, length_app. simpl.
  destruct (_ && _); reflexivity.
Qed.

Lemma unreadLikes_none (r a p : string) (d : DB) :
  find (Prisma.notif_matches r a LIKE (Some p)) (notifications d) = None ->
  unreadLikes r a p d = 0.
Proof.
  rewrite find_is_none. intros H. unfold unreadLikes.
  induction (notifications d) as [|n l IH]; simpl; [reflexivity|].
  rewrite (H n (or_introl eq_refl)). simpl. apply IH.
  intros x Hx. apply H. now right.
Qed.

(** One like adds at most one unread LIKE notification per triple, and only
    where the triple had none. *)
Lemma likePost_unreadLikes (s : Session) (P : string) (w : World)
      (r a p : string) :
  unreadLikes r a p (db (run (LikeAction.likePost s P) w))
  <= Nat.max 1 (unreadLikes r a p (db w)).
Proof.
  destruct (likePost_notifications s P w)
    as [H | (U & post & id & t & _ & _ & _ & Hnone & H)].
  - unfold unreadLikes. rewrite H. lia.
  - rewrite (@unreadLikes_app r a p _ _ _ H).
    destruct (Prisma.notif_matches r a LIKE (Some p) _) eqn:Em;
      cbn [andb negb notif_read]; [|lia].
    apply notif_matches_spec in Em. simpl in Em.
    destruct Em as (<- & <- & _ & Ep). injection Ep as <-.
    rewrite (@unreadLikes_none _ _ _ _ Hnone). lia.
Qed.

Lemma unlikePost_unreadLikes (s : Session) (P : string) (w : World)
      (r a p : string) :
  unreadLikes r a p (db (run (LikeAction.unlikePost s P) w))
  = unreadLikes r a p (db w).
Proof.
  unfold unreadLikes.
  destruct (unlikePost_frame s P w) as (_ & _ & _ & _ & H & _).
  now rewrite H.
Qed.

Lemma likeUnlikeLike_unreadLikes (s : Session) (P : string) (w : World)
      (r a p : string) :
  unreadLikes r a p (db (likeUnlikeLike s P w))
  <= Nat.max 1 (unreadLikes r a p (db w)).
Proof.
  unfold likeUnlikeLike.
  pose proof (likePost_unreadLikes s P w r a p) as H1.
  pose proof (unlikePost_unreadLikes s P (run (LikeAction.likePost s P) w) r a p)
    as H2.
  pose proof (likePost_unreadLikes s P
                (run (LikeAction.unlikePost s P)
                     (run (LikeAction.likePost s P) w)) r a p) as H3.
  lia.
Qed.

(** C1 (as amended): a first-time like by a signed-in user [U] of an
    existing post [P] authored by [A], on a store that answers, inserts no
    notification when [U = A]; when [U <> A] it inserts exactly one unread
    LIKE notification (recipient [A], actor [U], post [P]) unless a LIKE
    notification for that triple already exists, read or unread, in which
    case it inserts none.  Consequently like, unlike, like again never
    leaves more unread LIKE notifications for any (recipient, actor, post)
    than one, or than there were before. *)
Theorem likePost_notifies_author_once
        (s : Session) (U P : string) (post : Post) (w : World) :
  signedIn s = Some U ->
  faults w = [] ->
  find (fun p => post_id p =? P) (posts (db w)) = Some post ->
  (forall l, In l (likes (db w)) -> ~ (like_userId l = U /\ like_postId l = P)) ->
  let A := author_clerkId post in
  let w' := run (LikeAction.likePost s P) w in
  (U = A -> notifications (db w') = notifications (db w)) /\
  (U <> A ->
   (forall n, In n (notifications (db w)) -> ~ isLikeFor A U P n) ->
   exists n,
     notifications (db w') = (notifications (db w) ++ [n])%list /\
     isLikeFor A U P n /\ notif_read n = false) /\
  (U <> A ->
   (exists n, In n (notifications (db w)) /\ isLikeFor A U P n) ->
   notifications (db w') = notifications (db w)) /\
  (forall r a p,
     unreadLikes r a p (db (likeUnlikeLike s P w))
     <= Nat.max 1 (unreadLikes r a p (db w))).
Proof.
  intros Hs Hf Hp Hl A w'.
  assert (Hnone : find (Prisma.like_key U P) (likes (db w)) = None).
  { apply find_is_none. intros l Hin.
    destruct (Prisma.like_key U P l) eqn:E; [|reflexivity].
    apply like_key_spec in E. elim (Hl l Hin E). }
  destruct (@likePost_first_time s U P post w Hs Hf Hp Hnone) as (_ & _ & _ & _ & Hn).
  fold w' in Hn. fold A in Hn.
  repeat split.
  - intros ->. rewrite Hn, String.eqb_refl. reflexivity.
  - intros Hne Hno.
    assert (E : (A =? U) = false) by (apply String.eqb_neq; congruence).
    rewrite E in Hn.
    assert (F : find (Prisma.notif_matches A U LIKE (Some P))
                     (notifications (db w)) = None).
    { apply find_is_none. intros n Hin.
      destruct (Prisma.notif_matches A U LIKE (Some P) n) eqn:Em; [|reflexivity].
      apply notif_matches_spec in Em. elim (Hno n Hin Em). }
    rewrite F in Hn. eexists. split; [exact Hn|].
    unfold isLikeFor. simpl. auto.
  - intros Hne (n & Hin & Hlike).
    assert (E : (A =? U) = false) by (apply String.eqb_neq; congruence).
    rewrite E in Hn.
    destruct (find _ (notifications (db w))) eqn:F; [exact Hn|].
    rewrite find_is_none in F. specialize (F n Hin).
    apply notif_matches_spec in Hlike. congruence.
  - apply likeUnlikeLike_unreadLikes.
Qed.

Lemma likePost_notifies_author_once_example :
  let w := Scenario.posted in
  let w' := run (LikeAction.likePost Scenario.bob "c0") w in
  ("user_bob" = "user_alice" -> notifications (db w') = notifications (db w)) /\
  ("user_bob" <> "user_alice" ->
   (forall n, In n (notifications (db w)) ->
              ~ isLikeFor "user_alice" "user_bob" "c0" n) ->
   exists n,
     notifications (db w') = (notifications (db w) ++ [n])%list /\
     isLikeFor "user_alice" "user_bob" "c0" n /\ notif_read n = false) /\
  ("user_bob" <> "user_alice" ->
   (exists n, In n (notifications (db w)) /\
              isLikeFor "user_alice" "user_bob" "c0" n) ->
   notifications (db w') = notifications (db w)) /\
  (forall r a p,
     unreadLikes r a p (db (likeUnlikeLike Scenario.bob "c0" w))
     <= Nat.max 1 (unreadLikes r a p (db w))).
Proof.
  apply (@likePost_notifies_author_once Scenario.bob "user_bob" "c0"
           (mkPost "c0" (Js.lit "hello") None "user_alice" 0) Scenario.posted).
  - reflexivity.
  - reflexivity.
  - reflexivity.
  - intros l Hin. elim Hin.
Defined.

(** C1 (as stated) fails after the recipient has read the notification:
    Bob liked Alice's post, Alice read the notification, Bob unliked.  Bob
    has not liked the post now and no unread LIKE notification for
    (Alice, Bob, post) exists, yet liking again inserts no notification. *)
Lemma likePost_silent_after_read :
  let w := Scenario.unliked in
  let w' := run (LikeAction.likePost Scenario.bob "c0") w in
  signedIn Scenario.bob = Some "user_bob" /\
  faults w = [] /\
  (exists post,
     find (fun p => post_id p =? "c0") (posts (db w)) = Some post /\
     author_clerkId post = "user_alice") /\
  find (Prisma.like_key "user_bob" "c0") (likes (db w)) = None /\
  (forall n, In n (notifications (db w)) ->
             isLikeFor "user_alice" "user_bob" "c0" n -> notif_read n = true) /\
  unreadLikes "user_alice" "user_bob" "c0" (db w) = 0 /\
  (exists like, result (LikeAction.likePost Scenario.bob "c0") w
                = Return (WithRow true like)) /\
  notifications (db w') = notifications (db w) /\
  ~ (exists n, notifications (db w') = (notifications (db w) ++ [n])%list).
Proof.
  vm_compute. repeat split; eauto.
  - intros n [<- | []] _. reflexivity.
  - intros (n & H). discriminate H.
Qed.

(* ================================================================== *)
(** ** Trimming *)
(* ================================================================== *)

Lemma trimStart_length (s : Js.str) :
  List.length (Js.trimStart s) <= List.length s.
Proof.
  induction s as [|c r IH]; simpl; [lia|].
  destruct (Js.isWhiteSpace c); simpl; lia.
Qed.

Lemma trim_length (s : Js.str) : (Js.length (Js.trim s) <= Js.length s)%Z.
Proof.
  unfold Js.length, Js.trim, Js.trimEnd. rewrite length_rev.
  pose proof (trimStart_length (rev (Js.trimStart s))) as H1.
  rewrite length_rev in H1.
  pose proof (trimStart_length s). lia.
Qed.

Lemma trimStart_nil (s : Js.str) :
  Js.trimStart s = [] <-> forallb Js.isWhiteSpace s = true.
Proof.
  induction s as [|c r IH]; simpl; [tauto|].
  destruct (Js.isWhiteSpace c); simpl; [exact IH|].
  split; discriminate.
Qed.

Lemma trimStart_head (s : Js.str) (c : N) (r : Js.str) :
  Js.trimStart s = c :: r -> Js.isWhiteSpace c = false.
Proof.
  induction s as [|x t IH]; simpl; [discriminate|].
  destruct (Js.isWhiteSpace x) eqn:E; [exact IH|].
  intros H. injection H as <- _. exact E.
Qed.

(** [content.trim()] is empty exactly for the empty and the
    whitespace-only strings. *)
Lemma trim_nil (s : Js.str) :
  Js.trim s = [] <-> forallb Js.isWhiteSpace s = true.
Proof.
  rewrite <- trimStart_nil. unfold Js.trim, Js.trimEnd. split.
  - intros H.
    destruct (Js.trimStart s) as [|c r] eqn:E; [reflexivity|].
    apply (f_equal (@rev N)) in H. rewrite rev_involutive in H. simpl in H.
    apply trimStart_nil in H. rewrite forallb_forall in H.
    specialize (H c). rewrite (trimStart_head _ E) in H.
    discriminate H. apply in_or_app. right. now left.
  - intros ->. reflexivity.
Qed.

Lemma truthy_nonempty (s : Js.str) : Js.truthy s = true <-> s <> [].
Proof. destruct s; simpl; split; congruence. Qed.

Lemma accepted_content_valid (c : Js.str) :
  Js.truthy (Js.trim c) = true ->
  (280 <? Js.length c)%Z = false ->
  validContent (Js.trim c).
Proof.
  intros Ht Hl. apply truthy_nonempty in Ht. apply Z.ltb_ge in Hl.
  pose proof (trim_length c). split; [exact Ht|].
  unfold Js.length in *. destruct (Js.trim c); [congruence|]. simpl in *. lia.
Qed.

(* ================================================================== *)
(** ** Every write keeps the store well formed *)
(* ================================================================== *)

Lemma removeFirst_keeps {A} (f : A -> bool) (l : list A) (x : A) :
  In x l -> f x = false -> In x (Prisma.removeFirst f l).
Proof.
  induction l as [|y l IH]; simpl; [tauto|].
  intros [-> | Hin] Hx.
  - rewrite Hx. now left.
  - destruct (f y); [exact Hin|]. right. now apply IH.
Qed.

Lemma filter_removeFirst_length {A} (f g : A -> bool) (l : list A) :
  List.length (filter g (Prisma.removeFirst f l)) <= List.length (filter g l).
Proof.
  induction l as [|y l IH]; simpl; [lia|].
  destruct (f y); simpl; destruct (g y); simpl; lia.
Qed.

Lemma filter_filter_length {A} (f g : A -> bool) (l : list A) :
  List.length (filter g (filter f l)) <= List.length (filter g l).
Proof.
  induction l as [|y l IH]; simpl; [lia|].
  destruct (f y); simpl; destruct (g y); simpl; lia.
Qed.

Lemma filter_none_length {A} (f : A -> bool) (l : list A) :
  find f l = None -> List.length (filter f l) = 0.
Proof.
  induction l as [|y l IH]; simpl; [reflexivity|].
  destruct (f y); [discriminate | exact IH].
Qed.

Lemma like_key_other (u p u' p' : string) (l : Like) :
  Prisma.like_key u p l = true -> Prisma.like_key u' p' l = true ->
  u = u' /\ p = p'.
Proof. rewrite !like_key_spec. intuition congruence. Qed.

Lemma follows_key_other (a b a' b' : string) (f : Follows) :
  Prisma.follows_key a b f = true -> Prisma.follows_key a' b' f = true ->
  a = a' /\ b = b'.
Proof. rewrite !follows_key_spec. intuition congruence. Qed.

Lemma updateFirst_Forall {A} (P : A -> Prop) (f : A -> bool) (g : A -> A)
      (l : list A) :
  (forall x, P x -> P (g x)) -> Forall P l -> Forall P (Prisma.updateFirst f g l).
Proof.
  intros Hg. induction 1 as [|x l Hx Hl IH]; simpl; [constructor|].
  destruct (f x); constructor; auto.
Qed.

Lemma removeFirst_Forall {A} (P : A -> Prop) (f : A -> bool) (l : list A) :
  Forall P l -> Forall P (Prisma.removeFirst f l).
Proof.
  induction 1 as [|x l Hx Hl IH]; simpl; [constructor|].
  destruct (f x); [exact Hl | constructor; auto].
Qed.

Lemma change_wellFormed (d d' : DB) :
  change d d' -> wellFormed d -> wellFormed d'.
Proof.
  intros Hc [HL HU HF HFU HN HP]. destruct Hc; simpl.
  - (* post.create *)
    constructor; simpl; auto.
    + intros l Hl. destruct (HL l Hl) as (p & Hin & Hid).
      exists p. split; [apply in_or_app; now left | exact Hid].
    + intros p Hin. apply in_app_or in Hin as [Hin | [<- | []]]; auto.
  - (* post.delete *)
    unfold Prisma.post_delete.
    destruct (find _ (posts d)) as [p0|] eqn:E; simpl;
      constructor; simpl; auto.
    + intros l Hl. apply filter_In in Hl as [Hl Hne].
      destruct (HL l Hl) as (p & Hin & Hid).
      exists p. split; [|exact Hid].
      apply removeFirst_keeps; [exact Hin|].
      rewrite Hid. apply negb_true_iff in Hne. exact Hne.
    + intros u p. etransitivity; [apply filter_filter_length | apply HU].
    + intros p Hin. apply HP. eapply removeFirst_incl; eauto.
  - (* like.create *)
    unfold Prisma.like_create.
    destruct (find _ (likes d)) as [l0|] eqn:E; simpl;
      constructor; simpl; auto.
    + intros l Hl. apply in_app_or in Hl as [Hl | [<- | []]]; [auto|].
      apply find_some in H as [Hin Hid]. apply String.eqb_eq in Hid.
      exists post. auto.
    + intros u' p'. rewrite filter_app, length_app. simpl.
      destruct (Prisma.like_key u' p' _) eqn:K; simpl; [|specialize (HU u' p'); lia].
      apply like_key_spec in K. simpl in K. destruct K as [-> ->].
      rewrite (filter_none_length _ _ E). lia.
  - (* like.delete *)
    unfold Prisma.like_delete.
    destruct (find _ (likes d)) as [l0|] eqn:E; simpl;
      constructor; simpl; auto.
    + intros l Hl. apply HL. eapply removeFirst_incl; eauto.
    + intros u' p'. etransitivity; [apply filter_removeFirst_length | apply HU].
  - (* follows.create *)
    unfold Prisma.follows_create.
    destruct (find _ (follows d)) as [f0|] eqn:E; simpl;
      constructor; simpl; auto.
    + intros f Hf. apply in_app_or in Hf as [Hf | [<- | []]]; [auto|].
      simpl. split; [assumption|].
      apply find_some in H0 as [Hin Hid]. apply String.eqb_eq in Hid.
      exists u. auto.
    + intros a' b'. rewrite filter_app, length_app. simpl.
      destruct (Prisma.follows_key a' b' _) eqn:K; simpl;
        [|specialize (HFU a' b'); lia].
      apply follows_key_spec in K. simpl in K. destruct K as [-> ->].
      rewrite (filter_none_length _ _ E). lia.
  - (* follows.delete *)
    unfold Prisma.follows_delete.
    destruct (find _ (follows d)) as [f0|] eqn:E; simpl;
      constructor; simpl; auto.
    + intros f Hf. apply HF. eapply removeFirst_incl; eauto.
    + intros a' b'. etransitivity; [apply filter_removeFirst_length | apply HFU].
  - (* comment.create *)
    constructor; simpl; auto.
  - (* comment.delete *)
    unfold Prisma.comment_delete.
    destruct (find _ (comments d)); simpl; constructor; simpl; auto.
  - (* notification.create *)
    constructor; simpl; auto.
    apply Forall_app. split; [assumption|].
    constructor; [|constructor]. unfold noSelfNotification. simpl. assumption.
  - (* notification.update *)
    unfold Prisma.notification_update_read.
    destruct (find _ (notifications d)); simpl; constructor; simpl; auto.
    apply updateFirst_Forall; auto.
  - (* notification.updateMany *)
    constructor; simpl; auto.
    apply Forall_map. eapply Forall_impl; [|exact HN].
    intros n Hn. destruct (Prisma.unreadOf u n); auto.
  - (* notification.delete *)
    unfold Prisma.notification_delete.
    destruct (find _ (notifications d)); simpl; constructor; simpl; auto.
    apply removeFirst_Forall; auto.
Qed.

Lemma changes_wellFormed (d d' : DB) :
  changes d d' -> wellFormed d -> wellFormed d'.
Proof.
  induction 1 as [|d d' d'' Hc _ IH]; [auto|].
  intros Hw. apply IH. eapply change_wellFormed; eauto.
Qed.

(* ================================================================== *)
(** ** Every mutation is a sequence of guarded writes *)
(* ================================================================== *)

Section Via.

Variables (d d' d'' : DB).

Lemma via_post_create c img a r :
  Prisma.post_create c img a d = (r, d') -> validContent c ->
  changes d' d'' -> changes d d''.
Proof.
  intros E Hv. econstructor; [|eassumption].
  replace d' with (snd (Prisma.post_create c img a d)) by now rewrite E.
  now constructor.
Qed.

Lemma via_post_delete id r :
  Prisma.post_delete id d = (r, d') -> changes d' d'' -> changes d d''.
Proof.
  intros E. econstructor; [|eassumption].
  replace d' with (snd (Prisma.post_delete id d)) by now rewrite E.
  constructor.
Qed.

Lemma via_like_create u p post r :
  Prisma.like_create u p d = (r, d') ->
  find (fun x => post_id x =? p) (posts d) = Some post ->
  changes d' d'' -> changes d d''.
Proof.
  intros E Hp. econstructor; [|eassumption].
  replace d' with (snd (Prisma.like_create u p d)) by now rewrite E.
  econstructor; eassumption.
Qed.

Lemma via_like_delete u p r :
  Prisma.like_delete u p d = (r, d') -> changes d' d'' -> changes d d''.
Proof.
  intros E. econstructor; [|eassumption].
  replace d' with (snd (Prisma.like_delete u p d)) by now rewrite E.
  constructor.
Qed.

Lemma via_follows_create a b u r :
  Prisma.follows_create a b d = (r, d') ->
  (a =? b) = false ->
  find (fun x => clerkId x =? b) (users d) = Some u ->
  changes d' d'' -> changes d d''.
Proof.
  intros E Hne Hu. econstructor; [|eassumption].
  replace d' with (snd (Prisma.follows_create a b d)) by now rewrite E.
  econstructor; [|eassumption]. now apply String.eqb_neq.
Qed.

Lemma via_follows_delete a b r :
  Prisma.follows_delete a b d = (r, d') -> changes d' d'' -> changes d d''.
Proof.
  intros E. econstructor; [|eassumption].
  replace d' with (snd (Prisma.follows_delete a b d)) by now rewrite E.
  constructor.
Qed.

Lemma via_comment_create c p a r :
  Prisma.comment_create c p a d = (r, d') -> changes d' d'' -> changes d d''.
Proof.
  intros E. econstructor; [|eassumption].
  replace d' with (snd (Prisma.comment_create c p a d)) by now rewrite E.
  constructor.
Qed.

Lemma via_comment_delete id r :
  Prisma.comment_delete id d = (r, d') -> changes d' d'' -> changes d d''.
Proof.
  intros E. econstructor; [|eassumption].
  replace d' with (snd (Prisma.comment_delete id d)) by now rewrite E.
  constructor.
Qed.

Lemma via_notification_create rcp a t p c r :
  Prisma.notification_create rcp a t p c d = (r, d') ->
  (rcp =? a) = false \/ (a =? rcp) = false ->
  changes d' d'' -> changes d d''.
Proof.
  intros E Hne. econstructor; [|eassumption].
  replace d' with (snd (Prisma.notification_create rcp a t p c d))
    by now rewrite E.
  constructor. destruct Hne as [Hx|Hx]; apply String.eqb_neq in Hx; congruence.
Qed.

Lemma via_notification_update_read id r :
  Prisma.notification_update_read id d = (r, d') ->
  changes d' d'' -> changes d d''.
Proof.
  intros E. econstructor; [|eassumption].
  replace d' with (snd (Prisma.notification_update_read id d)) by now rewrite E.
  constructor.
Qed.

Lemma via_notification_updateMany_read u r :
  Prisma.notification_updateMany_read u d = (r, d') ->
  changes d' d'' -> changes d d''.
Proof.
  intros E. econstructor; [|eassumption].
  replace d' with (snd (Prisma.notification_updateMany_read u d))
    by now rewrite E.
  constructor.
Qed.

Lemma via_notification_delete id r :
  Prisma.notification_delete id d = (r, d') ->
  changes d' d'' -> changes d d''.
Proof.
  intros E. econstructor; [|eassumption].
  replace d' with (snd (Prisma.notification_delete id d)) by now rewrite E.
  constructor.
Qed.

End Via.

Create HintDb writes.
#[export] Hint Resolve changes_none via_post_create via_post_delete
  via_like_create via_like_delete via_follows_create via_follows_delete
  via_comment_create via_comment_delete via_notification_create
  via_notification_update_read via_notification_updateMany_read
  via_notification_delete accepted_content_valid : writes.

Ltac unfold_reads :=
  unfold Prisma.post_findUnique, Prisma.like_findUnique,
    Prisma.notification_findFirst, Prisma.user_findUnique,
    Prisma.follows_findUnique, Prisma.comment_findUnique,
    Prisma.notification_findUnique, Prisma.notification_count_unread,
    Prisma.post_count.

Ltac name_write e := let W := fresh "W" in destruct e as [[?|?] ?] eqn:W.

(** As [split_run], with every write left folded and named. *)
Ltac split_writes :=
  repeat (reduce_run;
          match goal with
          | |- context [match ?l with [] => _ | _ :: _ => _ end] =>
              is_var l; destruct l as [|[?|] ?]
          | |- context [match find ?f ?l with Some _ => _ | None => _ end] =>
              let E := fresh "E" in destruct (find f l) eqn:E
          | |- context [if ?a =? ?b then _ else _] =>
              let E := fresh "E" in destruct (a =? b) eqn:E
          | |- context [negb (?a =? ?b)] =>
              let E := fresh "E" in destruct (a =? b) eqn:E
          | |- context [match signedIn ?s with Some _ => _ | None => _ end] =>
              let E := fresh "E" in destruct (signedIn s) eqn:E
          | |- context [match currentUser ?s with Some _ => _ | None => _ end] =>
              let E := fresh "E" in destruct (currentUser s) eqn:E
          | |- context [negb (Js.truthy ?c)] =>
              let E := fresh "E" in destruct (Js.truthy c) eqn:E
          | |- context [if (?a <? ?b)%Z then _ else _] =>
              let E := fresh "E" in destruct (a <? b)%Z eqn:E
          | |- context [Prisma.post_create ?c ?i ?a ?d] =>
              name_write (Prisma.post_create c i a d)
          | |- context [Prisma.post_delete ?i ?d] =>
              name_write (Prisma.post_delete i d)
          | |- context [Prisma.like_create ?u ?p ?d] =>
              name_write (Prisma.like_create u p d)
          | |- context [Prisma.like_delete ?u ?p ?d] =>
              name_write (Prisma.like_delete u p d)
          | |- context [Prisma.follows_create ?a ?b ?d] =>
              name_write (Prisma.follows_create a b d)
          | |- context [Prisma.follows_delete ?a ?b ?d] =>
              name_write (Prisma.follows_delete a b d)
          | |- context [Prisma.comment_create ?c ?p ?a ?d] =>
              name_write (Prisma.comment_create c p a d)
          | |- context [Prisma.comment_delete ?i ?d] =>
              name_write (Prisma.comment_delete i d)
          | |- context [Prisma.notification_create ?r ?a ?t ?p ?c ?d] =>
              name_write (Prisma.notification_create r a t p c d)
          | |- context [Prisma.notification_update_read ?i ?d] =>
              name_write (Prisma.notification_update_read i d)
          | |- context [Prisma.notification_updateMany_read ?u ?d] =>
              name_write (Prisma.notification_updateMany_read u d)
          | |- context [Prisma.notification_delete ?i ?d] =>
              name_write (Prisma.notification_delete i d)
          end);
  reduce_run.

Lemma exec_changes (s : Session) (c : Call) (w : World) :
  changes (db w) (db (exec s c w)).
Proof.
  destruct w as [d fs rs cs rv].
  destruct c; unfold_actions; unfold_reads; split_writes;
    eauto 7 with writes.
Qed.

(** Every store the application can reach is well formed. *)
Lemma reachable_wellFormed (d : DB) : reachable d -> wellFormed d.
Proof.
  induction 1 as [us n t | w s c _ IH].
  - constructor; simpl; intros; try contradiction; auto.
  - eapply changes_wellFormed; [apply exec_changes | exact IH].
Qed.

(* ================================================================== *)
(** ** Duplicate requests *)
(* ================================================================== *)

Lemma likePost_duplicate (s : Session) (U P : string) (post : Post) (l : Like)
      (w : World) :
  signedIn s = Some U ->
  faults w = [] ->
  find (fun p => post_id p =? P) (posts (db w)) = Some post ->
  find (Prisma.like_key U P) (likes (db w)) = Some l ->
  LikeAction.likePost s P w = (Return (WithMessage false "Post already liked"), w).
Proof.
  intros Hs Hf Hp Hl. destruct w as [d fs rs cs rv]. simpl in Hf, Hp, Hl.
  subst fs. unfold_actions. unfold_store. rewrite Hs. reduce_run.
  rewrite Hp. reduce_run. rewrite Hl. reflexivity.
Qed.

Lemma followUser_duplicate (s : Session) (U F : string) (u : User)
      (f : Follows) (w : World) :
  signedIn s = Some U ->
  faults w = [] ->
  U <> F ->
  find (fun x => clerkId x =? F) (users (db w)) = Some u ->
  find (Prisma.follows_key U F) (follows (db w)) = Some f ->
  FollowAction.followUser s F w
  = (Return (WithMessage false "Already following user"), w).
Proof.
  intros Hs Hf Hne Hu Hfo. destruct w as [d fs rs cs rv].
  simpl in Hf, Hu, Hfo. subst fs. apply String.eqb_neq in Hne.
  unfold_actions. unfold_store. rewrite Hs. reduce_run. rewrite Hne.
  reduce_run. rewrite Hu. reduce_run. rewrite Hfo. reflexivity.
Qed.

Lemma unlikePost_absent (s : Session) (U P : string) (w : World) :
  signedIn s = Some U ->
  find (Prisma.like_key U P) (likes (db w)) = None ->
  result (LikeAction.unlikePost s P) w
  = Return (WithMessage false "Post not liked") /\
  db (run (LikeAction.unlikePost s P) w) = db w.
Proof.
  intros Hs Hl. destruct w as [d fs rs cs rv]. simpl in Hl.
  unfold_actions. unfold_store. rewrite Hs. reduce_run.
  destruct fs as [|[e|] rest]; reduce_run; try rewrite Hl; auto.
Qed.

Lemma unfollowUser_absent (s : Session) (U F : string) (w : World) :
  signedIn s = Some U ->
  find (Prisma.follows_key U F) (follows (db w)) = None ->
  result (FollowAction.unfollowUser s F) w
  = Return (WithMessage false "Not following user") /\
  db (run (FollowAction.unfollowUser s F) w) = db w.
Proof.
  intros Hs Hl. destruct w as [d fs rs cs rv]. simpl in Hl.
  unfold_actions. unfold_store. rewrite Hs. reduce_run.
  destruct fs as [|[e|] rest]; reduce_run; try rewrite Hl; auto.
Qed.

Lemma find_like_absent (U P : string) (ls : list Like) :
  (forall l, In l ls -> ~ (like_userId l = U /\ like_postId l = P)) ->
  find (Prisma.like_key U P) ls = None.
Proof.
  intros H. apply find_is_none. intros l Hin.
  destruct (Prisma.like_key U P l) eqn:E; [|reflexivity].
  apply like_key_spec in E. elim (H l Hin E).
Qed.

Lemma find_follows_absent (U F : string) (fs : list Follows) :
  (forall f, In f fs ->
             ~ (follows_followerId f = U /\ follows_followingId f = F)) ->
  find (Prisma.follows_key U F) fs = None.
Proof.
  intros H. apply find_is_none. intros f Hin.
  destruct (Prisma.follows_key U F f) eqn:E; [|reflexivity].
  apply follows_key_spec in E. elim (H f Hin E).
Qed.

Lemma filter_some_length {A} (f : A -> bool) (l : list A) (x : A) :
  In x l -> f x = true -> 1 <= List.length (filter f l).
Proof.
  intros Hin Hx.
  assert (H : In x (filter f l)) by (apply filter_In; auto).
  destruct (filter f l); [contradiction | simpl; lia].
Qed.

(** C2: for a signed-in caller [U], on any store the application can reach
    and that answers, [likePost] on a post [U] already likes and
    [followUser] on a user [U] already follows return
    [{success:false, message}], throw nothing and leave the store as it
    was, with exactly one row for the pair; [unlikePost] on a post [U] does
    not like and [unfollowUser] on a user [U] does not follow return
    [{success:false, message}] too, whatever the store does. *)
Theorem duplicate_requests_are_noops (s : Session) (U : string) (w : World) :
  signedIn s = Some U ->
  (forall P,
     reachable (db w) -> faults w = [] ->
     (exists l, In l (likes (db w)) /\ like_userId l = U /\ like_postId l = P) ->
     LikeAction.likePost s P w
     = (Return (WithMessage false "Post already liked"), w) /\
     List.length (filter (Prisma.like_key U P) (likes (db w))) = 1) /\
  (forall F,
     reachable (db w) -> faults w = [] ->
     (exists f, In f (follows (db w)) /\
                follows_followerId f = U /\ follows_followingId f = F) ->
     FollowAction.followUser s F w
     = (Return (WithMessage false "Already following user"), w) /\
     List.length (filter (Prisma.follows_key U F) (follows (db w))) = 1) /\
  (forall P,
     (forall l, In l (likes (db w)) ->
                ~ (like_userId l = U /\ like_postId l = P)) ->
     result (LikeAction.unlikePost s P) w
     = Return (WithMessage false "Post not liked") /\
     db (run (LikeAction.unlikePost s P) w) = db w) /\
  (forall F,
     (forall f, In f (follows (db w)) ->
                ~ (follows_followerId f = U /\ follows_followingId f = F)) ->
     result (FollowAction.unfollowUser s F) w
     = Return (WithMessage false "Not following user") /\
     db (run (FollowAction.unfollowUser s F) w) = db w).
Proof.
  intros Hs. repeat split.
  - destruct H1 as (l & Hin & Hu & Hp).
    apply reachable_wellFormed in H.
    destruct (wf_like_post H l Hin) as (p & Hpin & Hid).
    destruct (find (fun p => post_id p =? P) (posts (db w))) as [post|] eqn:E1.
    2:{ rewrite find_is_none in E1. specialize (E1 p Hpin).
        apply String.eqb_neq in E1. congruence. }
    destruct (find (Prisma.like_key U P) (likes (db w))) as [l'|] eqn:E2.
    2:{ rewrite find_is_none in E2. specialize (E2 l Hin).
        assert (Prisma.like_key U P l = true) by (apply like_key_spec; auto).
        congruence. }
    eapply likePost_duplicate; eauto.
  - destruct H1 as (l & Hin & Hu & Hp).
    apply reachable_wellFormed in H.
    pose proof (wf_like_unique H U P).
    assert (1 <= List.length (filter (Prisma.like_key U P) (likes (db w)))).
    { eapply filter_some_length; [exact Hin | apply like_key_spec; auto]. }
    lia.
  - destruct H1 as (f & Hin & Hu & Hp).
    apply reachable_wellFormed in H.
    destruct (wf_follows H f Hin) as (Hne & u & Huin & Hid).
    destruct (find (fun x => clerkId x =? F) (users (db w))) as [u'|] eqn:E1.
    2:{ rewrite find_is_none in E1. specialize (E1 u Huin).
        apply String.eqb_neq in E1. congruence. }
    destruct (find (Prisma.follows_key U F) (follows (db w))) as [f'|] eqn:E2.
    2:{ rewrite find_is_none in E2. specialize (E2 f Hin).
        assert (Prisma.follows_key U F f = true)
          by (apply follows_key_spec; auto).
        congruence. }
    eapply followUser_duplicate; eauto. congruence.
  - destruct H1 as (f & Hin & Hu & Hp).
    apply reachable_wellFormed in H.
    pose proof (wf_follows_unique H U F).
    assert (1 <= List.length (filter (Prisma.follows_key U F) (follows (db w)))).
    { eapply filter_some_length; [exact Hin | apply follows_key_spec; auto]. }
    lia.
  - apply (@unlikePost_absent s U P w); auto using find_like_absent.
  - apply (@unlikePost_absent s U P w); auto using find_like_absent.
  - apply (@unfollowUser_absent s U F w); auto using find_follows_absent.
  - apply (@unfollowUser_absent s U F w); auto using find_follows_absent.
Qed.

Lemma reachable_posted : reachable (db Scenario.posted).
Proof.
  apply (reach_step (quiet Scenario.twoUsers) Scenario.alice
                    (CreatePost (Js.lit "hello") None)).
  apply reach_init.
Defined.

Lemma reachable_liked : reachable (db Scenario.liked).
Proof.
  apply (reach_step Scenario.posted Scenario.bob (LikePost "c0")).
  apply reachable_posted.
Defined.

Lemma reachable_followed : reachable (db Scenario.followed).
Proof.
  apply (reach_step (quiet Scenario.twoUsers) Scenario.bob
                    (FollowUser "user_alice")).
  apply reach_init.
Defined.

Lemma duplicate_requests_are_noops_example :
  (LikeAction.likePost Scenario.bob "c0" Scenario.liked
   = (Return (WithMessage false "Post already liked"), Scenario.liked)) /\
  (FollowAction.followUser Scenario.bob "user_alice" Scenario.followed
   = (Return (WithMessage false "Already following user"), Scenario.followed)) /\
  (result (LikeAction.unlikePost Scenario.bob "c0") Scenario.posted
   = Return (WithMessage false "Post not liked")) /\
  (result (FollowAction.unfollowUser Scenario.bob "user_alice") Scenario.posted
   = Return (WithMessage false "Not following user")).
Proof.
  destruct (@duplicate_requests_are_noops Scenario.bob "user_bob"
              Scenario.liked eq_refl) as (HL & _ & _ & _).
  destruct (@duplicate_requests_are_noops Scenario.bob "user_bob"
              Scenario.followed eq_refl) as (_ & HF & _ & _).
  destruct (@duplicate_requests_are_noops Scenario.bob "user_bob"
              Scenario.posted eq_refl) as (_ & _ & HU & HN).
  split; [|split; [|split]].
  - apply HL; [apply reachable_liked | reflexivity |].
    exists (mkLike "user_bob" "c0" 1). vm_compute. auto.
  - apply HF; [apply reachable_followed | reflexivity |].
    exists (mkFollows "user_bob" "user_alice" 0). vm_compute. auto.
  - apply HU. intros l Hin. elim Hin.
  - apply HN. intros f Hin. elim Hin.
Defined.

(* ================================================================== *)
(** ** Store errors, claim by claim *)
(* ================================================================== *)

(** C3, at the input where the code departs from it: Bob likes Alice's
    post and then unlikes it while the store is unreachable.  The
    rejection of [like.delete] is raised, yet [unlikePost] answers the
    no-op [{success:false, message:"Post not liked"}] instead of throwing
    its failure, and the like stays in the store. *)
Lemma unlikePost_hides_store_failure :
  let w := Scenario.failing (db Scenario.liked) in
  raised (run (LikeAction.unlikePost Scenario.bob "c0") w)
  = [("like.delete", "Can't reach database server")] /\
  result (LikeAction.unlikePost Scenario.bob "c0") w
  = Return (WithMessage false "Post not liked") /\
  likes (db (run (LikeAction.unlikePost Scenario.bob "c0") w))
  = [mkLike "user_bob" "c0" 1] /\
  ~ wraps "Failed to unlike post: " (LikeAction.unlikePost Scenario.bob "c0").
Proof.
  repeat split; try reflexivity.
  intros H. specialize (H (Scenario.failing (db Scenario.liked))).
  destruct H as [H | (c & e & _ & H)]; discriminate H.
Qed.

(** What every mutation does with a rejected store call: [likePost],
    [followUser], [createComment], [deleteComment], [createPost] and
    [deletePost] end the run by throwing their failure message with the
    store's message attached.  [unlikePost] and [unfollowUser] do so for
    every store call but their row delete, whose rejection they catch and
    answer with the no-op [{success:false, message}]. *)
Lemma store_errors_are_wrapped :
  (forall s postId,
     wraps "Failed to like post: " (LikeAction.likePost s postId)) /\
  (forall s followingId,
     wraps "Failed to follow user: " (FollowAction.followUser s followingId)) /\
  (forall s postId content,
     wraps "Failed to create comment: "
           (CommentAction.createComment s postId content)) /\
  (forall s commentId,
     wraps "Failed to delete comment: "
           (CommentAction.deleteComment s commentId)) /\
  (forall s content imageUrl,
     wraps "Failed to create post: "
           (PostAction.createPost s content imageUrl)) /\
  (forall s postId,
     wraps "Failed to delete post: " (PostAction.deletePost s postId)) /\
  (forall s postId w,
     raised (snd (LikeAction.unlikePost s postId w)) = raised w \/
     exists e,
       raised (snd (LikeAction.unlikePost s postId w))
       = (raised w ++ [("like.delete", e)])%list /\
       fst (LikeAction.unlikePost s postId w)
       = Return (WithMessage false "Post not liked")) /\
  (forall s followingId w,
     raised (snd (FollowAction.unfollowUser s followingId w)) = raised w \/
     (exists e,
        raised (snd (FollowAction.unfollowUser s followingId w))
        = (raised w ++ [("follows.delete", e)])%list /\
        fst (FollowAction.unfollowUser s followingId w)
        = Return (WithMessage false "Not following user")) \/
     (exists e,
        raised (snd (FollowAction.unfollowUser s followingId w))
        = (raised w ++ [("user.findUnique", e)])%list /\
        fst (FollowAction.unfollowUser s followingId w)
        = Throw ("Failed to unfollow user: " ++ e))).
Proof.
  repeat apply conj.
  - exact likePost_wraps.
  - exact followUser_wraps.
  - exact createComment_wraps.
  - exact deleteComment_wraps.
  - exact createPost_wraps.
  - exact deletePost_wraps.
  - exact unlikePost_swallows.
  - exact unfollowUser_swallows.
Qed.

(* ================================================================== *)
(** ** Read predicates *)
(* ================================================================== *)

Lemma hasUserLikedPost_defaults (s : Session) (postId : string) :
  defaults false (LikeAction.hasUserLikedPost s postId).
Proof. apply defaults_tryCatch. surfacing. Qed.

Lemma isFollowing_defaults (s : Session) (targetUserId : string) :
  defaults false (FollowAction.isFollowing s targetUserId).
Proof. apply defaults_tryCatch. surfacing. Qed.

Lemma getUnreadNotificationCount_defaults (s : Session) :
  defaults 0%Z (NotificationAction.getUnreadNotificationCount s).
Proof. apply defaults_tryCatch. surfacing. Qed.

(** C10: with no signed-in caller, [hasUserLikedPost] and [isFollowing]
    return [false] and [getUnreadNotificationCount] returns [0], without
    touching the store; under any session each of the three always returns
    a value and, when a store call was rejected, returns that same
    default. *)
Theorem read_predicates_fall_back (s : Session) (id : string) (w : World) :
  (signedIn s = None ->
   LikeAction.hasUserLikedPost s id w = (Return false, w) /\
   FollowAction.isFollowing s id w = (Return false, w) /\
   NotificationAction.getUnreadNotificationCount s w = (Return 0%Z, w)) /\
  defaults false (LikeAction.hasUserLikedPost s id) /\
  defaults false (FollowAction.isFollowing s id) /\
  defaults 0%Z (NotificationAction.getUnreadNotificationCount s).
Proof.
  split; [|auto using hasUserLikedPost_defaults, isFollowing_defaults,
             getUnreadNotificationCount_defaults].
  intros Hs. unfold_actions. rewrite Hs. auto.
Qed.

Lemma read_predicates_fall_back_example :
  (LikeAction.hasUserLikedPost anonymous "c0" Scenario.liked
   = (Return false, Scenario.liked)) /\
  (FollowAction.isFollowing anonymous "user_alice" Scenario.followed
   = (Return false, Scenario.followed)) /\
  (NotificationAction.getUnreadNotificationCount anonymous Scenario.liked
   = (Return 0%Z, Scenario.liked)) /\
  (result (LikeAction.hasUserLikedPost Scenario.bob "c0")
          (Scenario.failing (db Scenario.liked)) = Return false) /\
  (result (NotificationAction.getUnreadNotificationCount Scenario.alice)
          (Scenario.failing (db Scenario.liked)) = Return 0%Z).
Proof.
  destruct (read_predicates_fall_back anonymous "c0" Scenario.liked)
    as (H1 & _).
  destruct (read_predicates_fall_back anonymous "user_alice" Scenario.followed)
    as (H2 & _).
  destruct (read_predicates_fall_back Scenario.bob "c0"
              (Scenario.failing (db Scenario.liked))) as (_ & H3 & _).
  destruct (read_predicates_fall_back Scenario.alice "c0"
              (Scenario.failing (db Scenario.liked))) as (_ & _ & _ & H4).
  repeat apply conj.
  - apply H1. reflexivity.
  - apply H2. reflexivity.
  - apply H1. reflexivity.
  - apply H3. vm_compute. discriminate.
  - apply H4. vm_compute. discriminate.
Defined.

(* ================================================================== *)
(** ** The feed *)
(* ================================================================== *)

Lemma insertDesc_perm (p : Post) (l : list Post) :
  Permutation (Prisma.insertDesc p l) (p :: l).
Proof.
  induction l as [|q r IH]; simpl; [reflexivity|].
  destruct (post_createdAt q <? post_createdAt p)%N; [reflexivity|].
  rewrite IH. apply perm_swap.
Qed.

Lemma newestFirst_perm (l : list Post) : Permutation (Prisma.newestFirst l) l.
Proof.
  induction l as [|p l IH]; simpl; [reflexivity|].
  rewrite insertDesc_perm. now constructor.
Qed.

Lemma insertDesc_sorted (p : Post) (l : list Post) :
  StronglySorted newerOrEqual l ->
  StronglySorted newerOrEqual (Prisma.insertDesc p l).
Proof.
  induction 1 as [|q r Hr IH Hq]; simpl.
  - repeat constructor.
  - destruct (post_createdAt q <? post_createdAt p)%N eqn:E.
    + apply N.ltb_lt in E. constructor; [constructor; assumption|].
      constructor; [unfold newerOrEqual; lia|].
      eapply Forall_impl; [|exact Hq]. unfold newerOrEqual. intros; lia.
    + apply N.ltb_ge in E. constructor; [exact IH|].
      eapply Permutation_Forall; [symmetry; apply insertDesc_perm|].
      constructor; assumption.
Qed.

Lemma newestFirst_sorted (l : list Post) :
  StronglySorted newerOrEqual (Prisma.newestFirst l).
Proof.
  induction l as [|p l IH]; simpl; [constructor|].
  now apply insertDesc_sorted.
Qed.

Section Slices.

Context {A : Type} (R : A -> A -> Prop).

Lemma StronglySorted_skipn (n : nat) (l : list A) :
  StronglySorted R l -> StronglySorted R (skipn n l).
Proof.
  revert l. induction n as [|n IH]; intros l H; [exact H|].
  destruct H; simpl; [constructor | now apply IH].
Qed.

Lemma Forall_firstn (P : A -> Prop) (n : nat) (l : list A) :
  Forall P l -> Forall P (firstn n l).
Proof.
  revert l. induction n as [|n IH]; intros l H; simpl; [constructor|].
  destruct H; constructor; auto.
Qed.

Lemma StronglySorted_firstn (n : nat) (l : list A) :
  StronglySorted R l -> StronglySorted R (firstn n l).
Proof.
  revert l. induction n as [|n IH]; intros l H; simpl; [constructor|].
  destruct H; constructor; auto using Forall_firstn.
Qed.

End Slices.

Lemma page_forward {A} (take skip : Z) (l : list A) :
  (0 <= take)%Z -> (0 <= skip)%Z ->
  Prisma.page take skip l
  = Return (firstn (Z.to_nat take) (skipn (Z.to_nat skip) l)).
Proof.
  intros Ht Hs. unfold Prisma.page.
  destruct (skip <? 0)%Z eqn:E1; [apply Z.ltb_lt in E1; lia|].
  destruct (0 <=? take)%Z eqn:E2; [reflexivity | apply Z.leb_gt in E2; lia].
Qed.

Lemma view_post_withCounts (d : DB) (l : list Post) :
  map view_post (map (Prisma.withCounts d) l) = l.
Proof.
  induction l as [|p l IH]; simpl; [reflexivity | now rewrite IH].
Qed.

(** C4: for [page >= 1] and [limit >= 0], on a store that answers,
    [getFeedPosts page limit] returns the posts at positions
    [(page-1)*limit ..] of the newest-first ordering of all posts, at most
    [limit] of them, each with its counts, together with the number of
    posts, [page] and [limit]; [hasMore] is true exactly when
    [page * limit < total].  The store is left as it was. *)
Theorem getFeedPosts_page (page limit : Z) (w : World) :
  (1 <= page)%Z -> (0 <= limit)%Z -> faults w = [] ->
  exists feed ordering,
    PostAction.getFeedPosts page limit w = (Return feed, w) /\
    Permutation ordering (posts (db w)) /\
    StronglySorted newerOrEqual ordering /\
    map view_post (PostAction.feed_posts feed)
    = firstn (Z.to_nat limit)
             (skipn (Z.to_nat ((page - 1) * limit)) ordering) /\
    (Z.of_nat (List.length (PostAction.feed_posts feed)) <= limit)%Z /\
    StronglySorted newerOrEqual (map view_post (PostAction.feed_posts feed)) /\
    Forall (fun v => v = Prisma.withCounts (db w) (view_post v))
           (PostAction.feed_posts feed) /\
    PostAction.total feed = Z.of_nat (List.length (posts (db w))) /\
    PostAction.page feed = page /\
    PostAction.limit feed = limit /\
    (PostAction.hasMore feed = true <-> (page * limit < PostAction.total feed)%Z).
Proof.
  intros Hp Hl Hf. destruct w as [d fs rs cs rv]. simpl in Hf. subst fs.
  set (ordering := Prisma.newestFirst (posts d)).
  set (slice := firstn (Z.to_nat limit)
                       (skipn (Z.to_nat ((page - 1) * limit)) ordering)).
  exists (PostAction.mkFeed (map (Prisma.withCounts d) slice)
            (Z.of_nat (List.length (posts d))) page limit
            ((page - 1) * limit + limit <? Z.of_nat (List.length (posts d)))%Z),
         ordering.
  assert (Hslice : StronglySorted newerOrEqual slice).
  { apply StronglySorted_firstn, StronglySorted_skipn, newestFirst_sorted. }
  repeat apply conj; simpl.
  - unfold_actions. unfold Prisma.post_findMany_newestFirst, Prisma.post_count.
    reduce_run. rewrite page_forward by nia. reflexivity.
  - apply newestFirst_perm.
  - apply newestFirst_sorted.
  - apply view_post_withCounts.
  - rewrite length_map. unfold slice. rewrite length_firstn. lia.
  - rewrite view_post_withCounts. exact Hslice.
  - apply Forall_map. apply Forall_forall. reflexivity.
  - reflexivity.
  - reflexivity.
  - reflexivity.
  - rewrite Z.ltb_lt. lia.
  - rewrite Z.ltb_lt. lia.
Qed.

Lemma getFeedPosts_page_example :
  exists feed ordering,
    PostAction.getFeedPosts 1 10 Scenario.posted
    = (Return feed, Scenario.posted) /\
    Permutation ordering (posts (db Scenario.posted)) /\
    StronglySorted newerOrEqual ordering /\
    map view_post (PostAction.feed_posts feed)
    = firstn (Z.to_nat 10) (skipn (Z.to_nat ((1 - 1) * 10)) ordering) /\
    (Z.of_nat (List.length (PostAction.feed_posts feed)) <= 10)%Z /\
    StronglySorted newerOrEqual (map view_post (PostAction.feed_posts feed)) /\
    Forall (fun v => v = Prisma.withCounts (db Scenario.posted) (view_post v))
           (PostAction.feed_posts feed) /\
    PostAction.total feed = Z.of_nat (List.length (posts (db Scenario.posted))) /\
    PostAction.page feed = 1%Z /\
    PostAction.limit feed = 10%Z /\
    (PostAction.hasMore feed = true <-> (1 * 10 < PostAction.total feed)%Z).
Proof.
  apply (@getFeedPosts_page 1 10 Scenario.posted); [lia | lia | reflexivity].
Defined.

(* ================================================================== *)
(** ** Post content *)
(* ================================================================== *)

Lemma createPost_posts (s : Session) (content : Js.str)
      (imageUrl : option string) (w : World) :
  posts (db (run (PostAction.createPost s content imageUrl) w)) = posts (db w) \/
  exists U id t,
    signedIn s = Some U /\
    Js.truthy (Js.trim content) = true /\
    (280 <? Js.length content)%Z = false /\
    posts (db (run (PostAction.createPost s content imageUrl) w))
    = (posts (db w)
       ++ [mkPost id (Js.trim content) (Js.orNull imageUrl) U t])%list.
Proof.
  run_all w; try (left; reflexivity); right; eauto 10.
Qed.

(** C5: for a signed-in user, [createPost] throws its validation error and
    writes nothing when the content is empty or whitespace-only, or longer
    than 280 code units; whoever calls it, it adds at most one Post row,
    whose content is the trimmed input, non-empty and of length at most
    280; and every post of every reachable store has such content. *)
Theorem createPost_validates (s : Session) (content : Js.str)
        (imageUrl : option string) (w : World) :
  (forall U cu,
     signedIn s = Some U -> currentUser s = Some cu ->
     forallb Js.isWhiteSpace content = true ->
     result (PostAction.createPost s content imageUrl) w
     = Throw "Failed to create post: Post content cannot be empty" /\
     db (run (PostAction.createPost s content imageUrl) w) = db w) /\
  (forall U cu,
     signedIn s = Some U -> currentUser s = Some cu ->
     forallb Js.isWhiteSpace content = false ->
     (280 < Js.length content)%Z ->
     result (PostAction.createPost s content imageUrl) w
     = Throw "Failed to create post: Post must be 280 characters or less" /\
     db (run (PostAction.createPost s content imageUrl) w) = db w) /\
  (posts (db (run (PostAction.createPost s content imageUrl) w))
   = posts (db w) \/
   exists p,
     posts (db (run (PostAction.createPost s content imageUrl) w))
     = (posts (db w) ++ [p])%list /\
     post_content p = Js.trim content /\
     post_content p <> [] /\
     (1 <= Js.length (post_content p) <= 280)%Z) /\
  (forall d p, reachable d -> In p (posts d) ->
               post_content p <> [] /\
               (1 <= Js.length (post_content p) <= 280)%Z).
Proof.
  repeat apply conj.
  - intros U cu Hs Hc Hblank. apply trim_nil in Hblank.
    destruct w as [d fs rs cs rv]. unfold_actions.
    rewrite Hs, Hc, Hblank. auto.
  - intros U cu Hs Hc Hblank Hlong.
    assert (Ht : Js.truthy (Js.trim content) = true).
    { apply truthy_nonempty. intros Hn. apply trim_nil in Hn. congruence. }
    apply Z.ltb_lt in Hlong.
    destruct w as [d fs rs cs rv]. unfold_actions.
    rewrite Hs, Hc, Ht. cbn [negb]. rewrite Hlong. auto.
  - destruct (createPost_posts s content imageUrl w)
      as [H | (U & id & t & _ & Ht & Hl & H)]; [left; exact H | right].
    eexists. split; [exact H|]. simpl.
    destruct (accepted_content_valid _ Ht Hl). auto.
  - intros d p Hr Hin. apply (wf_posts (reachable_wellFormed Hr) p Hin).
Qed.

Lemma createPost_validates_example :
  (result (PostAction.createPost Scenario.alice (Js.lit "   ") None)
          (quiet Scenario.twoUsers)
   = Throw "Failed to create post: Post content cannot be empty") /\
  (result (PostAction.createPost Scenario.alice (repeat 97%N 281) None)
          (quiet Scenario.twoUsers)
   = Throw "Failed to create post: Post must be 280 characters or less") /\
  (forall p, In p (posts (db Scenario.posted)) ->
             post_content p <> [] /\
             (1 <= Js.length (post_content p) <= 280)%Z).
Proof.
  destruct (createPost_validates Scenario.alice (Js.lit "   ") None
              (quiet Scenario.twoUsers)) as (H1 & _ & _ & H4).
  destruct (createPost_validates Scenario.alice (repeat 97%N 281) None
              (quiet Scenario.twoUsers)) as (_ & H2 & _).
  repeat apply conj.
  - eapply H1; reflexivity.
  - eapply H2; reflexivity.
  - intros p. apply H4. apply reachable_posted.
Defined.

(* ================================================================== *)
(** ** No notification to oneself *)
(* ================================================================== *)

Lemma followUser_self (s : Session) (U : string) (w : World) :
  signedIn s = Some U ->
  result (FollowAction.followUser s U) w
  = Throw "Failed to follow user: You cannot follow yourself" /\
  db (run (FollowAction.followUser s U) w) = db w /\
  raised (run (FollowAction.followUser s U) w) = raised w /\
  faults (run (FollowAction.followUser s U) w) = faults w.
Proof.
  intros Hs. destruct w as [d fs rs cs rv]. unfold_actions.
  rewrite Hs, String.eqb_refl. auto.
Qed.

(** C6: the rows [likePost], [createComment] and [followUser] add to the
    Notification table all have [creatorId <> userId]; [followUser] by a
    signed-in user on themselves throws its validation error before any
    store call, whatever the store holds; and no reachable store holds a
    notification addressed to its own actor. *)
Theorem notifications_never_address_their_actor :
  (forall s postId w,
     exists new,
       notifications (db (run (LikeAction.likePost s postId) w))
       = (notifications (db w) ++ new)%list /\
       Forall noSelfNotification new) /\
  (forall s postId content w,
     exists new,
       notifications (db (run (CommentAction.createComment s postId content) w))
       = (notifications (db w) ++ new)%list /\
       Forall noSelfNotification new) /\
  (forall s followingId w,
     exists new,
       notifications (db (run (FollowAction.followUser s followingId) w))
       = (notifications (db w) ++ new)%list /\
       Forall noSelfNotification new) /\
  (forall s U w,
     signedIn s = Some U ->
     result (FollowAction.followUser s U) w
     = Throw "Failed to follow user: You cannot follow yourself" /\
     db (run (FollowAction.followUser s U) w) = db w /\
     raised (run (FollowAction.followUser s U) w) = raised w /\
     faults (run (FollowAction.followUser s U) w) = faults w) /\
  (forall d, reachable d -> Forall noSelfNotification (notifications d)).
Proof.
  repeat apply conj.
  - intros s P w.
    destruct (likePost_notifications s P w)
      as [H | (U & post & id & t & _ & _ & Hne & _ & H)].
    + exists []. rewrite app_nil_r. auto.
    + eexists. split; [exact H|]. repeat constructor.
      unfold noSelfNotification. simpl. apply String.eqb_neq in Hne. congruence.
  - intros s P c w.
    destruct (createComment_notifications s P c w)
      as [H | (U & post & id & cid & t & _ & Hne & H)].
    + exists []. rewrite app_nil_r. auto.
    + eexists. split; [exact H|]. repeat constructor.
      unfold noSelfNotification. simpl. apply String.eqb_neq in Hne. congruence.
  - intros s F w.
    destruct (followUser_notifications s F w)
      as [H | (U & id & t & _ & Hne & H)].
    + exists []. rewrite app_nil_r. auto.
    + eexists. split; [exact H|]. repeat constructor.
      unfold noSelfNotification. simpl. apply String.eqb_neq in Hne. congruence.
  - intros s U w. apply followUser_self.
  - intros d Hr. apply (wf_notifications (reachable_wellFormed Hr)).
Qed.

Lemma notifications_never_address_their_actor_example :
  (result (FollowAction.followUser Scenario.bob "user_bob") Scenario.followed
   = Throw "Failed to follow user: You cannot follow yourself") /\
  Forall noSelfNotification (notifications (db Scenario.liked)) /\
  Forall noSelfNotification (notifications (db Scenario.followed)).
Proof.
  destruct notifications_never_address_their_actor as (_ & _ & _ & H4 & H5).
  repeat apply conj.
  - apply (H4 Scenario.bob "user_bob" Scenario.followed). reflexivity.
  - apply H5, reachable_liked.
  - apply H5, reachable_followed.
Defined.

(* ================================================================== *)
(** ** Unliking *)
(* ================================================================== *)

Lemma exec_quiet (s : Session) (c : Call) (w : World) :
  faults w = [] -> faults (exec s c w) = [].
Proof.
  intros Hf. destruct w as [d fs rs cs rv]. simpl in Hf. subst fs.
  destruct c; unfold_actions; unfold_store; split_run; reflexivity.
Qed.

Lemma find_removeFirst_unique {A} (f : A -> bool) (l : list A) :
  List.length (filter f l) <= 1 -> find f (Prisma.removeFirst f l) = None.
Proof.
  induction l as [|x l IH]; simpl; [reflexivity|].
  destruct (f x) eqn:E; simpl.
  - intros H. apply find_is_none. intros y Hy.
    destruct (f y) eqn:Ey; [|reflexivity].
    assert (In y (filter f l)) by (apply filter_In; auto).
    destruct (filter f l); [contradiction | simpl in H; lia].
  - rewrite E. exact IH.
Qed.

Lemma unlikePost_removes (s : Session) (U P : string) (w : World) :
  signedIn s = Some U ->
  wellFormed (db w) ->
  faults w = [] ->
  find (Prisma.like_key U P) (likes (db (run (LikeAction.unlikePost s P) w)))
  = None.
Proof.
  intros Hs Hw Hf. pose proof (wf_like_unique Hw U P) as Hu.
  destruct w as [d fs rs cs rv]. simpl in Hf, Hu. subst fs.
  unfold_actions. unfold_store. rewrite Hs. reduce_run.
  destruct (find (Prisma.like_key U P) (likes d)) eqn:E; reduce_run.
  - now apply find_removeFirst_unique.
  - exact E.
Qed.

(** C8: [unlikePost] leaves every Notification row (and every post,
    comment, follow and user) as it was and removes at most one Like row,
    the caller's for that post; on a reachable store that answers no Like
    row for (caller, post) is left afterwards.  In the sequence like,
    mark-read, unlike of the scenario the Like row is gone and the LIKE
    notification is still there, unchanged since it was read. *)
Theorem unlikePost_keeps_notifications (s : Session) (P : string) (w : World) :
  let w' := run (LikeAction.unlikePost s P) w in
  notifications (db w') = notifications (db w) /\
  users (db w') = users (db w) /\ posts (db w') = posts (db w) /\
  comments (db w') = comments (db w) /\ follows (db w') = follows (db w) /\
  (likes (db w') = likes (db w) \/
   exists U l,
     signedIn s = Some U /\ In l (likes (db w)) /\
     like_userId l = U /\ like_postId l = P /\
     likes (db w') = Prisma.removeFirst (Prisma.like_key U P) (likes (db w)) /\
     S (List.length (likes (db w'))) = List.length (likes (db w))) /\
  (forall U, signedIn s = Some U -> reachable (db w) -> faults w = [] ->
             forall l, In l (likes (db w')) ->
                       ~ (like_userId l = U /\ like_postId l = P)) /\
  (likes (db Scenario.seen) = [mkLike "user_bob" "c0" 1] /\
   likes (db Scenario.unliked) = [] /\
   notifications (db Scenario.unliked) = notifications (db Scenario.seen) /\
   notifications (db Scenario.unliked)
   = [mkNotification "c1" "user_alice" "user_bob" LIKE (Some "c0") None true 2]).
Proof.
  intros w'. subst w'.
  destruct (unlikePost_frame s P w) as (Hu & Hp & Hc & Hf & Hn & Hl).
  refine (conj Hn (conj Hu (conj Hp (conj Hc (conj Hf (conj _ (conj _ _))))))).
  3: vm_compute; auto.
  - destruct Hl as [Hl | (U & l & Hs & Hfind & Hl)]; [left; exact Hl | right].
    exists U, l. pose proof (find_some _ _ Hfind) as [Hin Hk].
    apply like_key_spec in Hk. destruct Hk as [Hk1 Hk2].
    repeat apply conj; auto.
    rewrite Hl. eapply removeFirst_length; eauto.
  - intros U Hs Hr Hq l Hin Hk.
    pose proof (@unlikePost_removes s U P w Hs (reachable_wellFormed Hr) Hq)
      as Hnone.
    rewrite find_is_none in Hnone. specialize (Hnone l Hin).
    apply like_key_spec in Hk. congruence.
Qed.

(* ================================================================== *)
(** ** Reading a notification *)
(* ================================================================== *)

Lemma find_updateFirst {A} (f : A -> bool) (g : A -> A) (l : list A) (x : A) :
  (forall y, f (g y) = f y) ->
  find f l = Some x -> find f (Prisma.updateFirst f g l) = Some (g x).
Proof.
  intros Hg. induction l as [|y l IH]; simpl; [discriminate|].
  destruct (f y) eqn:E; simpl.
  - intros H. injection H as <-. now rewrite Hg, E.
  - rewrite E. exact IH.
Qed.

Lemma updateFirst_twice {A} (f : A -> bool) (g : A -> A) (l : list A) :
  (forall y, f (g y) = f y) -> (forall y, g (g y) = g y) ->
  Prisma.updateFirst f g (Prisma.updateFirst f g l) = Prisma.updateFirst f g l.
Proof.
  intros Hf Hg. induction l as [|y l IH]; simpl; [reflexivity|].
  destruct (f y) eqn:E; simpl.
  - now rewrite Hf, E, Hg.
  - now rewrite E, IH.
Qed.

Lemma markNotificationAsRead_owned (s : Session) (U id : string)
      (n : Notification) (w : World) :
  signedIn s = Some U ->
  faults w = [] ->
  find (fun x => notif_id x =? id) (notifications (db w)) = Some n ->
  notif_userId n = U ->
  result (NotificationAction.markNotificationAsRead s id) w
  = Return (Prisma.markRead n) /\
  faults (run (NotificationAction.markNotificationAsRead s id) w) = [] /\
  db (run (NotificationAction.markNotificationAsRead s id) w)
  = Prisma.set_notifications (db w)
      (Prisma.updateFirst (fun x => notif_id x =? id) Prisma.markRead
                          (notifications (db w))).
Proof.
  intros Hs Hf Hn Hu. destruct w as [d fs rs cs rv]. simpl in Hf, Hn.
  subst fs. unfold_actions. unfold_store. rewrite Hs. reduce_run.
  rewrite Hn. reduce_run. rewrite Hu, String.eqb_refl. reduce_run.
  rewrite Hn. reduce_run. auto.
Qed.

(** C9: for a notification owned by the signed-in caller, on a store that
    answers, [markNotificationAsRead] returns the notification with
    [read = true] and stores it so; a second call returns the same, throws
    nothing and leaves the store exactly as the first call left it. *)
Theorem markNotificationAsRead_idempotent (s : Session) (U id : string)
        (n : Notification) (w : World) :
  signedIn s = Some U ->
  faults w = [] ->
  find (fun x => notif_id x =? id) (notifications (db w)) = Some n ->
  notif_userId n = U ->
  let w1 := run (NotificationAction.markNotificationAsRead s id) w in
  let w2 := run (NotificationAction.markNotificationAsRead s id) w1 in
  result (NotificationAction.markNotificationAsRead s id) w
  = Return (Prisma.markRead n) /\
  notif_read (Prisma.markRead n) = true /\
  find (fun x => notif_id x =? id) (notifications (db w1))
  = Some (Prisma.markRead n) /\
  result (NotificationAction.markNotificationAsRead s id) w1
  = Return (Prisma.markRead n) /\
  db w2 = db w1 /\
  find (fun x => notif_id x =? id) (notifications (db w2))
  = Some (Prisma.markRead n).
Proof.
  intros Hs Hf Hn Hu w1 w2.
  destruct (@markNotificationAsRead_owned s U id n w Hs Hf Hn Hu)
    as (R1 & F1 & D1).
  fold w1 in F1, D1.
  assert (Hfind : find (fun x => notif_id x =? id) (notifications (db w1))
                  = Some (Prisma.markRead n)).
  { rewrite D1. simpl. apply find_updateFirst; auto. }
  destruct (@markNotificationAsRead_owned s U id (Prisma.markRead n) w1
              Hs F1 Hfind Hu) as (R2 & F2 & D2).
  fold w2 in F2, D2.
  assert (Hsame : db w2 = db w1).
  { rewrite D2, D1. simpl. rewrite updateFirst_twice by auto.
    destruct (db w); reflexivity. }
  repeat apply conj; auto.
  rewrite Hsame. exact Hfind.
Qed.

Lemma markNotificationAsRead_idempotent_example :
  let w1 := run (NotificationAction.markNotificationAsRead Scenario.alice "c1")
                Scenario.liked in
  let w2 := run (NotificationAction.markNotificationAsRead Scenario.alice "c1")
                w1 in
  let n := mkNotification "c1" "user_alice" "user_bob" LIKE (Some "c0") None
                          false 2 in
  result (NotificationAction.markNotificationAsRead Scenario.alice "c1")
         Scenario.liked
  = Return (Prisma.markRead n) /\
  notif_read (Prisma.markRead n) = true /\
  find (fun x => notif_id x =? "c1") (notifications (db w1))
  = Some (Prisma.markRead n) /\
  result (NotificationAction.markNotificationAsRead Scenario.alice "c1") w1
  = Return (Prisma.markRead n) /\
  db w2 = db w1 /\
  find (fun x => notif_id x =? "c1") (notifications (db w2))
  = Some (Prisma.markRead n).
Proof.
  apply (@markNotificationAsRead_idempotent Scenario.alice "user_alice" "c1"
           (mkNotification "c1" "user_alice" "user_bob" LIKE (Some "c0") None
                           false 2) Scenario.liked);
    reflexivity.
Defined.

(* ================================================================== *)
(** ** Optimistic widgets when the mutation fails *)
(* ================================================================== *)

Lemma filter_temp_absent (tmp : string) (l : list CommentsSection.CommentView) :
  (forall c, In c l -> CommentsSection.id c <> tmp) ->
  filter (fun c => negb (CommentsSection.id c =? tmp)) l = l.
Proof.
  induction l as [|c l IH]; simpl; intros H; [reflexivity|].
  assert (E : (CommentsSection.id c =? tmp) = false).
  { apply String.eqb_neq. apply H. now left. }
  rewrite E. simpl. rewrite IH; [reflexivity|].
  intros x Hx. apply H. now right.
Qed.

Lemma handleLike_failure (cu : ClerkUser) (s : Session) (post_id : string)
      (st : PostWidget.State) (b : Browser) (w : World) (e : string) :
  result (if PostWidget.isLiked st
          then LikeAction.unlikePost s post_id
          else LikeAction.likePost s post_id) w = Throw e ->
  PostWidget.handleLike (Some cu) s post_id st b w
  = (st,
     mkBrowser (browser_console b ++ ["Error updating like: " ++ e])
               (refreshes b)
               (requests b
                ++ [if PostWidget.isLiked st then "unlikePost" else "likePost"]),
     run (if PostWidget.isLiked st
          then LikeAction.unlikePost s post_id
          else LikeAction.likePost s post_id) w).
Proof.
  unfold PostWidget.handleLike, await, result, run, logError.
  destruct st as [liked count deleting]. simpl.
  destruct liked; simpl.
  - destruct (LikeAction.unlikePost s post_id w) as [r w1]. simpl.
    intros ->. reflexivity.
  - destruct (LikeAction.likePost s post_id w) as [r w1]. simpl.
    intros ->. reflexivity.
Qed.

Lemma handleFollowToggle_failure (s : Session) (userId : string)
      (st : FollowButton.State) (b : Browser) (w : World) (e : string) :
  result (if FollowButton.isUserFollowing st
          then FollowAction.unfollowUser s userId
          else FollowAction.followUser s userId) w = Throw e ->
  FollowButton.handleFollowToggle s userId st b w
  = (FollowButton.mkState (FollowButton.isUserFollowing st)
                          (FollowButton.isLoading st) false,
     mkBrowser (browser_console b ++ ["Error toggling follow: " ++ e])
               (refreshes b)
               (requests b
                ++ [if FollowButton.isUserFollowing st
                    then "unfollowUser" else "followUser"]),
     run (if FollowButton.isUserFollowing st
          then FollowAction.unfollowUser s userId
          else FollowAction.followUser s userId) w).
Proof.
  unfold FollowButton.handleFollowToggle, await, result, run, logError.
  destruct st as [following loading submitting]. simpl.
  destruct following; simpl.
  - destruct (FollowAction.unfollowUser s userId w) as [r w1]. simpl.
    intros ->. reflexivity.
  - destruct (FollowAction.followUser s userId w) as [r w1]. simpl.
    intros ->. reflexivity.
Qed.

Lemma handleSubmitComment_failure (cu : ClerkUser) (s : Session)
      (postId : string) (now : N) (toISOString : N -> string)
      (st : CommentsSection.State) (b : Browser) (w : World) (e : string) :
  Js.truthy (Js.trim (CommentsSection.commentText st)) = true ->
  result (CommentAction.createComment s postId (CommentsSection.commentText st))
         w = Throw e ->
  (forall c, In c (CommentsSection.comments st) ->
             CommentsSection.id c
             <> "temp-" ++ NilEmpty.string_of_uint (N.to_uint now)) ->
  CommentsSection.handleSubmitComment (Some cu) s postId now toISOString st b w
  = (CommentsSection.mkState (CommentsSection.comments st) [] false (Some e)
                             (CommentsSection.deletingCommentId st),
     mkBrowser (browser_console b) (refreshes b)
               (requests b ++ ["createComment"]),
     run (CommentAction.createComment s postId (CommentsSection.commentText st))
         w).
Proof.
  intros Ht Hthrow Hfresh.
  unfold CommentsSection.handleSubmitComment, await, result, run in *.
  rewrite Ht. cbn [negb].
  destruct (CommentAction.createComment s postId
              (CommentsSection.commentText st) w) as [r w1].
  simpl in Hthrow. subst r.
  unfold CommentsSection.setIsSubmitting, CommentsSection.setError,
    CommentsSection.setComments, CommentsSection.setCommentText.
  cbn [CommentsSection.comments CommentsSection.commentText
       CommentsSection.isSubmitting CommentsSection.error
       CommentsSection.deletingCommentId CommentsSection.id filter].
  rewrite String.eqb_refl. cbn [negb].
  rewrite filter_temp_absent by exact Hfresh. reflexivity.
Qed.

(** C7 (what the widgets do when the mutation throws): the like button and
    the follow button return to the state they had before the click, call
    the mutation once, and write the error to the developer console only,
    so nothing the user sees tells of the failure; the comment composer
    restores the comment list, calls the mutation once and shows the
    message in its [error] field. *)
Theorem optimistic_widgets_on_failure (s : Session) (b : Browser) (w : World)
        (e : string) :
  (forall cu post_id st,
     result (if PostWidget.isLiked st
             then LikeAction.unlikePost s post_id
             else LikeAction.likePost s post_id) w = Throw e ->
     let '(st', b', _) := PostWidget.handleLike (Some cu) s post_id st b w in
     st' = st /\
     browser_console b' = (browser_console b ++ [("Error updating like: " ++ e)%string])%list /\
     refreshes b' = refreshes b /\
     List.length (requests b') = S (List.length (requests b))) /\
  (forall userId st,
     FollowButton.isSubmitting st = false ->
     result (if FollowButton.isUserFollowing st
             then FollowAction.unfollowUser s userId
             else FollowAction.followUser s userId) w = Throw e ->
     let '(st', b', _) := FollowButton.handleFollowToggle s userId st b w in
     st' = st /\
     browser_console b' = (browser_console b ++ [("Error toggling follow: " ++ e)%string])%list /\
     refreshes b' = refreshes b /\
     List.length (requests b') = S (List.length (requests b))) /\
  (forall cu postId now toISOString st,
     Js.truthy (Js.trim (CommentsSection.commentText st)) = true ->
     result (CommentAction.createComment s postId
               (CommentsSection.commentText st)) w = Throw e ->
     (forall c, In c (CommentsSection.comments st) ->
                CommentsSection.id c
                <> "temp-" ++ NilEmpty.string_of_uint (N.to_uint now)) ->
     let '(st', b', _) :=
       CommentsSection.handleSubmitComment (Some cu) s postId now toISOString
                                           st b w in
     CommentsSection.comments st' = CommentsSection.comments st /\
     CommentsSection.error st' = Some e /\
     CommentsSection.isSubmitting st' = false /\
     browser_console b' = browser_console b /\
     refreshes b' = refreshes b /\
     List.length (requests b') = S (List.length (requests b))).
Proof.
  repeat apply conj.
  - intros cu post_id st H. rewrite (@handleLike_failure cu s post_id st b w e H).
    cbn [browser_console refreshes requests]. rewrite length_app. simpl.
    repeat split; auto; lia.
  - intros userId st Hsub H. rewrite (@handleFollowToggle_failure s userId st b w e H).
    cbn [browser_console refreshes requests]. rewrite length_app. simpl.
    repeat split; auto; try lia.
    destruct st as [f l sub]. simpl in *. now subst sub.
  - intros cu postId now iso st Ht H Hfresh.
    rewrite (@handleSubmitComment_failure cu s postId now iso st b w e Ht H Hfresh).
    cbn [browser_console refreshes requests]. rewrite length_app. simpl.
    repeat split; auto; lia.
Qed.

(** Bob clicks the heart on Alice's post while the store is unreachable:
    the heart and the count are as before the click, and the failure is in
    the console only. *)
Lemma optimistic_widgets_on_failure_example :
  let w := Scenario.failing (db Scenario.posted) in
  let e := "Failed to like post: Can't reach database server" in
  let '(st', b', _) :=
    PostWidget.handleLike (currentUser Scenario.bob) Scenario.bob "c0"
                          (PostWidget.mkState false 0 false)
                          (mkBrowser [] 0 []) w in
  st' = PostWidget.mkState false 0 false /\
  browser_console b' = ([] ++ [("Error updating like: " ++ e)%string])%list /\
  refreshes b' = 0 /\
  List.length (requests b') = 1.
Proof.
  destruct (optimistic_widgets_on_failure Scenario.bob (mkBrowser [] 0 [])
              (Scenario.failing (db Scenario.posted))
              "Failed to like post: Can't reach database server")
    as (H & _).
  apply (H (mkClerkUser "user_bob" None (Some "user_bob") "user_bob"
                        "/avatar.png")
           "c0" (PostWidget.mkState false 0 false)).
  reflexivity.
Defined.

(* ================================================================== *)
(** ** The scenario, evaluated *)
(* ================================================================== *)

(** Alice posts "hello", Bob likes it, Alice reads the notification, Bob
    takes the like back: the unread count goes 1, 0, 0 and the like is
    there and then gone. *)
Example scenario_counts :
  result (NotificationAction.getUnreadNotificationCount Scenario.alice)
         Scenario.liked = Return 1%Z /\
  result (NotificationAction.getUnreadNotificationCount Scenario.alice)
         Scenario.seen = Return 0%Z /\
  result (NotificationAction.getUnreadNotificationCount Scenario.alice)
         Scenario.unliked = Return 0%Z /\
  result (LikeAction.hasUserLikedPost Scenario.bob "c0") Scenario.liked
  = Return true /\
  result (LikeAction.hasUserLikedPost Scenario.bob "c0") Scenario.unliked
  = Return false /\
  revalidated Scenario.liked = ["/"; "/"; "/post/c0"].
Proof. vm_compute. repeat split. Qed.

(** Bob follows Alice: one edge, one FOLLOW notification for Alice. *)
Example scenario_follow :
  follows (db Scenario.followed) = [mkFollows "user_bob" "user_alice" 0] /\
  notifications (db Scenario.followed)
  = [mkNotification "c0" "user_alice" "user_bob" FOLLOW None None false 1] /\
  result (FollowAction.isFollowing Scenario.bob "user_alice") Scenario.followed
  = Return true /\
  revalidated Scenario.followed = ["/profile/alice"; "/explore"; "/"].
Proof. vm_compute. repeat split. Qed.

(* ################################################################## *)
(** * Further properties of the actions and components *)
(* ################################################################## *)

Unset Implicit Arguments.

(* ================================================================== *)
(** ** Ordered reads *)
(* ================================================================== *)

Section SortDescBy.

Context {A : Type} (key : A -> N).

Lemma insertDescBy_perm (x : A) (l : list A) :
  Permutation (Query.insertDescBy key x l) (x :: l).
Proof.
  induction l as [|y r IH]; simpl; [reflexivity|].
  destruct (key y <? key x)%N; [reflexivity|].
  rewrite IH. apply perm_swap.
Qed.

Lemma sortDescBy_perm (l : list A) : Permutation (Query.sortDescBy key l) l.
Proof.
  induction l as [|x l IH]; simpl; [reflexivity|].
  rewrite insertDescBy_perm. now constructor.
Qed.

Lemma insertDescBy_sorted (x : A) (l : list A) :
  StronglySorted (descBy key) l ->
  StronglySorted (descBy key) (Query.insertDescBy key x l).
Proof.
  induction 1 as [|y r Hr IH Hy]; simpl.
  - repeat constructor.
  - destruct (key y <? key x)%N eqn:E.
    + apply N.ltb_lt in E. constructor; [constructor; assumption|].
      constructor; [unfold descBy; lia|].
      eapply Forall_impl; [|exact Hy]. unfold descBy. intros; lia.
    + apply N.ltb_ge in E. constructor; [exact IH|].
      eapply Permutation_Forall; [symmetry; apply insertDescBy_perm|].
      constructor; assumption.
Qed.

Lemma sortDescBy_sorted (l : list A) :
  StronglySorted (descBy key) (Query.sortDescBy key l).
Proof.
  induction l as [|x l IH]; simpl; [constructor|].
  now apply insertDescBy_sorted.
Qed.

Lemma sortDescBy_In (l : list A) (x : A) :
  In x (Query.sortDescBy key l) <-> In x l.
Proof.
  split; apply Permutation_in;
    [apply sortDescBy_perm | symmetry; apply sortDescBy_perm].
Qed.

Lemma sortDescBy_length (l : list A) :
  List.length (Query.sortDescBy key l) = List.length l.
Proof. apply Permutation_length, sortDescBy_perm. Qed.

End SortDescBy.

Lemma StronglySorted_map {A B} (f : A -> B) (R : B -> B -> Prop) (l : list A) :
  StronglySorted (fun x y => R (f x) (f y)) l -> StronglySorted R (map f l).
Proof.
  induction 1 as [|x l Hl IH Hx]; simpl; constructor; auto.
  apply Forall_map. exact Hx.
Qed.

Ltac unfold_queries :=
  unfold ReadAction.getPostLikes, ReadAction.getUserFollowers,
    ReadAction.getUserFollowing, ReadAction.getSuggestedUsers,
    ReadAction.getUserPosts, ReadAction.getPostDetail,
    ReadAction.getPostComments, ReadAction.getUserNotifications,
    Query.like_findMany_byPost, Query.follows_findMany_byFollowing,
    Query.follows_findMany_byFollower, Query.follows_findMany_followingIds,
    Query.user_findMany_popular, Query.user_findMany_suggested,
    Query.post_findMany_byAuthor, Query.comment_findMany_byPost,
    Query.post_findUnique_detail, Query.notification_findMany,
    Prisma.user_findFirst_idOrUsername.

(** A run on a store that answers: no failure is pending. *)
Ltac quiet_run w Hf :=
  destruct w as [? ? ? ? ?];
  cbn [db faults raised console revalidated] in * |-; subst;
  unfold run, result; unfold_queries; unfold_actions; unfold_store;
  reduce_run.

(* ================================================================== *)
(** ** Notifications of the caller *)
(* ================================================================== *)

Lemma wanted_spec (U : string) (unreadOnly : bool) (n : Notification) :
  Query.wanted U unreadOnly n = true <->
  notif_userId n = U /\ (unreadOnly = true -> notif_read n = false).
Proof.
  unfold Query.wanted. rewrite andb_true_iff, String.eqb_eq.
  destruct unreadOnly, (notif_read n); simpl; intuition congruence.
Qed.

Lemma map_notification_views (d : DB) (l : list Notification) :
  map Query.nv_notification (map (Query.notificationView d) l) = l.
Proof. induction l as [|n l IH]; simpl; [reflexivity | now rewrite IH]. Qed.

(** [getUserNotifications] throws for a visitor (where
    [getUnreadNotificationCount] answers 0); for a signed-in caller, on a
    store that answers, it returns exactly the caller's notifications (the
    unread ones when [unreadOnly]), newest first, each with its creator,
    post and comment, leaving the store as it was; with [unreadOnly] their
    number is what [getUnreadNotificationCount] returns. *)
Theorem getUserNotifications_own (s : Session) (unreadOnly : bool) (w : World) :
  (signedIn s = None ->
   result (ReadAction.getUserNotifications s unreadOnly) w
   = Throw "Failed to fetch notifications: Unauthorized: Must be logged in") /\
  (forall U,
     signedIn s = Some U -> faults w = [] ->
     exists views,
       ReadAction.getUserNotifications s unreadOnly w = (Return views, w) /\
       (forall n, In n (map Query.nv_notification views) <->
                  In n (notifications (db w)) /\ notif_userId n = U /\
                  (unreadOnly = true -> notif_read n = false)) /\
       StronglySorted (descBy notif_createdAt)
                      (map Query.nv_notification views) /\
       Forall (fun v => v = Query.notificationView (db w)
                              (Query.nv_notification v)) views /\
       (unreadOnly = true ->
        result (NotificationAction.getUnreadNotificationCount s) w
        = Return (Z.of_nat (List.length views)))).
Proof.
  split.
  - intros Hs. unfold result. unfold_queries. unfold_actions. rewrite Hs.
    destruct w; reflexivity.
  - intros U Hs Hf. eexists. split; [|split; [|split; [|split]]].
    + quiet_run w Hf. rewrite Hs. reflexivity.
    + intros n. rewrite map_notification_views, sortDescBy_In, filter_In.
      rewrite wanted_spec. tauto.
    + rewrite map_notification_views. apply sortDescBy_sorted.
    + apply Forall_map. apply Forall_forall. reflexivity.
    + intros ->. quiet_run w Hf. rewrite Hs. reduce_run.
      rewrite length_map, sortDescBy_length. reflexivity.
Qed.

Lemma getUserNotifications_own_example :
  (result (ReadAction.getUserNotifications anonymous true) Scenario.liked
   = Throw "Failed to fetch notifications: Unauthorized: Must be logged in") /\
  (exists views,
     ReadAction.getUserNotifications Scenario.alice true Scenario.liked
     = (Return views, Scenario.liked) /\
     result (NotificationAction.getUnreadNotificationCount Scenario.alice)
            Scenario.liked
     = Return (Z.of_nat (List.length views))).
Proof.
  destruct (getUserNotifications_own anonymous true Scenario.liked) as (H1 & _).
  destruct (getUserNotifications_own Scenario.alice true Scenario.liked)
    as (_ & H2).
  split; [apply H1; reflexivity|].
  destruct (H2 "user_alice" eq_refl eq_refl) as (views & E & _ & _ & _ & C).
  exists views. split; [exact E | apply C; reflexivity].
Defined.

(* ================================================================== *)
(** ** Mark all as read *)
(* ================================================================== *)

Lemma markRead_read (n : Notification) :
  notif_read n = true -> Prisma.markRead n = n.
Proof. destruct n; simpl; intros ->; reflexivity. Qed.

Lemma markMine_eq (U : string) (n : Notification) :
  (if Prisma.unreadOf U n then Prisma.markRead n else n)
  = (if notif_userId n =? U then Prisma.markRead n else n).
Proof.
  unfold Prisma.unreadOf.
  destruct (notif_userId n =? U), (notif_read n) eqn:E; simpl; auto.
  now rewrite markRead_read.
Qed.

Lemma unread_after_markMine (U : string) (l : list Notification) :
  filter (Prisma.unreadOf U)
         (map (fun n => if Prisma.unreadOf U n then Prisma.markRead n else n) l)
  = [].
Proof.
  induction l as [|n l IH]; simpl; [reflexivity|].
  destruct (Prisma.unreadOf U n) eqn:E.
  - unfold Prisma.unreadOf at 1. simpl. rewrite andb_false_r. exact IH.
  - rewrite E. exact IH.
Qed.

Lemma markAll_quiet (s : Session) (U : string) (w : World) :
  signedIn s = Some U -> faults w = [] ->
  NotificationAction.markAllNotificationsAsRead s w
  = (Return ("Marked "
             ++ showZ (Z.of_nat (List.length
                         (filter (Prisma.unreadOf U) (notifications (db w)))))
             ++ " notifications as read"),
     mkWorld
       (Prisma.set_notifications (db w)
          (map (fun n => if Prisma.unreadOf U n then Prisma.markRead n else n)
               (notifications (db w))))
       [] (raised w) (console w) (revalidated w ++ ["/notifications"])).
Proof.
  intros Hs Hf. quiet_run w Hf. rewrite Hs. reflexivity.
Qed.

Lemma unreadCount_quiet (s : Session) (U : string) (w : World) :
  signedIn s = Some U -> faults w = [] ->
  result (NotificationAction.getUnreadNotificationCount s) w
  = Return (Z.of_nat (List.length
                        (filter (Prisma.unreadOf U) (notifications (db w))))).
Proof.
  intros Hs Hf. quiet_run w Hf. rewrite Hs. reflexivity.
Qed.

(** [markAllNotificationsAsRead] by a signed-in user [U], on a store that
    answers, reports how many of [U]'s notifications were unread, sets
    [read] on every notification of [U] and changes nothing else;
    afterwards [getUnreadNotificationCount] returns 0, the bell of the
    navbar has no badge, and a second call reports 0 and leaves the store
    as it is. *)
Theorem markAllNotificationsAsRead_clears (s : Session) (U : string)
        (b : Browser) (w : World) :
  signedIn s = Some U -> faults w = [] ->
  let w' := run (NotificationAction.markAllNotificationsAsRead s) w in
  result (NotificationAction.markAllNotificationsAsRead s) w
  = Return ("Marked "
            ++ showZ (Z.of_nat (List.length
                        (filter (fun n => (notif_userId n =? U)
                                          && negb (notif_read n))
                                (notifications (db w)))))
            ++ " notifications as read") /\
  notifications (db w')
  = map (fun n => if notif_userId n =? U then Prisma.markRead n else n)
        (notifications (db w)) /\
  users (db w') = users (db w) /\ posts (db w') = posts (db w) /\
  comments (db w') = comments (db w) /\ likes (db w') = likes (db w) /\
  follows (db w') = follows (db w) /\
  result (NotificationAction.getUnreadNotificationCount s) w' = Return 0%Z /\
  DesktopNavbar.badge (fst (fst (DesktopNavbar.unreadCount s b w'))) = None /\
  result (NotificationAction.markAllNotificationsAsRead s) w'
  = Return "Marked 0 notifications as read" /\
  db (run (NotificationAction.markAllNotificationsAsRead s) w') = db w'.
Proof.
  intros Hs Hf w'.
  pose proof (markAll_quiet s U w Hs Hf) as E.
  assert (Hw' : w' = snd (NotificationAction.markAllNotificationsAsRead s w))
    by reflexivity.
  rewrite E in Hw'. simpl in Hw'.
  assert (Hf' : faults w' = []) by (rewrite Hw'; reflexivity).
  assert (Hn : notifications (db w')
               = map (fun n => if Prisma.unreadOf U n
                               then Prisma.markRead n else n)
                     (notifications (db w)))
    by (rewrite Hw'; reflexivity).
  assert (Hzero : filter (Prisma.unreadOf U) (notifications (db w')) = [])
    by (rewrite Hn; apply unread_after_markMine).
  assert (Hcount : result (NotificationAction.getUnreadNotificationCount s) w'
                   = Return 0%Z).
  { rewrite (unreadCount_quiet s U w' Hs Hf'), Hzero. reflexivity. }
  pose proof (markAll_quiet s U w' Hs Hf') as E'. rewrite Hzero in E'.
  repeat apply conj; try (rewrite Hw'; reflexivity).
  - unfold result. rewrite E. reflexivity.
  - rewrite Hn. apply map_ext. intros n. apply markMine_eq.
  - exact Hcount.
  - unfold DesktopNavbar.unreadCount, await.
    destruct (currentUser s); [|reflexivity].
    unfold result in Hcount.
    destruct (NotificationAction.getUnreadNotificationCount s w') as [r w2].
    simpl in Hcount. subst r. reflexivity.
  - unfold result. rewrite E'. reflexivity.
  - unfold run. rewrite E'. simpl.
    assert (Hid : map (fun n => if Prisma.unreadOf U n
                                then Prisma.markRead n else n)
                      (notifications (db w')) = notifications (db w')).
    { clear E E' Hcount Hn Hw'.
      induction (notifications (db w')) as [|n l IH]; simpl in *;
        [reflexivity|].
      destruct (Prisma.unreadOf U n); [discriminate|].
      now rewrite IH. }
    rewrite Hid. destruct (db w'); reflexivity.
Qed.

Lemma markAllNotificationsAsRead_clears_example :
  let w' := run (NotificationAction.markAllNotificationsAsRead Scenario.alice)
                Scenario.liked in
  result (NotificationAction.markAllNotificationsAsRead Scenario.alice)
         Scenario.liked
  = Return "Marked 1 notifications as read" /\
  result (NotificationAction.getUnreadNotificationCount Scenario.alice) w'
  = Return 0%Z.
Proof.
  destruct (markAllNotificationsAsRead_clears Scenario.alice "user_alice"
              (mkBrowser [] 0 []) Scenario.liked eq_refl eq_refl)
    as (H1 & _ & _ & _ & _ & _ & _ & H2 & _).
  split; [exact H1 | exact H2].
Defined.

(* ================================================================== *)
(** ** Owner-only mutations *)
(* ================================================================== *)

(** [deletePost] changes the store only when the caller is signed in as
    the author of the post found under that id, whatever the store does;
    on a store that answers, a visitor, an unknown id and a caller who is
    not the author each get their own failure. *)
Theorem deletePost_author_only (s : Session) (postId : string) (w : World) :
  (db (run (PostAction.deletePost s postId) w) = db w \/
   exists U post,
     signedIn s = Some U /\
     find (fun p => post_id p =? postId) (posts (db w)) = Some post /\
     author_clerkId post = U) /\
  (signedIn s = None ->
   result (PostAction.deletePost s postId) w
   = Throw "Failed to delete post: Unauthorized: Must be logged in") /\
  (forall U,
     signedIn s = Some U -> faults w = [] ->
     find (fun p => post_id p =? postId) (posts (db w)) = None ->
     result (PostAction.deletePost s postId) w
     = Throw "Failed to delete post: Post not found") /\
  (forall U post,
     signedIn s = Some U -> faults w = [] ->
     find (fun p => post_id p =? postId) (posts (db w)) = Some post ->
     author_clerkId post <> U ->
     result (PostAction.deletePost s postId) w
     = Throw "Failed to delete post: Unauthorized: You can only delete your own posts").
Proof.
  repeat apply conj.
  - run_all w; try (left; reflexivity); right;
      match goal with
      | E : (_ =? _) = true |- _ => apply String.eqb_eq in E
      end; eauto.
  - intros Hs. unfold result. unfold_actions. rewrite Hs.
    destruct w; reflexivity.
  - intros U Hs Hf Hp. quiet_run w Hf. rewrite Hs. reduce_run.
    rewrite Hp. reflexivity.
  - intros U post Hs Hf Hp Hne. quiet_run w Hf. rewrite Hs. reduce_run.
    rewrite Hp. reduce_run. apply String.eqb_neq in Hne. rewrite Hne.
    reflexivity.
Qed.

Lemma deletePost_author_only_example :
  (result (PostAction.deletePost Scenario.bob "c0") Scenario.liked
   = Throw "Failed to delete post: Unauthorized: You can only delete your own posts") /\
  (result (PostAction.deletePost Scenario.bob "nope") Scenario.liked
   = Throw "Failed to delete post: Post not found") /\
  (result (PostAction.deletePost anonymous "c0") Scenario.liked
   = Throw "Failed to delete post: Unauthorized: Must be logged in").
Proof.
  destruct (deletePost_author_only Scenario.bob "c0" Scenario.liked)
    as (_ & _ & _ & H4).
  destruct (deletePost_author_only Scenario.bob "nope" Scenario.liked)
    as (_ & _ & H3 & _).
  destruct (deletePost_author_only anonymous "c0" Scenario.liked)
    as (_ & H2 & _).
  repeat apply conj.
  - apply (H4 "user_bob" (mkPost "c0" (Js.lit "hello") None "user_alice" 0));
      try reflexivity. discriminate.
  - apply (H3 "user_bob"); reflexivity.
  - apply H2. reflexivity.
Defined.

Lemma filter_out_nothing {A} (f : A -> bool) (l : list A) :
  filter f (filter (fun x => negb (f x)) l) = [].
Proof.
  induction l as [|x l IH]; simpl; [reflexivity|].
  destruct (f x) eqn:E; simpl; [exact IH|]. rewrite E. exact IH.
Qed.

(** The author's [deletePost], on a store that answers, removes one post
    and with it every comment and like of that post: [getPostComments] and
    [getPostLikes] then return nothing for it, while the comments and likes
    of every other post stay. *)
Theorem deletePost_cascades (s : Session) (U postId : string) (post : Post)
        (w : World) :
  signedIn s = Some U -> faults w = [] ->
  find (fun p => post_id p =? postId) (posts (db w)) = Some post ->
  author_clerkId post = U ->
  let w' := run (PostAction.deletePost s postId) w in
  result (PostAction.deletePost s postId) w
  = Return (WithMessage true "Post deleted successfully") /\
  S (List.length (posts (db w'))) = List.length (posts (db w)) /\
  result (ReadAction.getPostComments postId) w' = Return [] /\
  result (ReadAction.getPostLikes postId) w' = Return [] /\
  (forall c, In c (comments (db w')) <->
             In c (comments (db w)) /\ comment_postId c <> postId) /\
  (forall l, In l (likes (db w')) <->
             In l (likes (db w)) /\ like_postId l <> postId).
Proof.
  intros Hs Hf Hp Ha w'. subst w'.
  apply String.eqb_eq in Ha.
  assert (E : PostAction.deletePost s postId w
              = (Return (WithMessage true "Post deleted successfully"),
                 mkWorld
                   (mkDB (users (db w))
                      (Prisma.removeFirst (fun p => post_id p =? postId)
                                          (posts (db w)))
                      (filter (fun c => negb (comment_postId c =? postId))
                              (comments (db w)))
                      (filter (fun l => negb (like_postId l =? postId))
                              (likes (db w)))
                      (follows (db w)) (notifications (db w))
                      (nextId (db w)) (clock (db w)))
                   [] (raised w) (console w) (revalidated w ++ ["/"]))).
  { quiet_run w Hf. rewrite Hs. reduce_run. rewrite Hp. reduce_run.
    rewrite Ha. reduce_run. rewrite Hp. reflexivity. }
  unfold run, result. rewrite E. cbn [fst snd db].
  pose proof (filter_out_nothing (fun c => comment_postId c =? postId)
                (comments (db w))) as Hnoc.
  pose proof (filter_out_nothing (fun l => like_postId l =? postId)
                (likes (db w))) as Hnol.
  repeat apply conj.
  - reflexivity.
  - simpl. eapply removeFirst_length; eauto.
  - unfold_queries. unfold_actions. unfold Query.commentsOf. reduce_run.
    rewrite Hnoc. reflexivity.
  - unfold_queries. unfold_actions. reduce_run. rewrite Hnol. reflexivity.
  - intros c. simpl. rewrite filter_In, negb_true_iff, String.eqb_neq. tauto.
  - intros c. simpl. rewrite filter_In, negb_true_iff, String.eqb_neq. tauto.
Qed.

Lemma deletePost_cascades_example :
  let w' := run (PostAction.deletePost Scenario.alice "c0") Scenario.liked in
  result (PostAction.deletePost Scenario.alice "c0") Scenario.liked
  = Return (WithMessage true "Post deleted successfully") /\
  S (List.length (posts (db w'))) = List.length (posts (db Scenario.liked)) /\
  result (ReadAction.getPostComments "c0") w' = Return [] /\
  result (ReadAction.getPostLikes "c0") w' = Return [] /\
  (forall c, In c (comments (db w')) <->
             In c (comments (db Scenario.liked)) /\ comment_postId c <> "c0") /\
  (forall l, In l (likes (db w')) <->
             In l (likes (db Scenario.liked)) /\ like_postId l <> "c0").
Proof.
  apply (deletePost_cascades Scenario.alice "user_alice" "c0"
           (mkPost "c0" (Js.lit "hello") None "user_alice" 0) Scenario.liked);
    reflexivity.
Defined.


(** [markNotificationAsRead] and [deleteNotification] change the store
    only when the caller is signed in as the recipient of the notification,
    whatever the store does; on a store that answers, any other signed-in
    caller gets the ownership failure, and the recipient's
    [deleteNotification] returns [{ success: true }] and removes that one
    row. *)
Theorem notifications_recipient_only (s : Session) (notificationId : string)
        (w : World) :
  let mine :=
    exists U n,
      signedIn s = Some U /\
      find (fun x => notif_id x =? notificationId) (notifications (db w))
      = Some n /\
      notif_userId n = U in
  (db (run (NotificationAction.markNotificationAsRead s notificationId) w)
   = db w \/ mine) /\
  (db (run (NotificationAction.deleteNotification s notificationId) w)
   = db w \/ mine) /\
  (forall U n,
     signedIn s = Some U -> faults w = [] ->
     find (fun x => notif_id x =? notificationId) (notifications (db w))
     = Some n ->
     notif_userId n <> U ->
     result (NotificationAction.markNotificationAsRead s notificationId) w
     = Throw "Failed to mark notification: Unauthorized: You can only update your own notifications" /\
     result (NotificationAction.deleteNotification s notificationId) w
     = Throw "Failed to delete notification: Unauthorized") /\
  (forall U n,
     signedIn s = Some U -> faults w = [] ->
     find (fun x => notif_id x =? notificationId) (notifications (db w))
     = Some n ->
     notif_userId n = U ->
     result (NotificationAction.deleteNotification s notificationId) w
     = Return (Bare true) /\
     notifications
       (db (run (NotificationAction.deleteNotification s notificationId) w))
     = Prisma.removeFirst (fun x => notif_id x =? notificationId)
                          (notifications (db w)) /\
     S (List.length
          (notifications
             (db (run (NotificationAction.deleteNotification s notificationId)
                      w))))
     = List.length (notifications (db w))).
Proof.
  intros mine. subst mine. repeat apply conj.
  - run_all w; try (left; reflexivity); right;
      match goal with
      | E : (_ =? _) = true |- _ => apply String.eqb_eq in E
      end; eauto.
  - run_all w; try (left; reflexivity); right;
      match goal with
      | E : (_ =? _) = true |- _ => apply String.eqb_eq in E
      end; eauto.
  - intros U n Hs Hf Hn Hne. apply String.eqb_neq in Hne.
    split; quiet_run w Hf; rewrite Hs; reduce_run; rewrite Hn; reduce_run;
      rewrite Hne; reflexivity.
  - intros U n Hs Hf Hn Hu. apply String.eqb_eq in Hu.
    assert (E : NotificationAction.deleteNotification s notificationId w
                = (Return (Bare true),
                   mkWorld
                     (Prisma.set_notifications (db w)
                        (Prisma.removeFirst
                           (fun x => notif_id x =? notificationId)
                           (notifications (db w))))
                     [] (raised w) (console w)
                     (revalidated w ++ ["/notifications"]))).
    { quiet_run w Hf. rewrite Hs. reduce_run. rewrite Hn. reduce_run.
      rewrite Hu. reduce_run. rewrite Hn. reflexivity. }
    unfold run, result. rewrite E. simpl. repeat apply conj; auto.
    eapply removeFirst_length; eauto.
Qed.


Lemma notifications_recipient_only_example :
  (result (NotificationAction.markNotificationAsRead Scenario.bob "c1")
          Scenario.liked
   = Throw "Failed to mark notification: Unauthorized: You can only update your own notifications") /\
  (result (NotificationAction.deleteNotification Scenario.bob "c1")
          Scenario.liked
   = Throw "Failed to delete notification: Unauthorized") /\
  (result (NotificationAction.deleteNotification Scenario.alice "c1")
          Scenario.liked
   = Return (Bare true)).
Proof.
  destruct (notifications_recipient_only Scenario.bob "c1" Scenario.liked)
    as (_ & _ & H3 & _).
  destruct (notifications_recipient_only Scenario.alice "c1" Scenario.liked)
    as (_ & _ & _ & H4).
  pose (n := mkNotification "c1" "user_alice" "user_bob" LIKE (Some "c0") None
                            false 2).
  destruct (H3 "user_bob" n eq_refl eq_refl eq_refl) as (A & B);
    [discriminate|].
  destruct (H4 "user_alice" n eq_refl eq_refl eq_refl eq_refl) as (C & _).
  repeat apply conj; assumption.
Defined.

(* ================================================================== *)
(** ** Like and follow, then ask *)
(* ================================================================== *)

Lemma find_app_none {A} (f : A -> bool) (l l' : list A) :
  find f l = None -> find f (l ++ l') = find f l'.
Proof.
  induction l as [|x l IH]; simpl; [reflexivity|].
  destruct (f x); [discriminate | exact IH].
Qed.

Lemma likePost_returns_liked (s : Session) (U P : string) (w : World)
      (r : Reply Like) :
  signedIn s = Some U ->
  result (LikeAction.likePost s P) w = Return r ->
  find (Prisma.like_key U P) (likes (db (run (LikeAction.likePost s P) w)))
  <> None.
Proof.
  intros Hs. revert r. run_all w; intros r Hr; try discriminate;
    injection Hs as <-; cbn [likes]; try congruence.
  all: rewrite find_is_some; eexists; split;
    [apply in_or_app; right; left; reflexivity
    | apply like_key_spec; split; reflexivity].
Qed.

Lemma hasUserLikedPost_quiet (s : Session) (U P : string) (w : World) :
  signedIn s = Some U -> faults w = [] ->
  result (LikeAction.hasUserLikedPost s P) w
  = Return (match find (Prisma.like_key U P) (likes (db w)) with
            | Some _ => true
            | None => false
            end).
Proof.
  intros Hs Hf. quiet_run w Hf. rewrite Hs. reduce_run.
  destruct (find _ (likes _)); reflexivity.
Qed.

(** Whenever [likePost] by a signed-in user returns, with a new like or
    with "already liked", [hasUserLikedPost] on a store that answers says
    [true]; after that user's [unlikePost] on a reachable store that
    answers it says [false]. *)
Theorem like_then_ask (s : Session) (U P : string) (w : World) :
  signedIn s = Some U -> faults w = [] ->
  (forall r,
     result (LikeAction.likePost s P) w = Return r ->
     result (LikeAction.hasUserLikedPost s P)
            (run (LikeAction.likePost s P) w) = Return true) /\
  (reachable (db w) ->
   result (LikeAction.hasUserLikedPost s P)
          (run (LikeAction.unlikePost s P) w) = Return false).
Proof.
  intros Hs Hf. split.
  - intros r Hr.
    rewrite (hasUserLikedPost_quiet s U P);
      [|exact Hs | apply (exec_quiet s (LikePost P) w Hf)].
    pose proof (likePost_returns_liked s U P w r Hs Hr) as Hl.
    destruct (find _ _); congruence.
  - intros Hreach.
    rewrite (hasUserLikedPost_quiet s U P);
      [|exact Hs | apply (exec_quiet s (UnlikePost P) w Hf)].
    rewrite (@unlikePost_removes s U P w Hs (reachable_wellFormed Hreach) Hf).
    reflexivity.
Qed.

Lemma like_then_ask_example :
  (result (LikeAction.hasUserLikedPost Scenario.bob "c0")
          (run (LikeAction.likePost Scenario.bob "c0") Scenario.posted)
   = Return true) /\
  (result (LikeAction.hasUserLikedPost Scenario.bob "c0")
          (run (LikeAction.unlikePost Scenario.bob "c0") Scenario.liked)
   = Return false).
Proof.
  destruct (like_then_ask Scenario.bob "user_bob" "c0" Scenario.posted
              eq_refl eq_refl) as (H1 & _).
  destruct (like_then_ask Scenario.bob "user_bob" "c0" Scenario.liked
              eq_refl eq_refl) as (_ & H2).
  split.
  - apply (H1 (WithRow true (mkLike "user_bob" "c0" 1))). reflexivity.
  - apply H2. apply reachable_liked.
Defined.

(** [likePost] is not one unit: when the store rejects the lookup of the
    existing notification after the like was written, the call throws, the
    Like row stays and no notification is written; a retry on a store that
    answers then returns "Post already liked" and still writes no
    notification, so the author is never told of this like. *)
Theorem likePost_partial_write (s : Session) (U P e : string) (post : Post)
        (w : World) :
  signedIn s = Some U ->
  faults w = [None; None; None; Some e] ->
  find (fun p => post_id p =? P) (posts (db w)) = Some post ->
  find (Prisma.like_key U P) (likes (db w)) = None ->
  author_clerkId post <> U ->
  let w' := run (LikeAction.likePost s P) w in
  result (LikeAction.likePost s P) w = Throw ("Failed to like post: " ++ e) /\
  likes (db w') = (likes (db w) ++ [mkLike U P (clock (db w))])%list /\
  notifications (db w') = notifications (db w) /\
  result (LikeAction.likePost s P) w'
  = Return (WithMessage false "Post already liked") /\
  notifications (db (run (LikeAction.likePost s P) w')) = notifications (db w).
Proof.
  intros Hs Hf Hp Hl Hne w'. apply String.eqb_neq in Hne.
  assert (E : LikeAction.likePost s P w
              = (Throw ("Failed to like post: " ++ e),
                 mkWorld
                   (Prisma.tick
                      (Prisma.set_likes (db w)
                         (likes (db w) ++ [mkLike U P (clock (db w))])))
                   []
                   (raised w ++ [("notification.findFirst", e)])
                   (console w ++ ["Error liking post:" ++ " " ++ e])
                   (revalidated w))).
  { quiet_run w Hf. rewrite Hs. reduce_run. rewrite Hp. reduce_run.
    rewrite Hl. reduce_run. rewrite Hl. reduce_run. rewrite Hne.
    reflexivity. }
  assert (Hw' : w' = snd (LikeAction.likePost s P w)) by reflexivity.
  rewrite E in Hw'. cbn [snd] in Hw'.
  assert (Hdup : LikeAction.likePost s P w'
                 = (Return (WithMessage false "Post already liked"), w')).
  { apply (@likePost_duplicate s U P post (mkLike U P (clock (db w))) w');
      rewrite ?Hw'; auto; simpl.
    rewrite (find_app_none _ _ _ Hl). simpl.
    assert (K : Prisma.like_key U P (mkLike U P (clock (db w))) = true)
      by (apply like_key_spec; split; reflexivity).
    rewrite K. reflexivity. }
  unfold result, run. rewrite Hdup. rewrite Hw'.
  repeat apply conj; try reflexivity.
  rewrite E. reflexivity.
Qed.

Lemma likePost_partial_write_example :
  let w := mkWorld (db Scenario.posted)
                   [None; None; None; Some "Can't reach database server"]
                   [] [] [] in
  let w' := run (LikeAction.likePost Scenario.bob "c0") w in
  result (LikeAction.likePost Scenario.bob "c0") w
  = Throw ("Failed to like post: " ++ "Can't reach database server") /\
  likes (db w') = (likes (db w) ++ [mkLike "user_bob" "c0" (clock (db w))])%list /\
  notifications (db w') = notifications (db w) /\
  result (LikeAction.likePost Scenario.bob "c0") w'
  = Return (WithMessage false "Post already liked") /\
  notifications (db (run (LikeAction.likePost Scenario.bob "c0") w'))
  = notifications (db w).
Proof.
  apply (likePost_partial_write Scenario.bob "user_bob" "c0"
           "Can't reach database server"
           (mkPost "c0" (Js.lit "hello") None "user_alice" 0));
    try reflexivity.
  discriminate.
Defined.

Lemma followUser_returns_following (s : Session) (U F : string) (w : World)
      (r : Reply Follows) :
  signedIn s = Some U ->
  result (FollowAction.followUser s F) w = Return r ->
  find (Prisma.follows_key U F)
       (follows (db (run (FollowAction.followUser s F) w))) <> None /\
  U <> F /\
  exists u, find (fun x => clerkId x =? F) (users (db w)) = Some u.
Proof.
  intros Hs. revert r. run_all w; intros r Hr; try discriminate;
    injection Hs as <-; cbn [follows];
    match goal with
    | E : (_ =? _) = false |- _ => apply String.eqb_neq in E
    end;
    (split; [|split; [assumption | eauto]]); try congruence.
  all: rewrite find_is_some; eexists; split;
    [apply in_or_app; right; left; reflexivity
    | apply follows_key_spec; split; reflexivity].
Qed.

Lemma isFollowing_quiet (s : Session) (U F : string) (w : World) :
  signedIn s = Some U -> faults w = [] ->
  result (FollowAction.isFollowing s F) w
  = Return (match find (Prisma.follows_key U F) (follows (db w)) with
            | Some _ => true
            | None => false
            end).
Proof.
  intros Hs Hf. quiet_run w Hf. rewrite Hs. reduce_run.
  destruct (find _ (follows _)); reflexivity.
Qed.

Lemma unfollowUser_removes (s : Session) (U F : string) (w : World) :
  signedIn s = Some U ->
  wellFormed (db w) ->
  faults w = [] ->
  find (Prisma.follows_key U F)
       (follows (db (run (FollowAction.unfollowUser s F) w))) = None.
Proof.
  intros Hs Hw Hf. pose proof (wf_follows_unique Hw U F) as Hu.
  quiet_run w Hf. rewrite Hs. reduce_run.
  destruct (find (Prisma.follows_key U F) (follows db0)) eqn:E; reduce_run.
  - destruct (find _ (users db0)); reduce_run;
      now apply find_removeFirst_unique.
  - exact E.
Qed.

Lemma getUserFollowing_quiet (U : string) (w : World) :
  faults w = [] ->
  result (ReadAction.getUserFollowing U) w
  = Return (map (fun f => Query.userByClerkId (db w) (follows_followingId f))
                (Query.sortDescBy follows_createdAt
                   (filter (fun f => follows_followerId f =? U)
                           (follows (db w))))).
Proof. intros Hf. quiet_run w Hf. rewrite map_map. reflexivity. Qed.

Lemma getUserFollowers_quiet (F : string) (w : World) :
  faults w = [] ->
  result (ReadAction.getUserFollowers F) w
  = Return (map (fun f => Query.userByClerkId (db w) (follows_followerId f))
                (Query.sortDescBy follows_createdAt
                   (filter (fun f => follows_followingId f =? F)
                           (follows (db w))))).
Proof. intros Hf. quiet_run w Hf. rewrite map_map. reflexivity. Qed.

Lemma followUser_frame_users (s : Session) (F : string) (w : World) :
  users (db (run (FollowAction.followUser s F) w)) = users (db w).
Proof. run_all w; reflexivity. Qed.

(** Whenever [followUser] by a signed-in user [U] returns, with a new edge
    or with "already following", then on a store that answers
    [isFollowing] says [true], the followee is among
    [getUserFollowing(U)] and [U]'s own row, if synced, among
    [getUserFollowers(followee)]; after [U]'s [unfollowUser] on a reachable
    store that answers [isFollowing] says [false]. *)
Theorem follow_then_ask (s : Session) (U F : string) (w : World) :
  signedIn s = Some U -> faults w = [] ->
  (forall r,
     result (FollowAction.followUser s F) w = Return r ->
     let w' := run (FollowAction.followUser s F) w in
     result (FollowAction.isFollowing s F) w' = Return true /\
     (exists u following,
        find (fun x => clerkId x =? F) (users (db w)) = Some u /\
        result (ReadAction.getUserFollowing U) w' = Return following /\
        In (Some u) following) /\
     (exists followers,
        result (ReadAction.getUserFollowers F) w' = Return followers /\
        In (find (fun x => clerkId x =? U) (users (db w))) followers)) /\
  (reachable (db w) ->
   result (FollowAction.isFollowing s F)
          (run (FollowAction.unfollowUser s F) w) = Return false).
Proof.
  intros Hs Hf. split.
  - intros r Hr w'.
    destruct (followUser_returns_following s U F w r Hs Hr)
      as (Hedge & Hne & u & Hu).
    assert (Hf' : faults w' = []) by apply (exec_quiet s (FollowUser F) w Hf).
    assert (Husers : users (db w') = users (db w))
      by apply followUser_frame_users.
    apply find_is_some in Hedge. destruct Hedge as (f & Hin & Hk).
    apply follows_key_spec in Hk. destruct Hk as [Hk1 Hk2].
    fold w' in Hin.
    repeat apply conj.
    + rewrite (isFollowing_quiet s U F w' Hs Hf').
      destruct (find _ (follows (db w'))) eqn:E; [reflexivity|].
      rewrite find_is_none in E. specialize (E f Hin).
      assert (Prisma.follows_key U F f = true)
        by (apply follows_key_spec; auto).
      congruence.
    + exists u. eexists. split; [exact Hu|]. split.
      * apply (getUserFollowing_quiet U w' Hf').
      * apply in_map_iff. exists f. split.
        -- unfold Query.userByClerkId. rewrite Husers, Hk2. exact Hu.
        -- apply sortDescBy_In. apply filter_In. split; [exact Hin|].
           apply String.eqb_eq. exact Hk1.
    + eexists. split.
      * apply (getUserFollowers_quiet F w' Hf').
      * apply in_map_iff. exists f. split.
        -- unfold Query.userByClerkId. rewrite Husers, Hk1. reflexivity.
        -- apply sortDescBy_In. apply filter_In. split; [exact Hin|].
           apply String.eqb_eq. exact Hk2.
  - intros Hreach.
    rewrite (isFollowing_quiet s U F);
      [|exact Hs | apply (exec_quiet s (UnfollowUser F) w Hf)].
    rewrite (unfollowUser_removes s U F w Hs (reachable_wellFormed Hreach) Hf).
    reflexivity.
Qed.

Lemma follow_then_ask_example :
  (result (FollowAction.isFollowing Scenario.bob "user_alice")
          Scenario.followed = Return true) /\
  (result (FollowAction.isFollowing Scenario.bob "user_alice")
          (run (FollowAction.unfollowUser Scenario.bob "user_alice")
               Scenario.followed) = Return false).
Proof.
  destruct (follow_then_ask Scenario.bob "user_bob" "user_alice"
              (quiet Scenario.twoUsers) eq_refl eq_refl) as (H1 & _).
  destruct (follow_then_ask Scenario.bob "user_bob" "user_alice"
              Scenario.followed eq_refl eq_refl) as (_ & H2).
  split.
  - apply (H1 (WithRow true (mkFollows "user_bob" "user_alice" 0))).
    reflexivity.
  - apply H2. apply reachable_followed.
Defined.

(* ================================================================== *)
(** ** What every reachable store satisfies *)
(* ================================================================== *)

(** On every store the mutations can produce, under any sessions,
    arguments and store failures: a user has at most one Like per post and
    every Like is of an existing post; nobody follows themselves, there is
    at most one edge per ordered pair and every edge ends at a known
    user. *)
Theorem reachable_store_invariants (d : DB) :
  reachable d ->
  (forall u p,
     List.length (filter (fun l => (like_userId l =? u) && (like_postId l =? p))
                         (likes d)) <= 1) /\
  (forall l, In l (likes d) ->
             exists p, In p (posts d) /\ post_id p = like_postId l) /\
  (forall f, In f (follows d) ->
             follows_followerId f <> follows_followingId f) /\
  (forall a b,
     List.length (filter (fun f => (follows_followerId f =? a)
                                   && (follows_followingId f =? b))
                         (follows d)) <= 1) /\
  (forall f, In f (follows d) ->
             exists u, In u (users d) /\ clerkId u = follows_followingId f).
Proof.
  intros Hr. apply reachable_wellFormed in Hr.
  destruct Hr as [HL HU HF HFU _ _]. repeat apply conj.
  - exact HU.
  - exact HL.
  - intros f Hin. apply (HF f Hin).
  - exact HFU.
  - intros f Hin. apply (HF f Hin).
Qed.

Lemma reachable_store_invariants_example :
  (forall u p,
     List.length (filter (fun l => (like_userId l =? u) && (like_postId l =? p))
                         (likes (db Scenario.liked))) <= 1) /\
  (forall f, In f (follows (db Scenario.followed)) ->
             follows_followerId f <> follows_followingId f).
Proof.
  destruct (reachable_store_invariants (db Scenario.liked) reachable_liked)
    as (H1 & _).
  destruct (reachable_store_invariants (db Scenario.followed)
              reachable_followed) as (_ & _ & H3 & _).
  split; assumption.
Defined.

(* ================================================================== *)
(** ** Who to follow *)
(* ================================================================== *)

Lemma signedIn_nonempty (s : Session) (U : string) :
  signedIn s = Some U -> U <> "".
Proof.
  unfold signedIn. destruct (auth_userId s) as [[|c r]|]; congruence.
Qed.

Lemma exec_follows (s : Session) (c : Call) (w : World) (f : Follows) :
  In f (follows (db (exec s c w))) ->
  In f (follows (db w)) \/ signedIn s = Some (follows_followerId f).
Proof.
  destruct c; run_all w; intros Hin; auto;
    try (left; eapply removeFirst_incl; eassumption).
  all: apply in_app_or in Hin; destruct Hin as [Hin | [<- | []]]; auto.
Qed.

Lemma reachable_followers_signed (d : DB) :
  reachable d -> forall f, In f (follows d) -> follows_followerId f <> "".
Proof.
  induction 1 as [us n t | w s c _ IH]; intros f Hin.
  - elim Hin.
  - apply exec_follows in Hin. destruct Hin as [Hin | Hs]; [auto|].
    eapply signedIn_nonempty; eauto.
Qed.

Lemma inList_spec (x : string) (l : list string) :
  Query.inList x l = true <-> In x l.
Proof.
  unfold Query.inList. rewrite existsb_exists. split.
  - intros (y & Hin & E). apply String.eqb_eq in E. now subst.
  - intros Hin. exists x. split; [exact Hin | apply String.eqb_refl].
Qed.

Lemma in_firstn {A} (n : nat) (l : list A) (x : A) :
  In x (firstn n l) -> In x l.
Proof.
  revert l. induction n as [|n IH]; intros [|y l]; simpl; try tauto.
  intros [-> | H]; auto.
Qed.

Lemma StronglySorted_weaken {A} (R S : A -> A -> Prop) (l : list A) :
  (forall x y, R x y -> S x y) -> StronglySorted R l -> StronglySorted S l.
Proof.
  intros H. induction 1 as [|x l Hl IH Hx]; constructor; auto.
  eapply Forall_impl; [|exact Hx]. auto.
Qed.

Lemma length_page_forward {A} (take : Z) (l : list A) :
  (0 <= take)%Z ->
  (Z.of_nat (List.length (firstn (Z.to_nat take) l)) <= take)%Z.
Proof. intros H. rewrite length_firstn. lia. Qed.

(** [getSuggestedUsers] for a signed-in caller [U], with [limit >= 0] on a
    store that answers, returns at most [limit] users, each with its
    follower count; none of them is [U], none is followed by [U], and each
    is followed by someone [U] follows.  On a reachable store a caller who
    follows nobody gets no suggestion. *)
Theorem getSuggestedUsers_signedIn (s : Session) (U : string) (limit : Z)
        (w : World) :
  signedIn s = Some U -> faults w = [] -> (0 <= limit)%Z ->
  let follow a b :=
    exists f, In f (follows (db w)) /\
              follows_followerId f = a /\ follows_followingId f = b in
  exists cards,
    ReadAction.getSuggestedUsers s limit w = (Return cards, w) /\
    (Z.of_nat (List.length cards) <= limit)%Z /\
    (forall c, In c cards ->
       In (Query.card_user c) (users (db w)) /\
       clerkId (Query.card_user c) <> U /\
       ~ follow U (clerkId (Query.card_user c)) /\
       (exists v, follow v (clerkId (Query.card_user c)) /\
                  (follow U v \/ (v = "" /\ forall x, ~ follow U x))) /\
       Query.card_followers c
       = Z.of_nat (List.length
                     (filter (fun f => follows_followingId f
                                       =? clerkId (Query.card_user c))
                             (follows (db w))))) /\
    (reachable (db w) -> (forall x, ~ follow U x) -> cards = []).
Proof.
  intros Hs Hf Hl follow.
  remember (map follows_followingId
                (filter (fun f => follows_followerId f =? U)
                        (follows (db w)))) as ids eqn:Eids.
  assert (Hids : forall x, In x ids <-> follow U x).
  { intros x. rewrite Eids. unfold follow. rewrite in_map_iff. split.
    - intros (f & <- & Hin). apply filter_In in Hin as [Hin E].
      apply String.eqb_eq in E. eauto.
    - intros (f & Hin & Ha & Hb). exists f. split; [exact Hb|].
      apply filter_In. split; [exact Hin | now apply String.eqb_eq]. }
  assert (Hwhy : forall v,
             In v (match ids with [] => [""] | _ :: _ => ids end) ->
             follow U v \/ (v = "" /\ forall x, ~ follow U x)).
  { intros v Hv. clear Eids. destruct ids as [|i r].
    - right. destruct Hv as [<- | []]. split; [reflexivity|].
      intros x Hx. apply Hids in Hx. exact Hx.
    - left. apply Hids. exact Hv. }
  set (ids' := match ids with [] => [""] | _ :: _ => ids end) in *.
  set (picked := firstn (Z.to_nat limit)
                        (skipn (Z.to_nat 0)
                           (filter (Query.suggested (db w) U ids')
                                   (users (db w))))).
  assert (Hpicked : forall u, In u picked ->
                              In u (users (db w)) /\
                              Query.suggested (db w) U ids' u = true).
  { intros u Hin. unfold picked in Hin. apply in_firstn in Hin.
    simpl in Hin. apply filter_In in Hin. exact Hin. }
  exists (map (Query.card (db w)) picked). repeat apply conj.
  - subst picked ids' ids. quiet_run w Hf. rewrite Hs. reduce_run.
    rewrite page_forward by lia. reflexivity.
  - rewrite length_map. unfold picked. apply length_page_forward. exact Hl.
  - intros c Hc. apply in_map_iff in Hc. destruct Hc as (u & <- & Hu).
    destruct (Hpicked u Hu) as (Hin & Hsug). simpl.
    unfold Query.suggested in Hsug.
    apply andb_true_iff in Hsug. destruct Hsug as [Hsug Hsome].
    apply andb_true_iff in Hsug. destruct Hsug as [Hnot Hnone].
    apply negb_true_iff in Hnot, Hnone. apply String.eqb_neq in Hnot.
    repeat apply conj; auto.
    + intros (f & Hfin & Ha & Hb).
      assert (E : existsb (fun f => follows_followerId f =? U)
                          (Query.followersOf (db w) u) = true).
      { apply existsb_exists. exists f. split.
        - apply filter_In. split; [exact Hfin | now apply String.eqb_eq].
        - now apply String.eqb_eq. }
      congruence.
    + apply existsb_exists in Hsome. destruct Hsome as (f & Hfin & Hv).
      apply filter_In in Hfin. destruct Hfin as [Hfin Hto].
      apply String.eqb_eq in Hto. apply inList_spec in Hv.
      exists (follows_followerId f). split; [exists f; auto|].
      apply Hwhy. exact Hv.
  - intros Hreach Hnobody.
    destruct picked as [|u r] eqn:Ep; [reflexivity | exfalso].
    destruct (Hpicked u) as (Hin & Hsug); [now left|].
    unfold Query.suggested in Hsug.
    apply andb_true_iff in Hsug. destruct Hsug as [_ Hsome].
    apply existsb_exists in Hsome. destruct Hsome as (f & Hfin & Hv).
    apply filter_In in Hfin. destruct Hfin as [Hfin _].
    apply inList_spec in Hv.
    destruct (Hwhy _ Hv) as [Hfol | [Hempty _]].
    + apply (Hnobody _ Hfol).
    + apply (reachable_followers_signed (db w) Hreach f Hfin). exact Hempty.
Qed.

Lemma getSuggestedUsers_signedIn_example :
  exists cards,
    ReadAction.getSuggestedUsers Scenario.bob 5 Network.graph
    = (Return cards, Network.graph) /\
    map (fun c => clerkId (Query.card_user c)) cards = ["user_carol"].
Proof.
  destruct (getSuggestedUsers_signedIn Scenario.bob "user_bob" 5 Network.graph
              eq_refl eq_refl)
    as (cards & E & _); [lia|].
  exists cards. split; [exact E|].
  vm_compute in E. injection E as <-. reflexivity.
Defined.

(** [getSuggestedUsers] for a visitor, with [limit >= 0] on a store that
    answers, returns the first [limit] users of an ordering of all users by
    follower count, most followed first, each with that count. *)
Theorem getSuggestedUsers_visitor (s : Session) (limit : Z) (w : World) :
  signedIn s = None -> faults w = [] -> (0 <= limit)%Z ->
  exists cards ordering,
    ReadAction.getSuggestedUsers s limit w = (Return cards, w) /\
    Permutation ordering (users (db w)) /\
    StronglySorted
      (fun u v =>
         List.length (filter (fun f => follows_followingId f =? clerkId v)
                             (follows (db w)))
         <= List.length (filter (fun f => follows_followingId f =? clerkId u)
                                (follows (db w))))
      ordering /\
    map Query.card_user cards = firstn (Z.to_nat limit) ordering /\
    (Z.of_nat (List.length cards) <= limit)%Z /\
    Forall (fun c =>
              Query.card_followers c
              = Z.of_nat (List.length
                            (filter (fun f => follows_followingId f
                                              =? clerkId (Query.card_user c))
                                    (follows (db w)))))
           cards.
Proof.
  intros Hs Hf Hl.
  set (ordering := Query.sortDescBy (Query.followerCount (db w)) (users (db w))).
  exists (map (Query.card (db w)) (firstn (Z.to_nat limit) ordering)), ordering.
  repeat apply conj.
  - quiet_run w Hf. rewrite Hs. reduce_run.
    rewrite page_forward by lia. reflexivity.
  - apply sortDescBy_perm.
  - pose proof (sortDescBy_sorted (Query.followerCount (db w)) (users (db w)))
      as Hsorted.
    fold ordering in Hsorted.
    eapply StronglySorted_weaken; [|exact Hsorted].
    intros u v. unfold descBy, Query.followerCount, Query.followersOf. lia.
  - rewrite map_map. simpl. apply map_id.
  - rewrite length_map. apply length_page_forward. exact Hl.
  - apply Forall_map. apply Forall_forall. intros u _. reflexivity.
Qed.

Lemma getSuggestedUsers_visitor_example :
  exists cards,
    ReadAction.getSuggestedUsers anonymous 2 Network.graph
    = (Return cards, Network.graph) /\
    map Query.card_followers cards = [1%Z; 1%Z] /\
    ~ In "user_bob" (map (fun c => clerkId (Query.card_user c)) cards).
Proof.
  destruct (getSuggestedUsers_visitor anonymous 2 Network.graph
              eq_refl eq_refl)
    as (cards & ordering & E & _); [lia|].
  exists cards. split; [exact E|].
  vm_compute in E. injection E as <-. split; [reflexivity|].
  simpl. intros [H | [H | []]]; discriminate H.
Defined.

(* ================================================================== *)
(** ** The feed component *)
(* ================================================================== *)

Lemma firstn_app_skipn {A} (a b : nat) (l : list A) :
  (firstn a l ++ firstn b (skipn a l))%list = firstn (a + b) l.
Proof.
  revert l. induction a as [|a IH]; intros [|x l]; simpl; try reflexivity.
  - now rewrite firstn_nil.
  - f_equal. apply IH.
Qed.

Lemma getFeedPosts_answers (page : Z) (w : World) :
  faults w = [] -> (1 <= page)%Z ->
  PostAction.getFeedPosts page 10 w
  = (Return
       (PostAction.mkFeed
          (map (Prisma.withCounts (db w))
               (firstn 10 (skipn (10 * (Z.to_nat page - 1))
                                 (Prisma.newestFirst (posts (db w))))))
          (Z.of_nat (List.length (posts (db w)))) page 10
          ((page - 1) * 10 + 10 <? Z.of_nat (List.length (posts (db w))))%Z),
     w).
Proof.
  intros Hf Hk. destruct w as [d fs rs cs rv]. simpl in Hf. subst fs.
  unfold_actions. unfold Prisma.post_findMany_newestFirst, Prisma.post_count.
  reduce_run. rewrite page_forward by lia.
  replace (Z.to_nat ((page - 1) * 10)) with (10 * (Z.to_nat page - 1)) by lia.
  reflexivity.
Qed.

Lemma feed_browse_invariant (toISOString : N -> string) (n : nat)
      (b : Browser) (w : World) :
  faults w = [] ->
  exists st b' k,
    Feed.browse toISOString n b w = (st, b', w) /\
    1 <= k <= S n /\
    Feed.page st = Z.of_nat k /\
    Feed.posts st
    = map (Feed.serialize toISOString)
          (map (Prisma.withCounts (db w))
               (firstn (10 * k) (Prisma.newestFirst (posts (db w))))) /\
    Feed.isLoading st = false /\
    Feed.error st = None /\
    (Feed.hasMore st = true <-> 10 * k < List.length (posts (db w))) /\
    (k = S n \/ List.length (posts (db w)) <= 10 * k) /\
    browser_console b' = browser_console b /\
    refreshes b' = refreshes b /\
    requests b' = (requests b ++ repeat "getFeedPosts" k)%list.
Proof.
  intros Hf. induction n as [|n IH].
  - eexists _, _, 1. split.
    + simpl. unfold Feed.loadPosts, await. simpl.
      rewrite (getFeedPosts_answers 1 w Hf) by lia. reflexivity.
    + cbn [Feed.page Feed.posts Feed.isLoading Feed.error Feed.hasMore
           PostAction.feed_posts PostAction.hasMore browser_console
           refreshes requests].
      repeat apply conj; try reflexivity; try lia; try (now left).
  - destruct IH as (st & b' & k & E & Hk & Hpage & Hposts & Hload & Herr
                    & Hmore & Hstop & Hcon & Href & Hreq).
    simpl. rewrite E. unfold Feed.handleLoadMore. rewrite Hload. simpl.
    destruct (Feed.hasMore st) eqn:Emore.
    + assert (Hlt : 10 * k < List.length (posts (db w))) by now apply Hmore.
      assert (k = S n) as -> by lia.
      unfold Feed.setPage.
      replace (Feed.page st + 1 =? Feed.page st)%Z with false
        by (symmetry; apply Z.eqb_neq; lia).
      unfold Feed.loadPosts, await.
      cbn [Feed.page Feed.posts Feed.isLoading Feed.error Feed.hasMore].
      rewrite (getFeedPosts_answers (Feed.page st + 1) w Hf) by lia.
      replace (Feed.page st + 1 =? 1)%Z with false
        by (symmetry; apply Z.eqb_neq; lia).
      eexists _, _, (S (S n)). split; [reflexivity|].
      cbn [Feed.page Feed.posts Feed.isLoading Feed.error Feed.hasMore
           PostAction.feed_posts PostAction.hasMore browser_console
           refreshes requests].
      repeat apply conj; try reflexivity; try lia; try (now left).
      * rewrite Hposts, <- !map_app. do 2 f_equal.
        replace (10 * (Z.to_nat (Feed.page st + 1) - 1)) with (10 * S n)
          by lia.
        rewrite firstn_app_skipn. f_equal. lia.
      * assumption.
      * rewrite Hreq, <- app_assoc. f_equal.
        replace (S (S n)) with (S n + 1) by lia.
        now rewrite repeat_app.
    + assert (Hall : List.length (posts (db w)) <= 10 * k).
      { destruct (le_lt_dec (List.length (posts (db w))) (10 * k)) as [|l];
          [assumption|]. apply Hmore in l. discriminate l. }
      exists st, b', k. rewrite Emore.
      repeat apply conj; auto; try lia; try discriminate.
Qed.

(** Opening the feed and clicking "Load More" [n] times, on a store that
    answers, shows the first [10 * (n + 1)] posts of the newest-first
    ordering, each with its counts; nothing is logged, the store is left
    as it was, at most [n + 1] requests are made, and the "Load More"
    button is offered exactly when posts remain beyond those shown. *)
Theorem feed_browse_shows_prefix (toISOString : N -> string) (n : nat)
        (b : Browser) (w : World) :
  faults w = [] ->
  exists st b',
    Feed.browse toISOString n b w = (st, b', w) /\
    Feed.posts st
    = map (Feed.serialize toISOString)
          (map (Prisma.withCounts (db w))
               (firstn (10 * S n) (Prisma.newestFirst (posts (db w))))) /\
    Feed.isLoading st = false /\
    Feed.error st = None /\
    (Feed.hasMore st = true <-> 10 * S n < List.length (posts (db w))) /\
    (Feed.render st
     = match posts (db w) with
       | [] => Feed.EmptyScreen
       | _ :: _ => Feed.PostList (Feed.posts st) (Feed.hasMore st)
       end) /\
    browser_console b' = browser_console b /\
    List.length (requests b') <= List.length (requests b) + S n.
Proof.
  intros Hf.
  destruct (feed_browse_invariant toISOString n b w Hf)
    as (st & b' & k & E & Hk & Hpage & Hposts & Hload & Herr & Hmore
        & Hstop & Hcon & _ & Hreq).
  assert (Hlen : List.length (Prisma.newestFirst (posts (db w)))
                 = List.length (posts (db w))).
  { apply Permutation_length, newestFirst_perm. }
  assert (Hsame : firstn (10 * k) (Prisma.newestFirst (posts (db w)))
                  = firstn (10 * S n) (Prisma.newestFirst (posts (db w)))).
  { destruct Hstop as [-> | Hall]; [reflexivity|].
    rewrite !firstn_all2 by lia. reflexivity. }
  exists st, b'. repeat apply conj; auto.
  - now rewrite Hposts, Hsame.
  - rewrite Hmore. destruct Hstop; subst; lia.
  - rewrite Hmore. destruct Hstop; subst; lia.
  - unfold Feed.render. rewrite Hload, Herr. simpl.
    rewrite Hposts.
    destruct (posts (db w)) as [|p r] eqn:Ep.
    + simpl. rewrite firstn_nil. reflexivity.
    + destruct (Prisma.newestFirst (p :: r)) as [|q r'] eqn:En;
        [simpl in Hlen; discriminate Hlen|].
      replace (10 * k) with (S (10 * k - 1)) by lia. reflexivity.
  - rewrite Hreq, length_app, repeat_length. lia.
Qed.

Lemma feed_browse_shows_prefix_example :
  exists st b',
    Feed.browse (fun _ => "2024-01-01T00:00:00.000Z") 1
                (mkBrowser [] 0 []) Scenario.posted
    = (st, b', Scenario.posted) /\
    map Feed.fp_id (Feed.posts st) = ["c0"] /\
    Feed.hasMore st = false /\
    requests b' = ["getFeedPosts"].
Proof.
  destruct (feed_browse_shows_prefix (fun _ => "2024-01-01T00:00:00.000Z") 1
              (mkBrowser [] 0 []) Scenario.posted eq_refl)
    as (st & b' & E & _).
  exists st, b'. split; [exact E|].
  vm_compute in E. injection E as <- <-. repeat split.
Defined.

(** When the first load of the feed fails, the error screen is shown, and
    its "Try Again" button, which sets the page to 1 while the page is
    already 1, sends no request and leaves the error screen in place, also
    when the store would answer again. *)
Theorem feed_try_again_on_first_page (toISOString : N -> string) (e : string)
        (rest : list (option string)) (b : Browser) (w healed : World) :
  faults w = Some e :: rest ->
  exists st b' w',
    Feed.loadPosts toISOString Feed.initial b w = (st, b', w') /\
    db w' = db w /\
    Feed.render st = Feed.ErrorScreen ("Failed to fetch feed: " ++ e) /\
    Feed.tryAgain toISOString st b' healed = (st, b', healed).
Proof.
  intros Hf. destruct w as [d fs rs cs rv]. simpl in Hf. subst fs.
  eexists _, _, _. split.
  - unfold Feed.loadPosts, await. unfold_actions. reduce_run. reflexivity.
  - repeat split.
Qed.

Lemma feed_try_again_on_first_page_example :
  exists st b' w',
    Feed.loadPosts (fun _ => "") Feed.initial (mkBrowser [] 0 [])
                   (Scenario.failing (db Scenario.posted)) = (st, b', w') /\
    db w' = db (Scenario.failing (db Scenario.posted)) /\
    Feed.render st
    = Feed.ErrorScreen ("Failed to fetch feed: " ++ "Can't reach database server") /\
    Feed.tryAgain (fun _ => "") st b' Scenario.posted = (st, b', Scenario.posted).
Proof.
  apply (feed_try_again_on_first_page (fun _ => "")
           "Can't reach database server" []
           (mkBrowser [] 0 []) (Scenario.failing (db Scenario.posted))
           Scenario.posted).
  reflexivity.
Defined.
(* ================================================================== *)
(** ** The buttons and the store *)
(* ================================================================== *)

Lemma filter_removeFirst_found {A} (f g : A -> bool) (l : list A) (x : A) :
  find f l = Some x -> (forall y, f y = true -> g y = true) ->
  S (List.length (filter g (Prisma.removeFirst f l)))
  = List.length (filter g l).
Proof.
  intros Hfind Hfg. revert Hfind.
  induction l as [|y l IH]; simpl; [discriminate|].
  destruct (f y) eqn:E.
  - intros _. now rewrite (Hfg y E).
  - intros H. simpl. destruct (g y); simpl; rewrite <- (IH H); reflexivity.
Qed.

Lemma like_button_core (cu : ClerkUser) (s : Session) (U : string)
      (post : Post) (st : PostWidget.State) (b : Browser) (w : World) :
  signedIn s = Some U -> faults w = [] ->
  List.length (filter (Prisma.like_key U (post_id post)) (likes (db w))) <= 1 ->
  (match find (Prisma.like_key U (post_id post)) (likes (db w)) with
   | Some _ => true
   | None => false
   end) = PostWidget.isLiked st ->
  PostWidget.likeCount st = count_likes (Prisma.withCounts (db w) post) ->
  exists st' b' w',
    PostWidget.handleLike (Some cu) s (post_id post) st b w = (st', b', w') /\
    faults w' = [] /\
    (match find (Prisma.like_key U (post_id post)) (likes (db w')) with
     | Some _ => true
     | None => false
     end) = PostWidget.isLiked st' /\
    PostWidget.likeCount st' = count_likes (Prisma.withCounts (db w') post) /\
    ((st' = st /\ db w' = db w /\ refreshes b' = refreshes b) \/
     (PostWidget.isLiked st' = negb (PostWidget.isLiked st) /\
      refreshes b' = S (refreshes b))).
Proof.
  intros Hs Hf Hu Hliked Hcount.
  destruct st as [isLiked likeCount isDeleting].
  cbn [PostWidget.isLiked PostWidget.likeCount] in *.
  destruct w as [d fs rs cs rv]. cbn [db faults] in *. subst fs.
  unfold PostWidget.handleLike, await.
  cbn [PostWidget.isLiked PostWidget.likeCount PostWidget.isDeleting].
  destruct (find (Prisma.like_key U (post_id post)) (likes d)) as [l|] eqn:El;
    subst isLiked.
  - (* the heart was filled: unlike *)
    unfold_actions. unfold_store. rewrite Hs. reduce_run. rewrite El.
    reduce_run. eexists _, _, _. split; [reflexivity|].
    cbn [PostWidget.isLiked PostWidget.likeCount db faults refreshes
         routerRefresh likes Prisma.set_likes].
    repeat apply conj; [reflexivity | | | right; split; reflexivity].
    + now rewrite find_removeFirst_unique.
    + subst likeCount. unfold Prisma.withCounts.
      cbn [count_likes likes Prisma.set_likes negb].
      rewrite <- (filter_removeFirst_found
                    (Prisma.like_key U (post_id post))
                    (fun x => like_postId x =? post_id post) (likes d) l El).
      * lia.
      * intros y Hy. apply like_key_spec in Hy. destruct Hy as [_ ->].
        apply String.eqb_refl.
  - (* the heart was empty: like *)
    unfold_actions. unfold_store. rewrite Hs. reduce_run.
    destruct (find (fun p => post_id p =? post_id post) (posts d)) as [p|]
      eqn:Ep; reduce_run.
    + rewrite El. reduce_run. rewrite El. reduce_run.
      assert (Hnew : forall lk,
                 like_userId lk = U -> like_postId lk = post_id post ->
                 find (Prisma.like_key U (post_id post)) (likes d ++ [lk])
                 <> None).
      { intros lk H1 H2. apply find_is_some. exists lk. split.
        - apply in_or_app. right. now left.
        - apply like_key_spec. auto. }
      destruct (author_clerkId p =? U) eqn:Ea; reduce_run;
        [|destruct (find _ (notifications d)); reduce_run];
        (eexists _, _, _; split; [reflexivity|];
         cbn [PostWidget.isLiked PostWidget.likeCount db faults refreshes
              routerRefresh likes];
         repeat apply conj; [reflexivity | | | right; split; reflexivity];
         [ reduce_run;
           destruct (find (Prisma.like_key U (post_id post)) (likes d ++ _))
                    eqn:En;
           [reflexivity | exfalso; revert En; apply Hnew; reflexivity]
         | subst likeCount; unfold Prisma.withCounts; reduce_run;
           cbn [count_likes likes negb];
           rewrite filter_app, length_app; cbn [filter like_postId];
           rewrite String.eqb_refl; simpl; lia ]).
    + eexists _, _, _. split; [reflexivity|].
      cbn [PostWidget.isLiked PostWidget.likeCount db faults refreshes
           logError].
      repeat apply conj; [reflexivity | | | left; repeat split].
      * now rewrite El.
      * exact Hcount.
Qed.

(** A like button that agrees with the store keeps agreeing with it: on
    a reachable store that answers, if [isLiked] is what
    [hasUserLikedPost] reports and [likeCount] is the post's like count,
    then after a click the same holds of the new state and the new store,
    whether the server action returned (the heart is toggled) or threw
    (nothing changed). *)
Theorem like_button_tracks_store (cu : ClerkUser) (s : Session) (U : string)
        (post : Post) (st : PostWidget.State) (b : Browser) (w : World) :
  signedIn s = Some U -> faults w = [] -> reachable (db w) ->
  result (LikeAction.hasUserLikedPost s (post_id post)) w
  = Return (PostWidget.isLiked st) ->
  PostWidget.likeCount st = count_likes (Prisma.withCounts (db w) post) ->
  exists st' b' w',
    PostWidget.handleLike (Some cu) s (post_id post) st b w = (st', b', w') /\
    faults w' = [] /\
    result (LikeAction.hasUserLikedPost s (post_id post)) w'
    = Return (PostWidget.isLiked st') /\
    PostWidget.likeCount st' = count_likes (Prisma.withCounts (db w') post) /\
    ((st' = st /\ db w' = db w /\ refreshes b' = refreshes b) \/
     (PostWidget.isLiked st' = negb (PostWidget.isLiked st) /\
      refreshes b' = S (refreshes b))).
Proof.
  intros Hs Hf Hreach Hliked Hcount.
  pose proof (wf_like_unique (reachable_wellFormed Hreach) U (post_id post))
    as Hu.
  rewrite (hasUserLikedPost_quiet s U (post_id post) w Hs Hf) in Hliked.
  injection Hliked as Hliked.
  destruct (like_button_core cu s U post st b w Hs Hf Hu Hliked Hcount)
    as (st' & b' & w' & E & Hf' & Hl & Hc & Hcase).
  exists st', b', w'. repeat apply conj; auto.
  rewrite (hasUserLikedPost_quiet s U (post_id post) w' Hs Hf').
  now rewrite Hl.
Qed.

Lemma like_button_tracks_store_example :
  exists st' b' w',
    PostWidget.handleLike (currentUser Scenario.bob) Scenario.bob "c0"
      (PostWidget.mkState false 0 false) (mkBrowser [] 0 []) Scenario.posted
    = (st', b', w') /\
    PostWidget.isLiked st' = true /\
    PostWidget.likeCount st' = 1%Z /\
    result (LikeAction.hasUserLikedPost Scenario.bob "c0") w' = Return true.
Proof.
  destruct (like_button_tracks_store
              (mkClerkUser "user_bob" None (Some "user_bob") "user_bob"
                           "/avatar.png")
              Scenario.bob "user_bob"
              (mkPost "c0" [] None "user_alice" 0%N)
              (PostWidget.mkState false 0 false) (mkBrowser [] 0 [])
              Scenario.posted eq_refl eq_refl reachable_posted eq_refl eq_refl)
    as (st' & b' & w' & E & _ & Hl & Hc & _).
  exists st', b', w'. split; [exact E|].
  vm_compute in E. injection E as <- <- <-. repeat split.
Defined.

Lemma follow_button_core (s : Session) (U F : string)
      (st : FollowButton.State) (b : Browser) (w : World) :
  signedIn s = Some U -> faults w = [] ->
  List.length (filter (Prisma.follows_key U F) (follows (db w))) <= 1 ->
  (match find (Prisma.follows_key U F) (follows (db w)) with
   | Some _ => true
   | None => false
   end) = FollowButton.isUserFollowing st ->
  exists st' b' w',
    FollowButton.handleFollowToggle s F st b w = (st', b', w') /\
    faults w' = [] /\
    (match find (Prisma.follows_key U F) (follows (db w')) with
     | Some _ => true
     | None => false
     end) = FollowButton.isUserFollowing st' /\
    FollowButton.isSubmitting st' = false /\
    ((FollowButton.isUserFollowing st' = FollowButton.isUserFollowing st /\
      db w' = db w /\ refreshes b' = refreshes b) \/
     (FollowButton.isUserFollowing st'
      = negb (FollowButton.isUserFollowing st) /\
      refreshes b' = S (refreshes b))).
Proof.
  intros Hs Hf Hu Hfol.
  destruct st as [isUserFollowing isLoading isSubmitting].
  cbn [FollowButton.isUserFollowing] in *.
  destruct w as [d fs rs cs rv]. cbn [db faults] in *. subst fs.
  unfold FollowButton.handleFollowToggle, await.
  cbn [FollowButton.isUserFollowing FollowButton.isLoading
       FollowButton.isSubmitting].
  destruct (find (Prisma.follows_key U F) (follows d)) as [f|] eqn:Ef;
    subst isUserFollowing.
  - unfold_actions. unfold_store. rewrite Hs. reduce_run. rewrite Ef.
    reduce_run.
    destruct (find (fun u => clerkId u =? F) (users d)); reduce_run;
      (eexists _, _, _; split; [reflexivity|];
       cbn [FollowButton.isUserFollowing FollowButton.isSubmitting db faults
            refreshes routerRefresh follows Prisma.set_follows];
       repeat apply conj; [reflexivity | | reflexivity
                           | right; split; reflexivity];
       now rewrite find_removeFirst_unique).
  - unfold_actions. unfold_store. rewrite Hs. reduce_run.
    destruct (U =? F) eqn:Eself; reduce_run;
      [|destruct (find (fun u => clerkId u =? F) (users d)) eqn:Eu;
        reduce_run; [rewrite Ef; reduce_run; rewrite Ef; reduce_run|]];
      (eexists _, _, _; split; [reflexivity|];
       cbn [FollowButton.isUserFollowing FollowButton.isSubmitting db faults
            refreshes routerRefresh logError follows];
       repeat apply conj; try reflexivity).
    + now rewrite Ef.
    + left. repeat split.
    + reduce_run. rewrite find_app_none by exact Ef. simpl.
      unfold Prisma.follows_key. simpl.
      rewrite !String.eqb_refl. reflexivity.
    + right. split; reflexivity.
    + now rewrite Ef.
    + left. repeat split.
Qed.

(** The follow button and the store.  On mount, on a store that answers,
    the button takes the state [isFollowing] reports and stops loading,
    and the store is not touched.  A button that agrees with a reachable
    store that answers agrees with it again after a click, whether the
    server action returned (the state is toggled) or threw (nothing
    changed), and is no longer submitting. *)
Theorem follow_button_tracks_store (s : Session) (U F : string)
        (st : FollowButton.State) (b : Browser) (w : World) :
  signedIn s = Some U -> faults w = [] ->
  (exists st0 b0,
     FollowStatus.checkFollowStatus s F st b w = (st0, b0, w) /\
     result (FollowAction.isFollowing s F) w
     = Return (FollowButton.isUserFollowing st0) /\
     FollowButton.isLoading st0 = false /\
     browser_console b0 = browser_console b) /\
  (reachable (db w) ->
   result (FollowAction.isFollowing s F) w
   = Return (FollowButton.isUserFollowing st) ->
   exists st' b' w',
     FollowButton.handleFollowToggle s F st b w = (st', b', w') /\
     faults w' = [] /\
     result (FollowAction.isFollowing s F) w'
     = Return (FollowButton.isUserFollowing st') /\
     FollowButton.isSubmitting st' = false /\
     ((FollowButton.isUserFollowing st' = FollowButton.isUserFollowing st /\
       db w' = db w /\ refreshes b' = refreshes b) \/
      (FollowButton.isUserFollowing st'
       = negb (FollowButton.isUserFollowing st) /\
       refreshes b' = S (refreshes b)))).
Proof.
  intros Hs Hf. split.
  - pose proof (isFollowing_quiet s U F w Hs Hf) as Hq.
    unfold FollowStatus.checkFollowStatus, await.
    unfold result in Hq.
    destruct (FollowAction.isFollowing s F w) as [r w1] eqn:E.
    simpl in Hq. subst r.
    assert (w1 = w) as ->.
    { revert E. clear - Hs Hf. destruct w as [d fs rs cs rv].
      cbn [faults] in Hf. subst fs. unfold_actions. unfold_store.
      rewrite Hs. reduce_run. intros E. now injection E. }
    eexists _, _. split; [reflexivity|].
    cbn [FollowButton.isUserFollowing FollowButton.isLoading browser_console].
    repeat split. unfold result. now rewrite E.
  - intros Hreach Hfol.
    pose proof (wf_follows_unique (reachable_wellFormed Hreach) U F) as Hu.
    rewrite (isFollowing_quiet s U F w Hs Hf) in Hfol.
    injection Hfol as Hfol.
    destruct (follow_button_core s U F st b w Hs Hf Hu Hfol)
      as (st' & b' & w' & E & Hf' & Hl & Hsub & Hcase).
    exists st', b', w'. repeat apply conj; auto.
    rewrite (isFollowing_quiet s U F w' Hs Hf'). now rewrite Hl.
Qed.

Lemma follow_button_tracks_store_example :
  exists st0 b0 st' b' w',
    FollowStatus.checkFollowStatus Scenario.bob "user_alice"
      (FollowButton.mkState false true false) (mkBrowser [] 0 [])
      Scenario.followed = (st0, b0, Scenario.followed) /\
    FollowButton.isUserFollowing st0 = true /\
    FollowButton.handleFollowToggle Scenario.bob "user_alice" st0 b0
      Scenario.followed = (st', b', w') /\
    FollowButton.isUserFollowing st' = false /\
    follows (db w') = [].
Proof.
  destruct (follow_button_tracks_store Scenario.bob "user_bob" "user_alice"
              (FollowButton.mkState true false false)
              (mkBrowser [] 0 ["isFollowing"])
              Scenario.followed eq_refl eq_refl) as (_ & Hclick).
  destruct (Hclick reachable_followed eq_refl)
    as (st' & b' & w' & E & _).
  exists (FollowButton.mkState true false false),
         (mkBrowser [] 0 ["isFollowing"]), st', b', w'.
  vm_compute in E. injection E as <- <- <-. repeat split.
Defined.

(* ================================================================== *)
(** ** The post form *)
(* ================================================================== *)

(** The post form.  A blank text, or one longer than 280 code units, is
    refused in the browser: the error is set and no request is sent.
    Otherwise exactly one [createPost] request is sent and the form stops
    loading; either a Post row with the trimmed text was added, and then
    the form is cleared and the page refreshed, or no Post row was added,
    and then the text is kept and the error shown.  For a signed-in user
    on a store that answers the first is the case. *)
Theorem create_post_form (s : Session) (st : CreatePost.State) (b : Browser)
        (w : World) :
  let text := CreatePost.content st in
  let out := CreatePost.handleSubmit s st b w in
  let st' := fst (fst out) in
  let b' := snd (fst out) in
  let w' := snd out in
  (Js.truthy (Js.trim text) = false \/ (280 < Js.length text)%Z ->
   CreatePost.error st' <> None /\ CreatePost.content st' = text /\
   CreatePost.charCount st' = CreatePost.charCount st /\
   CreatePost.isLoading st' = CreatePost.isLoading st /\
   b' = b /\ w' = w) /\
  (Js.truthy (Js.trim text) = true -> (Js.length text <= 280)%Z ->
   requests b' = (requests b ++ ["createPost"])%list /\
   CreatePost.isLoading st' = false /\
   ((exists U id t,
       signedIn s = Some U /\
       posts (db w')
       = (posts (db w) ++ [mkPost id (Js.trim text) None U t])%list /\
       CreatePost.content st' = [] /\ CreatePost.charCount st' = 0%Z /\
       CreatePost.error st' = None /\ refreshes b' = S (refreshes b)) \/
    (posts (db w') = posts (db w) /\
     CreatePost.content st' = text /\
     CreatePost.charCount st' = CreatePost.charCount st /\
     CreatePost.error st' <> None /\ refreshes b' = refreshes b)) /\
   (signedIn s <> None -> currentUser s <> None -> faults w = [] ->
    CreatePost.content st' = [] /\ CreatePost.error st' = None)).
Proof.
  cbv zeta. split.
  - intros Hbad. unfold CreatePost.handleSubmit.
    destruct (Js.truthy (Js.trim (CreatePost.content st))) eqn:Et; simpl.
    + destruct Hbad as [Hbad | Hlong]; [discriminate|].
      apply Z.ltb_lt in Hlong. rewrite Hlong. simpl.
      repeat split. discriminate.
    + repeat split. discriminate.
  - intros Het Hlen. unfold CreatePost.handleSubmit. rewrite Het.
    apply Z.ltb_ge in Hlen. rewrite Hlen. unfold await.
    cbn [negb]. destruct w as [d fs rs cs rv].
    unfold_actions. unfold Prisma.post_create.
    destruct (signedIn s) as [U|] eqn:Es; reduce_run.
    + destruct (currentUser s) as [cu|] eqn:Ec; reduce_run.
      * rewrite Het, Hlen. reduce_run. cbn [negb].
        destruct fs as [|[e|] fs]; reduce_run;
          cbn [CreatePost.content CreatePost.isLoading CreatePost.error
               CreatePost.charCount requests refreshes routerRefresh db
               posts Prisma.tickId Prisma.set_posts];
          (repeat apply conj; try reflexivity;
           [ first [ left; exists U; eexists _, _;
                     repeat apply conj; reflexivity
                   | right; repeat apply conj; try reflexivity; discriminate ]
           | intros _ _ Hq; first [discriminate Hq | split; reflexivity] ]).
      * cbn [CreatePost.content CreatePost.isLoading CreatePost.error
             CreatePost.charCount requests refreshes db posts].
        repeat apply conj; try reflexivity.
        -- right. repeat apply conj; try reflexivity. discriminate.
        -- intros _ Hc. now elim Hc.
    + cbn [CreatePost.content CreatePost.isLoading CreatePost.error
           CreatePost.charCount requests refreshes db posts].
      repeat apply conj; try reflexivity.
      * right. repeat apply conj; try reflexivity. discriminate.
      * intros Hc. now elim Hc.
Qed.

Lemma create_post_form_example :
  let out :=
    CreatePost.handleSubmit Scenario.alice
      (CreatePost.mkState (Js.lit " hi ") false None 4) (mkBrowser [] 0 [])
      (quiet Scenario.twoUsers) in
  CreatePost.content (fst (fst out)) = [] /\
  CreatePost.error (fst (fst out)) = None /\
  map post_content (posts (db (snd out))) = [Js.lit "hi"].
Proof.
  destruct (create_post_form Scenario.alice
              (CreatePost.mkState (Js.lit " hi ") false None 4)
              (mkBrowser [] 0 []) (quiet Scenario.twoUsers))
    as (_ & H).
  assert (Ht : Js.truthy (Js.trim (Js.lit " hi ")) = true) by reflexivity.
  assert (Hl : (Js.length (Js.lit " hi ") <= 280)%Z)
    by (vm_compute; discriminate).
  destruct (H Ht Hl) as (_ & _ & _ & Hok).
  assert (H1 : signedIn Scenario.alice <> None) by discriminate.
  assert (H2 : currentUser Scenario.alice <> None) by discriminate.
  destruct (Hok H1 H2 eq_refl) as (Hc & He).
  cbv zeta. split; [exact Hc | split; [exact He | reflexivity]].
Defined.

(* ================================================================== *)
(** ** Deleting from the lists *)
(* ================================================================== *)

(** Deleting a post from the feed.  When the card is not the author's, or
    the confirmation is declined, nothing is sent and nothing changes.
    Otherwise one [deletePost] request is sent, and either the caller's
    own post was deleted from the store, and then the cards with that id
    leave the list and the page is refreshed, or the store is as before,
    and then the list is as before and the error is logged only. *)
Theorem delete_in_feed (isAuthor confirmDelete : bool) (s : Session)
        (P : string) (feed : Feed.State) (b : Browser) (w : World) :
  let out := PostCard.deleteInFeed isAuthor confirmDelete s P feed b w in
  let feed' := fst (fst out) in
  let b' := snd (fst out) in
  let w' := snd out in
  (isAuthor = false \/ confirmDelete = false ->
   feed' = feed /\ w' = w /\ requests b' = requests b /\
   refreshes b' = refreshes b) /\
  (isAuthor = true -> confirmDelete = true ->
   requests b' = (requests b ++ ["deletePost"])%list /\
   ((exists U post,
       signedIn s = Some U /\
       find (fun p => post_id p =? P) (posts (db w)) = Some post /\
       author_clerkId post = U /\
       S (List.length (posts (db w'))) = List.length (posts (db w)) /\
       Feed.posts feed'
       = filter (fun p => negb (Feed.fp_id p =? P)) (Feed.posts feed) /\
       Forall (fun p => Feed.fp_id p <> P) (Feed.posts feed') /\
       refreshes b' = S (refreshes b) /\
       browser_console b' = browser_console b) \/
    (db w' = db w /\ feed' = feed /\ refreshes b' = refreshes b /\
     List.length (browser_console b') = S (List.length (browser_console b))))).
Proof.
  cbv zeta. split.
  - intros [-> | ->]; unfold PostCard.deleteInFeed, PostCard.handleDelete;
      [|destruct isAuthor]; simpl; repeat split.
  - intros -> ->. unfold PostCard.deleteInFeed, PostCard.handleDelete, await.
    cbn [negb].
    assert (Hgone : Forall (fun p => Feed.fp_id p <> P)
                      (filter (fun p => negb (Feed.fp_id p =? P))
                              (Feed.posts feed))).
    { apply Forall_forall. intros p Hp. apply filter_In in Hp.
      destruct Hp as [_ Hp]. apply negb_true_iff in Hp.
      now apply String.eqb_neq. }
    run_all w;
      cbn [requests refreshes browser_console routerRefresh logError
           Feed.handlePostDelete Feed.posts];
      (split; [reflexivity|]);
      first [ right; repeat apply conj; try reflexivity;
              rewrite length_app; simpl; lia
            | left; eexists _, _; repeat apply conj;
              try reflexivity; try eassumption;
              [ now apply String.eqb_eq
              | reduce_run; eapply removeFirst_length; eassumption ] ].
Qed.

Lemma delete_in_feed_example :
  let out :=
    PostCard.deleteInFeed true true Scenario.alice "c0"
      (Feed.mkState
         [Feed.mkFeedPost
            (Prisma.withCounts (db Scenario.posted)
               (mkPost "c0" (Js.lit "hello") None "user_alice" 0)) "t0"]
         1 false None false)
      (mkBrowser [] 0 []) Scenario.posted in
  Feed.posts (fst (fst out)) = [] /\ posts (db (snd out)) = [] /\
  requests (snd (fst out)) = ["deletePost"].
Proof.
  destruct (delete_in_feed true true Scenario.alice "c0"
      (Feed.mkState
         [Feed.mkFeedPost
            (Prisma.withCounts (db Scenario.posted)
               (mkPost "c0" (Js.lit "hello") None "user_alice" 0)) "t0"]
         1 false None false)
      (mkBrowser [] 0 []) Scenario.posted) as (_ & H).
  destruct (H eq_refl eq_refl) as (Hreq & _).
  cbv zeta. split; [reflexivity | split; [reflexivity | exact Hreq]].
Defined.

(** Deleting a comment from the list under a post.  When the
    confirmation is declined nothing is sent and nothing changes.
    Otherwise one [deleteComment] request is sent and no comment is marked
    as being deleted afterwards; either the caller's own comment was
    deleted from the store, and then the comments with that id leave the
    list and the page is refreshed, or the store is as before, and then
    the list is as before and the error is logged only. *)
Theorem delete_comment_in_list (confirmDelete : bool) (s : Session)
        (C : string) (st : CommentsSection.State) (b : Browser) (w : World) :
  let out := CommentDeletion.handleDeleteComment confirmDelete s C st b w in
  let st' := fst (fst out) in
  let b' := snd (fst out) in
  let w' := snd out in
  (confirmDelete = false -> out = (st, b, w)) /\
  (confirmDelete = true ->
   requests b' = (requests b ++ ["deleteComment"])%list /\
   CommentsSection.deletingCommentId st' = None /\
   CommentsSection.commentText st' = CommentsSection.commentText st /\
   CommentsSection.error st' = CommentsSection.error st /\
   ((exists U c,
       signedIn s = Some U /\
       find (fun x => comment_id x =? C) (comments (db w)) = Some c /\
       comment_authorId c = U /\
       S (List.length (comments (db w'))) = List.length (comments (db w)) /\
       CommentsSection.comments st'
       = filter (fun x => negb (CommentsSection.id x =? C))
                (CommentsSection.comments st) /\
       refreshes b' = S (refreshes b) /\
       browser_console b' = browser_console b) \/
    (db w' = db w /\
     CommentsSection.comments st' = CommentsSection.comments st /\
     refreshes b' = refreshes b /\
     List.length (browser_console b') = S (List.length (browser_console b))))).
Proof.
  cbv zeta. split.
  - intros ->. reflexivity.
  - intros ->. unfold CommentDeletion.handleDeleteComment, await.
    cbn [negb].
    run_all w;
      cbn [requests refreshes browser_console routerRefresh logError
           CommentsSection.setComments CommentsSection.comments
           CommentsSection.commentText CommentsSection.error
           CommentsSection.deletingCommentId];
      (repeat (split; [reflexivity|]));
      first [ right; repeat apply conj; try reflexivity;
              rewrite length_app; simpl; lia
            | left; eexists _, _; repeat apply conj;
              try reflexivity; try eassumption;
              [ now apply String.eqb_eq
              | reduce_run; eapply removeFirst_length; eassumption ] ].
Qed.

Lemma delete_comment_in_list_example :
  let out :=
    CommentDeletion.handleDeleteComment true Scenario.bob "c1"
      (CommentsSection.mkState
         [CommentsSection.mkCommentView "c1" (Js.lit "nice") "t1" None]
         [] false None None)
      (mkBrowser [] 0 []) Network.commented in
  CommentsSection.comments (fst (fst out)) = [] /\
  comments (db (snd out)) = [] /\
  requests (snd (fst out)) = ["deleteComment"].
Proof.
  destruct (delete_comment_in_list true Scenario.bob "c1"
      (CommentsSection.mkState
         [CommentsSection.mkCommentView "c1" (Js.lit "nice") "t1" None]
         [] false None None)
      (mkBrowser [] 0 []) Network.commented) as (_ & H).
  destruct (H eq_refl) as (Hreq & _).
  cbv zeta. split; [reflexivity | split; [reflexivity | exact Hreq]].
Defined.

(* ================================================================== *)
(** ** The notifications list *)
(* ================================================================== *)

Lemma getUserNotifications_quiet (s : Session) (U : string)
      (unreadOnly : bool) (w : World) :
  signedIn s = Some U -> faults w = [] ->
  ReadAction.getUserNotifications s unreadOnly w
  = (Return (map (Query.notificationView (db w))
                 (Query.sortDescBy notif_createdAt
                    (filter (Query.wanted U unreadOnly)
                            (notifications (db w))))), w).
Proof.
  intros Hs Hf. quiet_run w Hf. rewrite Hs. reflexivity.
Qed.

Lemma unread_items_marked (l : list NotificationsList.Item) :
  filter (fun n => negb (NotificationsList.item_read n))
         (map NotificationsList.markItem l) = [].
Proof. induction l as [|i l IH]; simpl; [reflexivity | exact IH]. Qed.

(** "Mark all as read" in the notifications list.  For a signed-in user
    on a store that answers, one request is sent, every listed item
    becomes read (the same items, in the same order), no unread
    notification of the user is left in the store, the bell's count is
    0, and the notifications page, which lists the unread ones, loads
    empty afterwards.  Whatever the store does, the list is either
    marked read throughout or left as it was with the store. *)
Theorem mark_all_then_reload (toISOString : N -> string) (s : Session)
        (U : string) (cu : ClerkUser) (st : NotificationsList.State)
        (b : Browser) (w : World) :
  signedIn s = Some U -> currentUser s = Some cu ->
  let out := NotificationsList.handleMarkAllAsRead s st b w in
  let st' := fst (fst out) in
  let b' := snd (fst out) in
  let w' := snd out in
  NotificationsList.isMarkingAll st' = false /\
  requests b' = (requests b ++ ["markAllNotificationsAsRead"])%list /\
  (NotificationsList.notifications st'
   = map NotificationsList.markItem (NotificationsList.notifications st) \/
   (NotificationsList.notifications st' = NotificationsList.notifications st /\
    db w' = db w /\ refreshes b' = refreshes b)) /\
  (faults w = [] ->
   NotificationsList.unreadCount st' = 0 /\
   map NotificationsList.item_id (NotificationsList.notifications st')
   = map NotificationsList.item_id (NotificationsList.notifications st) /\
   refreshes b' = S (refreshes b) /\
   result (NotificationAction.getUnreadNotificationCount s) w' = Return 0%Z /\
   fst (fst (NotificationsList.page toISOString s b' w'))
   = NotificationsList.Loaded []).
Proof.
  intros Hs Hc. cbv zeta.
  unfold NotificationsList.handleMarkAllAsRead, await.
  cbn [NotificationsList.notifications NotificationsList.isMarkingAll
       NotificationsList.deletingId].
  repeat apply conj.
  - destruct (NotificationAction.markAllNotificationsAsRead s w)
      as [[r|e] w1]; reflexivity.
  - destruct (NotificationAction.markAllNotificationsAsRead s w)
      as [[r|e] w1]; reflexivity.
  - destruct w as [d fs rs cs rv]. unfold_actions. unfold_store.
    rewrite Hs. reduce_run.
    destruct fs as [|[e|] fs]; reduce_run;
      cbn [NotificationsList.notifications refreshes logError];
      first [left; reflexivity | right; repeat split].
  - intros Hf. rewrite (markAll_quiet s U w Hs Hf).
    cbn [fst snd NotificationsList.notifications refreshes routerRefresh].
    set (w' := mkWorld _ _ _ _ _).
    assert (Hf' : faults w' = []) by reflexivity.
    repeat apply conj.
    + unfold NotificationsList.unreadCount.
      cbn [NotificationsList.notifications].
      now rewrite unread_items_marked.
    + rewrite map_map. reflexivity.
    + reflexivity.
    + rewrite (unreadCount_quiet s U w' Hs Hf'). unfold w'.
      cbn [db notifications Prisma.set_notifications].
      now rewrite unread_after_markMine.
    + unfold NotificationsList.page, await. rewrite Hc.
      rewrite (getUserNotifications_quiet s U true w' Hs Hf'). unfold w'.
      cbn [db notifications Prisma.set_notifications fst].
      change (filter (Query.wanted U true)) with (filter (Prisma.unreadOf U)).
      now rewrite unread_after_markMine.
Qed.

Lemma mark_all_then_reload_example :
  let st :=
    NotificationsList.mkState
      (map (NotificationsList.ofView (fun _ => "t"))
           (map (Query.notificationView (db Scenario.liked))
                (notifications (db Scenario.liked))))
      false None in
  let out :=
    NotificationsList.handleMarkAllAsRead Scenario.alice st
      (mkBrowser [] 0 []) Scenario.liked in
  NotificationsList.unreadCount st = 1 /\
  NotificationsList.unreadCount (fst (fst out)) = 0 /\
  fst (fst (NotificationsList.page (fun _ => "t") Scenario.alice
              (snd (fst out)) (snd out)))
  = NotificationsList.Loaded [].
Proof.
  cbv zeta.
  destruct (mark_all_then_reload (fun _ => "t") Scenario.alice "user_alice"
              (mkClerkUser "user_alice" None (Some "user_alice") "user_alice"
                           "/avatar.png")
              (NotificationsList.mkState
                 (map (NotificationsList.ofView (fun _ => "t"))
                      (map (Query.notificationView (db Scenario.liked))
                           (notifications (db Scenario.liked))))
                 false None)
              (mkBrowser [] 0 []) Scenario.liked eq_refl eq_refl)
    as (_ & _ & _ & H).
  destruct (H eq_refl) as (H0 & _ & _ & _ & Hp).
  split; [reflexivity | split; [exact H0 | exact Hp]].
Defined.

Lemma unread_items_after_mark (id : string) (l : list NotificationsList.Item) :
  List.length
    (filter (fun n => negb (NotificationsList.item_read n))
            (map (fun n => if NotificationsList.item_id n =? id
                           then NotificationsList.markItem n else n) l))
  <= List.length (filter (fun n => negb (NotificationsList.item_read n)) l).
Proof.
  induction l as [|i l IH]; simpl; [lia|].
  destruct (NotificationsList.item_id i =? id); simpl;
    destruct (NotificationsList.item_read i); simpl; lia.
Qed.

Lemma length_updateFirst {A} (f : A -> bool) (g : A -> A) (l : list A) :
  List.length (Prisma.updateFirst f g l) = List.length l.
Proof.
  induction l as [|x l IH]; simpl; [reflexivity|].
  destruct (f x); simpl; congruence.
Qed.

(** Marking or deleting one notification from the list.  One request is
    sent.  Either the notification is the caller's own and the store took
    the change, and then the items with that id are shown read (or leave
    the list), the unread count does not grow and the page is refreshed;
    or the store is as before, and then the list is as before and the
    error is logged only.  After a deletion no item is marked as being
    deleted. *)
Theorem notification_item_actions (s : Session) (id : string)
        (st : NotificationsList.State) (b : Browser) (w : World) :
  let mine :=
    exists U n,
      signedIn s = Some U /\
      find (fun x => notif_id x =? id) (notifications (db w)) = Some n /\
      notif_userId n = U in
  (let out := NotificationsList.handleMarkAsRead s id st b w in
   let st' := fst (fst out) in
   let b' := snd (fst out) in
   let w' := snd out in
   requests b' = (requests b ++ ["markNotificationAsRead"])%list /\
   NotificationsList.unreadCount st' <= NotificationsList.unreadCount st /\
   ((mine /\
     NotificationsList.notifications st'
     = map (fun n => if NotificationsList.item_id n =? id
                     then NotificationsList.markItem n else n)
           (NotificationsList.notifications st) /\
     List.length (notifications (db w')) = List.length (notifications (db w)) /\
     refreshes b' = S (refreshes b)) \/
    (st' = st /\ db w' = db w /\ refreshes b' = refreshes b /\
     List.length (browser_console b')
     = S (List.length (browser_console b))))) /\
  (let out := NotificationsList.handleDeleteNotification s id st b w in
   let st' := fst (fst out) in
   let b' := snd (fst out) in
   let w' := snd out in
   requests b' = (requests b ++ ["deleteNotification"])%list /\
   NotificationsList.deletingId st' = None /\
   ((mine /\
     NotificationsList.notifications st'
     = filter (fun n => negb (NotificationsList.item_id n =? id))
              (NotificationsList.notifications st) /\
     S (List.length (notifications (db w')))
     = List.length (notifications (db w)) /\
     refreshes b' = S (refreshes b)) \/
    (NotificationsList.notifications st' = NotificationsList.notifications st /\
     db w' = db w /\ refreshes b' = refreshes b /\
     List.length (browser_console b')
     = S (List.length (browser_console b))))).
Proof.
  cbv zeta. split.
  - unfold NotificationsList.handleMarkAsRead, await.
    pose proof (unread_items_after_mark id
                  (NotificationsList.notifications st)) as Hle.
    run_all w;
      cbn [requests refreshes browser_console routerRefresh logError
           NotificationsList.notifications NotificationsList.unreadCount];
      (split; [reflexivity|]); (split; [first [exact Hle | lia]|]);
      first [ right; repeat apply conj; try reflexivity;
              rewrite length_app; simpl; lia
            | left; repeat apply conj; try reflexivity;
              [ eexists _, _; repeat apply conj;
                try reflexivity; try eassumption; now apply String.eqb_eq
              | reduce_run; apply length_updateFirst ] ].
  - unfold NotificationsList.handleDeleteNotification, await.
    run_all w;
      cbn [requests refreshes browser_console routerRefresh logError
           NotificationsList.notifications NotificationsList.deletingId
           NotificationsList.isMarkingAll];
      (split; [reflexivity|]); (split; [reflexivity|]);
      first [ right; repeat apply conj; try reflexivity;
              rewrite length_app; simpl; lia
            | left; repeat apply conj; try reflexivity;
              [ eexists _, _; repeat apply conj;
                try reflexivity; try eassumption; now apply String.eqb_eq
              | reduce_run; eapply removeFirst_length; eassumption ] ].
Qed.

Lemma notification_item_actions_example :
  let st :=
    NotificationsList.mkState
      (map (NotificationsList.ofView (fun _ => "t"))
           (map (Query.notificationView (db Scenario.liked))
                (notifications (db Scenario.liked))))
      false None in
  let out :=
    NotificationsList.handleDeleteNotification Scenario.bob "c1" st
      (mkBrowser [] 0 []) Scenario.liked in
  map NotificationsList.item_id (NotificationsList.notifications st) = ["c1"] /\
  fst (fst out) = st /\ db (snd out) = db Scenario.liked /\
  requests (snd (fst out)) = ["deleteNotification"].
Proof.
  cbv zeta.
  destruct (notification_item_actions Scenario.bob "c1"
              (NotificationsList.mkState
                 (map (NotificationsList.ofView (fun _ => "t"))
                      (map (Query.notificationView (db Scenario.liked))
                           (notifications (db Scenario.liked))))
                 false None)
              (mkBrowser [] 0 []) Scenario.liked)
    as (_ & Hreq & _).
  split; [vm_compute; reflexivity|].
  split; [vm_compute; reflexivity|].
  split; [vm_compute; reflexivity | exact Hreq].
Defined.

(* ================================================================== *)
(** ** The heart after a reload *)
(* ================================================================== *)

(** A post card is mounted with an empty heart and the stored like count,
    also when its reader already likes the post.  On a reachable store
    that answers, the first click of such a reader then calls [likePost],
    which answers "already liked" without throwing: the store is not
    touched and nothing is logged, but the heart is filled and the count
    shown is one more than the stored count.  A second click unlikes:
    the Like row is removed, and the count shown is again one more than
    the stored count. *)
Theorem like_button_after_reload (cu : ClerkUser) (s : Session) (U : string)
        (post : Post) (l : Like) (toISOString : N -> string) (b : Browser)
        (w : World) :
  signedIn s = Some U -> faults w = [] -> reachable (db w) ->
  find (Prisma.like_key U (post_id post)) (likes (db w)) = Some l ->
  let card := Feed.serialize toISOString (Prisma.withCounts (db w) post) in
  let stored d := count_likes (Prisma.withCounts d post) in
  exists st1 b1 st2 b2 w2,
    PostWidget.handleLike (Some cu) s (post_id post) (PostMount.inFeed card)
                          b w = (st1, b1, w) /\
    PostWidget.isLiked st1 = true /\
    PostWidget.likeCount st1 = (stored (db w) + 1)%Z /\
    browser_console b1 = browser_console b /\
    requests b1 = (requests b ++ ["likePost"])%list /\
    PostWidget.handleLike (Some cu) s (post_id post) st1 b1 w
    = (st2, b2, w2) /\
    PostWidget.isLiked st2 = false /\
    find (Prisma.like_key U (post_id post)) (likes (db w2)) = None /\
    (stored (db w2) + 1 = stored (db w))%Z /\
    PostWidget.likeCount st2 = (stored (db w2) + 1)%Z /\
    browser_console b2 = browser_console b /\
    requests b2 = (requests b ++ ["likePost"; "unlikePost"])%list.
Proof.
  intros Hs Hf Hreach El. cbv zeta.
  pose proof (reachable_wellFormed Hreach) as Hw.
  pose proof (wf_like_unique Hw U (post_id post)) as Hu.
  destruct (wf_like_post Hw l) as (p & Hp & Hid).
  { eapply find_some. exact El. }
  assert (Hkey : like_userId l = U /\ like_postId l = post_id post).
  { apply like_key_spec. eapply find_some. exact El. }
  assert (Epost : find (fun x => post_id x =? post_id post) (posts (db w))
                  <> None).
  { apply find_is_some. exists p. split; [exact Hp|].
    apply String.eqb_eq. destruct Hkey as [_ <-]. exact Hid. }
  destruct (find (fun x => post_id x =? post_id post) (posts (db w)))
    as [p'|] eqn:Ep; [clear Epost | now elim Epost].
  destruct w as [d fs rs cs rv]. cbn [db faults] in *. subst fs.
  unfold PostMount.inFeed, PostMount.mount, Feed.serialize.
  cbn [Feed.fp_post].
  eexists _, _, _, _, _. split.
  { unfold PostWidget.handleLike, await. cbn [PostWidget.isLiked].
    unfold_actions. unfold_store. rewrite Hs. reduce_run. rewrite Ep.
    reduce_run. rewrite El. reduce_run. reflexivity. }
  cbn [PostWidget.isLiked PostWidget.likeCount browser_console requests
       routerRefresh negb].
  do 4 (split; [reflexivity|]). split.
  { unfold PostWidget.handleLike, await. cbn [PostWidget.isLiked].
    unfold_actions. unfold_store. rewrite Hs. reduce_run. rewrite El.
    reduce_run. reflexivity. }
  cbn [PostWidget.isLiked PostWidget.likeCount browser_console requests
       routerRefresh negb db likes Prisma.set_likes].
  assert (Hcount :
            (count_likes
               (Prisma.withCounts
                  (Prisma.set_likes d
                     (Prisma.removeFirst (Prisma.like_key U (post_id post))
                                         (likes d))) post) + 1
             = count_likes (Prisma.withCounts d post))%Z).
  { unfold Prisma.withCounts. cbn [count_likes likes Prisma.set_likes].
    rewrite <- (filter_removeFirst_found
                  (Prisma.like_key U (post_id post))
                  (fun x => like_postId x =? post_id post) (likes d) l El).
    - lia.
    - intros y Hy. apply like_key_spec in Hy. destruct Hy as [_ ->].
      apply String.eqb_refl. }
  repeat apply conj.
  - reflexivity.
  - now apply find_removeFirst_unique.
  - exact Hcount.
  - rewrite <- Hcount. lia.
  - reflexivity.
  - rewrite <- app_assoc. reflexivity.
Qed.

Lemma like_button_after_reload_example :
  exists st1 b1 st2 b2 w2,
    PostWidget.handleLike (currentUser Scenario.bob) Scenario.bob "c0"
      (PostWidget.mkState false 1 false) (mkBrowser [] 0 []) Scenario.liked
    = (st1, b1, Scenario.liked) /\
    PostWidget.likeCount st1 = 2%Z /\
    PostWidget.handleLike (currentUser Scenario.bob) Scenario.bob "c0"
      st1 b1 Scenario.liked = (st2, b2, w2) /\
    PostWidget.likeCount st2 = 1%Z /\ likes (db w2) = [].
Proof.
  destruct (like_button_after_reload
              (mkClerkUser "user_bob" None (Some "user_bob") "user_bob"
                           "/avatar.png")
              Scenario.bob "user_bob"
              (mkPost "c0" [] None "user_alice" 0%N)
              (mkLike "user_bob" "c0" 1%N) (fun _ => "t")
              (mkBrowser [] 0 []) Scenario.liked
              eq_refl eq_refl reachable_liked)
    as (st1 & b1 & st2 & b2 & w2 & E1 & _ & _ & _ & _ & E2 & _);
    [vm_compute; reflexivity|].
  exists st1, b1, st2, b2, w2.
  pose proof E1 as E1'. vm_compute in E1'. injection E1' as <- <-.
  pose proof E2 as E2'. vm_compute in E2'. injection E2' as <- <- <-.
  split; [exact E1|]. split; [reflexivity|]. split; [exact E2|].
  split; vm_compute; reflexivity.
Defined.

(* ================================================================== *)
(** ** The comment form *)
(* ================================================================== *)

Lemma map_confirm_absent (tmp : string) (c : CommentsSection.CommentView)
      (l : list CommentsSection.CommentView) :
  Forall (fun x => CommentsSection.id x <> tmp) l ->
  map (fun x => if CommentsSection.id x =? tmp then c else x) l = l.
Proof.
  induction 1 as [|x l Hx _ IH]; simpl; [reflexivity|].
  apply String.eqb_neq in Hx. rewrite Hx, IH. reflexivity.
Qed.

(** The comment form.  Without a user, or with a blank text, the error is
    set and no request is sent.  For a signed-in user with a non-blank
    text, on a store that answers and holds the post, one [createComment]
    request is sent; the store gains one Comment row with the trimmed
    text, by the caller, on that post; the list shows that row (its
    stored id and trimmed text) first in place of the optimistic one,
    followed by the comments listed before, provided none of them carries
    the temporary id; the text box is cleared, no error is shown and the
    page is refreshed. *)
Theorem comment_form (user : option ClerkUser) (s : Session) (U P : string)
        (post : Post) (now : N) (toISOString : N -> string)
        (st : CommentsSection.State) (b : Browser) (w : World) :
  let text := CommentsSection.commentText st in
  let out :=
    CommentsSection.handleSubmitComment user s P now toISOString st b w in
  let st' := fst (fst out) in
  let b' := snd (fst out) in
  let w' := snd out in
  (user = None \/ Js.truthy (Js.trim text) = false ->
   CommentsSection.error st' <> None /\
   CommentsSection.comments st' = CommentsSection.comments st /\
   CommentsSection.commentText st' = text /\ b' = b /\ w' = w) /\
  (user <> None -> Js.truthy (Js.trim text) = true ->
   signedIn s = Some U -> faults w = [] ->
   find (fun p => post_id p =? P) (posts (db w)) = Some post ->
   Forall (fun c => CommentsSection.id c
                    <> "temp-" ++ NilEmpty.string_of_uint (N.to_uint now))
          (CommentsSection.comments st) ->
   exists row,
     comments (db w') = (comments (db w) ++ [row])%list /\
     comment_content row = Js.trim text /\
     comment_authorId row = U /\ comment_postId row = P /\
     CommentsSection.comments st'
     = CommentsSection.confirmed toISOString
         (mkCommentWithAuthor row
            (find (fun u => clerkId u =? U) (users (db w))))
       :: CommentsSection.comments st /\
     CommentsSection.commentText st' = [] /\
     CommentsSection.error st' = None /\
     CommentsSection.isSubmitting st' = false /\
     requests b' = (requests b ++ ["createComment"])%list /\
     refreshes b' = S (refreshes b)).
Proof.
  cbv zeta. split.
  - intros [-> | Hblank]; unfold CommentsSection.handleSubmitComment.
    + simpl. repeat split. discriminate.
    + destruct user as [cu|]; [rewrite Hblank|]; simpl; repeat split;
        discriminate.
  - intros Huser Htext Hs Hf Hpost Htmp.
    destruct user as [cu|]; [clear Huser | now elim Huser].
    destruct w as [d fs rs cs rv]. cbn [db faults] in *. subst fs.
    unfold CommentsSection.handleSubmitComment, await. rewrite Htext.
    cbn [negb]. unfold_actions. unfold Prisma.comment_create.
    unfold_store. rewrite Hs. reduce_run. rewrite Htext. reduce_run.
    cbn [negb]. rewrite Hpost. reduce_run.
    eexists.
    destruct (author_clerkId post =? U); reduce_run;
      cbn [CommentsSection.setIsSubmitting CommentsSection.setComments
           CommentsSection.setCommentText CommentsSection.setError
           CommentsSection.comments CommentsSection.commentText
           CommentsSection.error CommentsSection.isSubmitting
           CommentsSection.id requests refreshes routerRefresh map];
      rewrite String.eqb_refl, (map_confirm_absent _ _ _ Htmp);
      repeat apply conj; reflexivity.
Qed.

Lemma comment_form_example :
  let out :=
    CommentsSection.handleSubmitComment (currentUser Scenario.bob)
      Scenario.bob "c0" 7 (fun _ => "t")
      (CommentsSection.mkState [] (Js.lit " nice ") false None None)
      (mkBrowser [] 0 []) Scenario.posted in
  map CommentsSection.content (CommentsSection.comments (fst (fst out)))
  = [Js.lit "nice"] /\
  map comment_content (comments (db (snd out))) = [Js.lit "nice"].
Proof.
  destruct (comment_form (currentUser Scenario.bob) Scenario.bob "user_bob"
              "c0" (mkPost "c0" (Js.lit "hello") None "user_alice" 0) 7
              (fun _ => "t")
              (CommentsSection.mkState [] (Js.lit " nice ") false None None)
              (mkBrowser [] 0 []) Scenario.posted) as (_ & H).
  assert (H1 : currentUser Scenario.bob <> None) by discriminate.
  destruct (H H1 eq_refl eq_refl eq_refl eq_refl (Forall_nil _))
    as (row & Hrows & Hcontent & _ & _ & Hlist & _).
  cbv zeta. rewrite Hlist, Hrows. simpl. rewrite Hcontent.
  split; reflexivity.
Defined.

(* ================================================================== *)
(** ** Profile and post pages *)
(* ================================================================== *)

(** [getUserPosts], on a store that answers, fails with "User not found"
    when no user has the given Clerk id or username; otherwise it takes
    the first such user and returns exactly the posts whose [authorId] is
    that user's [id], newest first, each with its author and counts, and
    leaves the store as it was. *)
Theorem getUserPosts_lists (key : string) (w : World) :
  faults w = [] ->
  let found :=
    find (fun u => (clerkId u =? key) || (username u =? key))
         (users (db w)) in
  (found = None ->
   result (ReadAction.getUserPosts key) w
   = Throw "Failed to fetch user posts: User not found" /\
   db (run (ReadAction.getUserPosts key) w) = db w) /\
  (forall u, found = Some u ->
     exists views,
       ReadAction.getUserPosts key w = (Return views, w) /\
       (forall p, In p (map view_post views) <->
                  In p (posts (db w)) /\ post_authorId p = user_id u) /\
       StronglySorted (descBy post_createdAt) (map view_post views) /\
       Forall (fun v => v = Prisma.withCounts (db w) (view_post v)) views).
Proof.
  intros Hf. cbv zeta. split.
  - intros Hnone. quiet_run w Hf. rewrite Hnone. split; reflexivity.
  - intros u Hsome. eexists. split; [|split; [|split]].
    + quiet_run w Hf. rewrite Hsome. reflexivity.
    + intros p. rewrite view_post_withCounts, sortDescBy_In, filter_In.
      rewrite String.eqb_eq. tauto.
    + rewrite view_post_withCounts. apply sortDescBy_sorted.
    + apply Forall_map. apply Forall_forall. reflexivity.
Qed.

Lemma getUserPosts_lists_example :
  result (ReadAction.getUserPosts "nobody") Scenario.posted
  = Throw "Failed to fetch user posts: User not found" /\
  db (run (ReadAction.getUserPosts "nobody") Scenario.posted)
  = db Scenario.posted.
Proof.
  destruct (getUserPosts_lists "nobody" Scenario.posted eq_refl) as (H & _).
  apply H. reflexivity.
Defined.

Lemma map_cwa_comment_commentsOf (d : DB) (P : string) :
  map cwa_comment (Query.commentsOf d P)
  = Query.sortDescBy comment_createdAt
      (filter (fun c => comment_postId c =? P) (comments d)).
Proof.
  unfold Query.commentsOf. rewrite map_map. simpl. apply map_id.
Qed.

(** The views of one post agree.  On a store that answers,
    [getPostDetail] fails with "Post not found" for an unknown id;
    for a known one it returns the post with its author and counts, the
    comments [getPostComments] returns (exactly the post's comments,
    newest first) and one [userId] per like of the post, as many as
    [getPostLikes] returns rows; the two counts are the lengths of these
    lists, and are the counts the feed shows for the post.  Nothing is
    written. *)
Theorem post_views_agree (P : string) (w : World) :
  faults w = [] ->
  let found := find (fun p => post_id p =? P) (posts (db w)) in
  (found = None ->
   result (ReadAction.getPostDetail P) w
   = Throw "Failed to fetch post: Post not found") /\
  (forall post, found = Some post ->
     exists detail listed likers,
       ReadAction.getPostDetail P w = (Return detail, w) /\
       ReadAction.getPostComments P w = (Return listed, w) /\
       ReadAction.getPostLikes P w = (Return likers, w) /\
       Query.detail_post detail = Prisma.withCounts (db w) post /\
       Query.detail_comments detail = listed /\
       (forall c, In c (map cwa_comment listed) <->
                  In c (comments (db w)) /\ comment_postId c = P) /\
       StronglySorted (descBy comment_createdAt) (map cwa_comment listed) /\
       (forall u, In u (Query.detail_likes detail) <->
                  exists l, In l (likes (db w)) /\
                            like_postId l = P /\ like_userId l = u) /\
       count_comments (Query.detail_post detail)
       = Z.of_nat (List.length listed) /\
       count_likes (Query.detail_post detail)
       = Z.of_nat (List.length (Query.detail_likes detail)) /\
       List.length likers = List.length (Query.detail_likes detail)).
Proof.
  intros Hf. cbv zeta. split.
  - intros Hnone. quiet_run w Hf. rewrite Hnone. reflexivity.
  - intros post Hsome.
    assert (Hid : post_id post = P).
    { apply find_some in Hsome. now apply String.eqb_eq. }
    destruct w as [d fs rs cs rv]. cbn [db faults] in *. subst fs.
    eexists _, _, _. split; [|split; [|split]].
    + unfold_queries. unfold_actions. reduce_run. rewrite Hsome. reflexivity.
    + unfold_queries. unfold_actions. reduce_run. reflexivity.
    + unfold_queries. unfold_actions. reduce_run. reflexivity.
    + cbn [Query.detail_post Query.detail_comments Query.detail_likes].
      rewrite Hid. repeat apply conj.
      * reflexivity.
      * reflexivity.
      * intros c. rewrite map_cwa_comment_commentsOf.
        split.
        -- intros H. apply sortDescBy_In in H. apply filter_In in H.
           destruct H as [H1 H2]. apply String.eqb_eq in H2. auto.
        -- intros [H1 H2]. apply sortDescBy_In. apply filter_In.
           split; [exact H1 | now apply String.eqb_eq].
      * rewrite map_cwa_comment_commentsOf. apply sortDescBy_sorted.
      * intros u. rewrite in_map_iff. split.
        -- intros (l & <- & Hin). apply filter_In in Hin.
           destruct Hin as [Hin E]. apply String.eqb_eq in E. eauto.
        -- intros (l & Hin & Hp & <-). exists l. split; [reflexivity|].
           apply filter_In. split; [exact Hin | now apply String.eqb_eq].
      * unfold Prisma.withCounts, Query.commentsOf.
        cbn [count_comments]. rewrite Hid.
        now rewrite length_map, sortDescBy_length.
      * unfold Prisma.withCounts. cbn [count_likes]. rewrite Hid.
        now rewrite length_map.
      * now rewrite !length_map, sortDescBy_length.
Qed.

Lemma post_views_agree_example :
  exists detail,
    ReadAction.getPostDetail "c0" Network.commented
    = (Return detail, Network.commented) /\
    count_comments (Query.detail_post detail) = 1%Z /\
    map (fun c => comment_content (cwa_comment c))
        (Query.detail_comments detail) = [Js.lit "nice"].
Proof.
  destruct (post_views_agree "c0" Network.commented eq_refl) as (_ & H).
  destruct (H (mkPost "c0" (Js.lit "hello") None "user_alice" 0) eq_refl)
    as (detail & listed & likers & E & _).
  exists detail. split; [exact E|].
  vm_compute in E. injection E as <-. split; reflexivity.
Defined.

(* ================================================================== *)
(** ** Relative times and the bell *)
(* ================================================================== *)

(** The relative time of a timestamp [date] seen at [now], both in
    milliseconds.  Less than a minute ago, or in the future, reads "now";
    otherwise it reads the whole minutes (1 to 59), hours (1 to 23) or
    days (1 or more) elapsed, rounded down; the comments section shows
    the same number without " ago". *)
Theorem formatTime_buckets (now date : Z) :
  let elapsed := (now - date)%Z in
  ((elapsed < 60000)%Z ->
   TimeAgo.formatTime now date = "now" /\
   TimeAgo.formatTimeShort now date = "now") /\
  ((60000 <= elapsed < 3600000)%Z ->
   exists m, (1 <= m <= 59)%Z /\
             (60000 * m <= elapsed < 60000 * (m + 1))%Z /\
             TimeAgo.formatTime now date = showZ m ++ "m ago" /\
             TimeAgo.formatTimeShort now date = showZ m ++ "m") /\
  ((3600000 <= elapsed < 86400000)%Z ->
   exists h, (1 <= h <= 23)%Z /\
             (3600000 * h <= elapsed < 3600000 * (h + 1))%Z /\
             TimeAgo.formatTime now date = showZ h ++ "h ago" /\
             TimeAgo.formatTimeShort now date = showZ h ++ "h") /\
  ((86400000 <= elapsed)%Z ->
   exists d, (1 <= d)%Z /\
             (86400000 * d <= elapsed < 86400000 * (d + 1))%Z /\
             TimeAgo.formatTime now date = showZ d ++ "d ago" /\
             TimeAgo.formatTimeShort now date = showZ d ++ "d").
Proof.
  cbv zeta. unfold TimeAgo.formatTime, TimeAgo.formatTimeShort,
    TimeAgo.seconds.
  set (s := ((now - date) / 1000)%Z).
  assert (Hs : (1000 * s <= now - date < 1000 * (s + 1))%Z).
  { unfold s. Z.div_mod_to_equations. lia. }
  repeat apply conj.
  - intros H. replace (s <? 60)%Z with true
      by (symmetry; apply Z.ltb_lt; lia). split; reflexivity.
  - intros H. exists (s / 60)%Z.
    replace (s <? 60)%Z with false by (symmetry; apply Z.ltb_ge; lia).
    replace (s <? 3600)%Z with true by (symmetry; apply Z.ltb_lt; lia).
    repeat apply conj; try reflexivity; Z.div_mod_to_equations; lia.
  - intros H. exists (s / 3600)%Z.
    replace (s <? 60)%Z with false by (symmetry; apply Z.ltb_ge; lia).
    replace (s <? 3600)%Z with false by (symmetry; apply Z.ltb_ge; lia).
    replace (s <? 86400)%Z with true by (symmetry; apply Z.ltb_lt; lia).
    repeat apply conj; try reflexivity; Z.div_mod_to_equations; lia.
  - intros H. exists (s / 86400)%Z.
    replace (s <? 60)%Z with false by (symmetry; apply Z.ltb_ge; lia).
    replace (s <? 3600)%Z with false by (symmetry; apply Z.ltb_ge; lia).
    replace (s <? 86400)%Z with false by (symmetry; apply Z.ltb_ge; lia).
    repeat apply conj; try reflexivity; Z.div_mod_to_equations; lia.
Qed.

Lemma formatTime_buckets_example :
  TimeAgo.formatTime 1000 5000 = "now" /\
  TimeAgo.formatTimeShort 1000 5000 = "now".
Proof.
  destruct (formatTime_buckets 1000 5000) as (H & _). apply H. lia.
Defined.

(** The bell of the navbar.  Fetching the count never logs to the
    console, whatever the store does, and leaves the store as it was; the
    count is never negative; a visitor gets 0 without a request, and a
    signed-in user, on a store that answers, the number of their unread
    notifications.  The badge is absent exactly when the count is 0,
    reads "9+" above 9 and the count itself otherwise. *)
Theorem bell_badge (s : Session) (b : Browser) (w : World) :
  let out := DesktopNavbar.unreadCount s b w in
  let n := fst (fst out) in
  let b' := snd (fst out) in
  let w' := snd out in
  browser_console b' = browser_console b /\
  db w' = db w /\
  (0 <= n)%Z /\
  (currentUser s = None -> n = 0%Z /\ b' = b /\ w' = w) /\
  (forall U, currentUser s <> None -> signedIn s = Some U -> faults w = [] ->
     n = Z.of_nat (List.length
                     (filter (fun x => (notif_userId x =? U)
                                       && negb (notif_read x))
                             (notifications (db w))))) /\
  (DesktopNavbar.badge n = None <-> n = 0%Z) /\
  ((9 < n)%Z -> DesktopNavbar.badge n = Some "9+") /\
  ((1 <= n <= 9)%Z -> DesktopNavbar.badge n = Some (showZ n)).
Proof.
  cbv zeta.
  assert (Hbadge : forall n, (0 <= n)%Z ->
            (DesktopNavbar.badge n = None <-> n = 0%Z) /\
            ((9 < n)%Z -> DesktopNavbar.badge n = Some "9+") /\
            ((1 <= n <= 9)%Z -> DesktopNavbar.badge n = Some (showZ n))).
  { intros n Hn. unfold DesktopNavbar.badge. repeat apply conj.
    - destruct (0 <? n)%Z eqn:E; [discriminate|].
      intros _. apply Z.ltb_ge in E. lia.
    - intros ->. reflexivity.
    - intros H. replace (0 <? n)%Z with true
        by (symmetry; apply Z.ltb_lt; lia).
      replace (9 <? n)%Z with true by (symmetry; apply Z.ltb_lt; lia).
      reflexivity.
    - intros H. replace (0 <? n)%Z with true
        by (symmetry; apply Z.ltb_lt; lia).
      replace (9 <? n)%Z with false by (symmetry; apply Z.ltb_ge; lia).
      reflexivity. }
  unfold DesktopNavbar.unreadCount, await.
  destruct (currentUser s) as [cu|] eqn:Ec.
  - destruct w as [d fs rs cs rv]. unfold_actions. unfold_store.
    destruct (signedIn s) as [U|] eqn:Es; reduce_run;
      [destruct fs as [|[e|] fs]; reduce_run|];
      cbn [fst snd browser_console db];
      (split; [reflexivity|]); (split; [reflexivity|]);
      (split; [lia|]);
      (split; [discriminate|]);
      (split; [| apply Hbadge; lia]);
      intros U' _ HU Hq; try discriminate; cbn [faults] in Hq;
      try discriminate.
    injection HU as <-. reflexivity.
  - cbn [fst snd]. repeat apply conj; try reflexivity; try lia.
    + intros _. repeat split.
    + intros U Hc. now elim Hc.
Qed.

Lemma bell_badge_example :
  DesktopNavbar.badge
    (fst (fst (DesktopNavbar.unreadCount Scenario.alice (mkBrowser [] 0 [])
                                         Scenario.liked)))
  = Some "1".
Proof.
  destruct (bell_badge Scenario.alice (mkBrowser [] 0 []) Scenario.liked)
    as (_ & _ & _ & _ & Hn & _ & _ & Hdigit).
  assert (Hc : currentUser Scenario.alice <> None) by discriminate.
  rewrite Hdigit.
  - rewrite (Hn "user_alice" Hc eq_refl eq_refl). reflexivity.
  - rewrite (Hn "user_alice" Hc eq_refl eq_refl). vm_compute.
    split; discriminate.
Defined.

(* ================================================================== *)
(** ** Newest first, after a write *)
(* ================================================================== *)

Lemma Forall_lt_succ {A} (key : A -> N) (t : N) (l : list A) :
  Forall (fun x => (key x < t)%N) l ->
  Forall (fun x => (key x < N.succ t)%N) l.
Proof. apply Forall_impl. intros x H. lia. Qed.

Lemma change_stamped (d d' : DB) : change d d' -> stamped d -> stamped d'.
Proof.
  intros Hc [Hp Hcm]. destruct Hc; unfold stamped; unfold_store;
    unfold Prisma.post_create, Prisma.comment_create;
    repeat match goal with
           | |- context [match find ?f ?l with Some _ => _ | None => _ end] =>
               destruct (find f l)
           end;
    reduce_run; split;
    auto using Forall_lt_succ, removeFirst_Forall, updateFirst_Forall.
  - apply Forall_app. split; [now apply Forall_lt_succ|].
    constructor; [simpl; lia | constructor].
  - apply Forall_forall. intros x Hx. apply filter_In in Hx.
    destruct Hx as [Hx _]. rewrite Forall_forall in Hcm. auto.
  - apply Forall_app. split; [now apply Forall_lt_succ|].
    constructor; [simpl; lia | constructor].
Qed.

Lemma reachable_stamped (d : DB) : reachable d -> stamped d.
Proof.
  induction 1 as [us n t | w s c _ IH].
  - split; constructor.
  - generalize (exec_changes s c w). generalize (db (exec s c w)).
    intros d' Hch. induction Hch as [|d0 d1 d2 Hc _ IHc]; [exact IH|].
    apply IHc. eapply change_stamped; eauto.
Qed.

Lemma newestFirst_snoc (l : list Post) (p : Post) :
  Forall (fun x => (post_createdAt x < post_createdAt p)%N) l ->
  Prisma.newestFirst (l ++ [p]) = p :: Prisma.newestFirst l.
Proof.
  induction 1 as [|x l Hx _ IH]; simpl; [reflexivity|].
  rewrite IH. simpl.
  replace (post_createdAt p <? post_createdAt x)%N with false
    by (symmetry; apply N.ltb_ge; lia).
  reflexivity.
Qed.

Lemma sortDescBy_snoc {A} (key : A -> N) (l : list A) (x : A) :
  Forall (fun y => (key y < key x)%N) l ->
  Query.sortDescBy key (l ++ [x]) = x :: Query.sortDescBy key l.
Proof.
  induction 1 as [|y l Hy _ IH]; simpl; [reflexivity|].
  unfold Query.sortDescBy in *. simpl. rewrite IH. simpl.
  replace (key x <? key y)%N with false by (symmetry; apply N.ltb_ge; lia).
  reflexivity.
Qed.

(** A new post tops the feed.  When [createPost] by a signed-in user
    returns on a reachable store that answers, the first page of
    [getFeedPosts], and so the feed once it is opened, starts with the
    new post: the caller's, with the trimmed text, followed by what the
    first page showed before (its first nine posts). *)
Theorem new_post_tops_feed (s : Session) (U : string) (content : Js.str)
        (imageUrl : option string) (view : PostView)
        (toISOString : N -> string) (b : Browser) (w : World) :
  signedIn s = Some U -> faults w = [] -> reachable (db w) ->
  result (PostAction.createPost s content imageUrl) w = Return view ->
  let w' := run (PostAction.createPost s content imageUrl) w in
  exists feed st b',
    PostAction.getFeedPosts 1 10 w' = (Return feed, w') /\
    map view_post (PostAction.feed_posts feed)
    = view_post view
      :: firstn 9 (Prisma.newestFirst (posts (db w))) /\
    post_content (view_post view) = Js.trim content /\
    post_authorId (view_post view) = U /\
    PostAction.total feed = Z.of_nat (S (List.length (posts (db w)))) /\
    Feed.loadPosts toISOString Feed.initial b w' = (st, b', w') /\
    map (fun p => view_post (Feed.fp_post p)) (Feed.posts st)
    = view_post view :: firstn 9 (Prisma.newestFirst (posts (db w))).
Proof.
  intros Hs Hf Hreach Hret. cbv zeta.
  destruct (reachable_stamped (db w) Hreach) as [Hstamp _].
  destruct w as [d fs rs cs rv]. cbn [db faults] in *. subst fs.
  revert Hret. unfold_actions. unfold Prisma.post_create. rewrite Hs.
  reduce_run.
  destruct (currentUser s) as [cu|]; reduce_run; [|discriminate].
  destruct (Js.truthy (Js.trim content)); reduce_run; [|discriminate].
  destruct (280 <? Js.length content)%Z; reduce_run; [discriminate|].
  intros Hret. injection Hret as <-.
  set (p := mkPost (Prisma.freshId d) (Js.trim content) (Js.orNull imageUrl)
                   U (clock d)).
  assert (Hnew : Prisma.newestFirst (posts d ++ [p])
                 = p :: Prisma.newestFirst (posts d)).
  { apply newestFirst_snoc. exact Hstamp. }
  set (w' := mkWorld (Prisma.tickId (Prisma.set_posts d (posts d ++ [p])))
                     [] rs cs (rv ++ ["/"])).
  assert (Hfeed :
            PostAction.getFeedPosts 1 10 w'
            = (Return
                 (PostAction.mkFeed
                    (map (Prisma.withCounts (db w'))
                         (p :: firstn 9 (Prisma.newestFirst (posts d))))
                    (Z.of_nat (List.length (posts d ++ [p]))) 1 10
                    ((1 - 1) * 10 + 10
                     <? Z.of_nat (List.length (posts d ++ [p])))%Z), w')).
  { rewrite (getFeedPosts_answers 1 w' eq_refl) by lia.
    change (10 * (Z.to_nat 1 - 1)) with 0.
    change (posts (db w')) with (posts d ++ [p])%list.
    cbn [skipn]. rewrite Hnew. reflexivity. }
  eexists _, _, _. split; [exact Hfeed|].
  cbn [PostAction.feed_posts PostAction.total].
  rewrite view_post_withCounts.
  split; [reflexivity|]. split; [reflexivity|]. split; [reflexivity|].
  split.
  { rewrite length_app. simpl. f_equal. lia. }
  split.
  { unfold Feed.loadPosts, await.
    change (Feed.page Feed.initial) with 1%Z. rewrite Hfeed. reflexivity. }
  change (Feed.page Feed.initial) with 1%Z.
  cbn [Z.eqb Pos.eqb Feed.posts PostAction.feed_posts].
  rewrite map_map. cbn [Feed.serialize Feed.fp_post].
  exact (view_post_withCounts (db w') _).
Qed.

Lemma new_post_tops_feed_example :
  exists feed,
    PostAction.getFeedPosts 1 10
      (exec Scenario.bob (CreatePost (Js.lit " second ") None) Scenario.posted)
    = (Return feed,
       exec Scenario.bob (CreatePost (Js.lit " second ") None) Scenario.posted)
    /\
    map (fun v => post_content (view_post v)) (PostAction.feed_posts feed)
    = [Js.lit "second"; Js.lit "hello"].
Proof.
  destruct (new_post_tops_feed Scenario.bob "user_bob" (Js.lit " second ")
              None
              (Prisma.withCounts
                 (db (exec Scenario.bob (CreatePost (Js.lit " second ") None)
                           Scenario.posted))
                 (mkPost "c1" (Js.lit "second") None "user_bob" 1))
              (fun _ => "t") (mkBrowser [] 0 []) Scenario.posted
              eq_refl eq_refl reachable_posted)
    as (feed & st & b' & E & _); [vm_compute; reflexivity|].
  exists feed. split; [exact E|].
  vm_compute in E. injection E as <-. reflexivity.
Defined.

Lemma Forall_filter {A} (P : A -> Prop) (f : A -> bool) (l : list A) :
  Forall P l -> Forall P (filter f l).
Proof.
  intros H. apply Forall_forall. intros x Hx. apply filter_In in Hx.
  rewrite Forall_forall in H. apply H. tauto.
Qed.

(** A new comment is listed first.  When [createComment] by a signed-in
    user returns on a reachable store that answers, [getPostComments] for
    that post returns the new comment (the caller's, with the trimmed
    text) followed by the comments it returned before; the post's author,
    unless the caller, has one more notification, unread, of type COMMENT,
    from the caller, naming the post and the comment; nobody else is
    notified. *)
Theorem new_comment_listed_first (s : Session) (U P : string)
        (content : Js.str) (c : CommentWithAuthor) (w : World) :
  signedIn s = Some U -> faults w = [] -> reachable (db w) ->
  result (CommentAction.createComment s P content) w = Return c ->
  let w' := run (CommentAction.createComment s P content) w in
  exists before post,
    ReadAction.getPostComments P w = (Return before, w) /\
    ReadAction.getPostComments P w' = (Return (c :: before), w') /\
    comment_content (cwa_comment c) = Js.trim content /\
    comment_authorId (cwa_comment c) = U /\
    comment_postId (cwa_comment c) = P /\
    find (fun p => post_id p =? P) (posts (db w)) = Some post /\
    (author_clerkId post = U ->
     notifications (db w') = notifications (db w)) /\
    (author_clerkId post <> U ->
     exists n,
       notifications (db w') = (notifications (db w) ++ [n])%list /\
       notif_userId n = author_clerkId post /\ notif_creatorId n = U /\
       notif_type n = COMMENT /\ notif_postId n = Some P /\
       notif_commentId n = Some (comment_id (cwa_comment c)) /\
       notif_read n = false).
Proof.
  intros Hs Hf Hreach Hret. cbv zeta.
  destruct (reachable_stamped (db w) Hreach) as [_ Hstamp].
  destruct w as [d fs rs cs rv]. cbn [db faults] in *. subst fs.
  revert Hret. unfold_queries. unfold_actions. unfold Prisma.comment_create.
  unfold_store. rewrite Hs. reduce_run.
  destruct (Js.truthy (Js.trim content)); reduce_run; [|discriminate].
  destruct (find (fun p => post_id p =? P) (posts d)) as [post|] eqn:Ep;
    reduce_run; [|discriminate].
  set (r := mkComment (Prisma.freshId d) (Js.trim content) P U (clock d)).
  assert (Hlist : forall d',
             users d' = users d -> comments d' = (comments d ++ [r])%list ->
             Query.commentsOf d' P
             = mkCommentWithAuthor r (find (fun u => clerkId u =? U) (users d))
               :: Query.commentsOf d P).
  { intros d' Hu Hc. unfold Query.commentsOf, Query.userByClerkId.
    rewrite Hu, Hc, filter_app. cbn [filter comment_postId r].
    rewrite String.eqb_refl.
    rewrite sortDescBy_snoc; [reflexivity|].
    apply Forall_filter. exact Hstamp. }
  destruct (author_clerkId post =? U) eqn:Ea; reduce_run;
    intros Hret; injection Hret as <-;
    exists (Query.commentsOf d P), post;
    (split; [reflexivity|]);
    (split; [rewrite Hlist by reflexivity; reflexivity|]);
    cbn [cwa_comment comment_content comment_authorId comment_postId
         comment_id r];
    do 4 (split; [reflexivity|]).
  - apply String.eqb_eq in Ea. split; [reflexivity|].
    intros Hne. now elim Hne.
  - apply String.eqb_neq in Ea. split; [intros He; now elim Ea|].
    intros _. eexists. split; [reflexivity|]. repeat split.
Qed.

Lemma new_comment_listed_first_example :
  exists before post,
    ReadAction.getPostComments "c0" Scenario.posted
    = (Return before, Scenario.posted) /\
    ReadAction.getPostComments "c0" Network.commented
    = (Return (mkCommentWithAuthor
                 (mkComment "c1" (Js.lit "nice") "c0" "user_bob" 1)
                 (Some (mkUser "u2" "user_bob" "bob" (Some "Bob") None))
               :: before),
       Network.commented) /\
    before = [] /\ author_clerkId post = "user_alice".
Proof.
  destruct (new_comment_listed_first Scenario.bob "user_bob" "c0"
              (Js.lit "nice")
              (mkCommentWithAuthor
                 (mkComment "c1" (Js.lit "nice") "c0" "user_bob" 1)
                 (Some (mkUser "u2" "user_bob" "bob" (Some "Bob") None)))
              Scenario.posted eq_refl eq_refl reachable_posted)
    as (before & post & E1 & E2 & _ & _ & _ & Ep & _);
    [vm_compute; reflexivity|].
  exists before, post. split; [exact E1|]. split; [exact E2|].
  vm_compute in E1. injection E1 as <-.
  vm_compute in Ep. injection Ep as <-. split; reflexivity.
Defined.

(** When loading a further page of the feed fails, the error screen
    replaces the list (the posts loaded so far are kept in the state but
    not rendered); "Try Again" then sets the page back to 1, which does
    re-run the effect: on a store that answers the feed shows its first
    page again, without the error. *)
Theorem feed_try_again_on_later_page (toISOString : N -> string)
        (e : string) (rest : list (option string)) (st : Feed.State)
        (b : Browser) (w healed : World) :
  (1 <= Feed.page st)%Z -> Feed.isLoading st = false ->
  Feed.hasMore st = true ->
  faults w = Some e :: rest -> faults healed = [] ->
  exists st1 b1 w1 st2 b2,
    Feed.handleLoadMore toISOString st b w = (st1, b1, w1) /\
    db w1 = db w /\
    Feed.render st1 = Feed.ErrorScreen ("Failed to fetch feed: " ++ e) /\
    Feed.posts st1 = Feed.posts st /\
    Feed.page st1 = (Feed.page st + 1)%Z /\
    Feed.tryAgain toISOString st1 b1 healed = (st2, b2, healed) /\
    Feed.page st2 = 1%Z /\ Feed.error st2 = None /\
    Feed.isLoading st2 = false /\
    Feed.posts st2
    = map (Feed.serialize toISOString)
          (map (Prisma.withCounts (db healed))
               (firstn 10 (Prisma.newestFirst (posts (db healed))))) /\
    requests b2 = (requests b ++ ["getFeedPosts"; "getFeedPosts"])%list.
Proof.
  intros Hpage Hload Hmore Hf Hq.
  destruct w as [d fs rs cs rv]. cbn [faults] in Hf. subst fs.
  destruct st as [ps pg ld er hm]. cbn [Feed.page Feed.isLoading
    Feed.hasMore] in *. subst ld hm.
  eexists _, _, _, _, _. split.
  { unfold Feed.handleLoadMore, Feed.setPage.
    cbn [Feed.page Feed.isLoading Feed.hasMore negb andb].
    replace (pg + 1 =? pg)%Z with false by (symmetry; apply Z.eqb_neq; lia).
    unfold Feed.loadPosts, await.
    cbn [Feed.page Feed.posts Feed.isLoading Feed.error Feed.hasMore].
    replace (pg + 1 =? 1)%Z with false by (symmetry; apply Z.eqb_neq; lia).
    unfold_actions. reduce_run. reflexivity. }
  split; [reflexivity|]. split.
  { unfold Feed.render. cbn [Feed.page Feed.isLoading Feed.error andb].
    reflexivity. }
  split; [reflexivity|]. split; [reflexivity|]. split.
  { unfold Feed.tryAgain, Feed.setPage. cbn [Feed.page].
    replace (1 =? pg + 1)%Z with false by (symmetry; apply Z.eqb_neq; lia).
    unfold Feed.loadPosts, await.
    cbn [Feed.page Feed.posts Feed.isLoading Feed.error Feed.hasMore].
    rewrite (getFeedPosts_answers 1 healed Hq) by lia. reflexivity. }
  cbn [Feed.page Feed.posts Feed.isLoading Feed.error Feed.hasMore
       PostAction.feed_posts Z.eqb Pos.eqb requests logError].
  repeat apply conj; try reflexivity.
  rewrite <- app_assoc. reflexivity.
Qed.

Lemma feed_try_again_on_later_page_example :
  exists st1 b1 w1 st2 b2,
    Feed.handleLoadMore (fun _ => "t") (Feed.mkState [] 1 false None true)
      (mkBrowser [] 0 []) (Scenario.failing (db Scenario.posted))
    = (st1, b1, w1) /\
    Feed.render st1
    = Feed.ErrorScreen "Failed to fetch feed: Can't reach database server" /\
    Feed.tryAgain (fun _ => "t") st1 b1 Scenario.posted
    = (st2, b2, Scenario.posted) /\
    map Feed.fp_id (Feed.posts st2) = ["c0"] /\ Feed.error st2 = None.
Proof.
  assert (Hpage : (1 <= Feed.page (Feed.mkState [] 1 false None true))%Z)
    by (simpl; lia).
  destruct (feed_try_again_on_later_page (fun _ => "t")
              "Can't reach database server" []
              (Feed.mkState [] 1 false None true) (mkBrowser [] 0 [])
              (Scenario.failing (db Scenario.posted)) Scenario.posted
              Hpage eq_refl eq_refl eq_refl eq_refl)
    as (st1 & b1 & w1 & st2 & b2 & E1 & _ & Hr & _ & _ & E2 & _ & He & _
        & Hp & _).
  exists st1, b1, w1, st2, b2.
  split; [exact E1|]. split; [exact Hr|]. split; [exact E2|].
  split; [|exact He]. rewrite Hp. reflexivity.
Defined.
